(** * Excel hyperlink converter: classification and column conversion

    A shallow embedding of [excel_hyperlink_bot.py]: the per-cell
    detectors ([is_valid_email], [is_valid_website], [is_valid_linkedin],
    [format_website_url], [detect_content_type]), the column profiler
    [analyze_column], the conversion loop [convert_column_to_hyperlinks]
    and the folder driver [batch_process_folder].

    Conventions.
    - A Python [str] is a list of characters; a character is a code point
      below 256, carried by [ascii].  Whitespace and lower-casing follow
      Python on that range.
    - The two regular expressions of the source are kept as syntax trees
      and run by a derivative matcher; [Matches] is their meaning.
    - The worksheet is openpyxl's interface as the code uses it: a row
      extent and cells addressed by (row, column), each cell carrying a
      value, a hyperlink target and a font.
    - [print], [logging] and [tqdm] calls are recorded in an output trace. *)

From Stdlib Require Import ZArith NArith Ascii String List Bool Lia DecimalString.
From stdpp Require Import gmap list.

Import ListNotations.

(** ** Python strings *)

Abbreviation str := (list ascii).

Definition py (s : string) : str := list_ascii_of_string s.

Definition code (c : ascii) : N := N_of_ascii c.

Definition in_range (lo hi : N) (c : ascii) : bool :=
  ((lo <=? code c) && (code c <=? hi))%N.

(** [str.isspace] on one character: TAB..CR, FS..US, SPACE, NEL, NBSP. *)
Definition is_space (c : ascii) : bool :=
  in_range 9 13 c || in_range 28 32 c || (code c =? 133)%N || (code c =? 160)%N.

(** [str.lower] on one character: A-Z and the Latin-1 capitals. *)
Definition lower_char (c : ascii) : ascii :=
  if in_range 65 90 c || (in_range 192 222 c && negb (code c =? 215)%N)
  then ascii_of_N (code c + 32)
  else c.

Definition lower (s : str) : str := map lower_char s.

Fixpoint lstrip (s : str) : str :=
  match s with
  | [] => []
  | c :: t => if is_space c then lstrip t else s
  end.

Definition rstrip (s : str) : str := rev (lstrip (rev s)).

Definition strip (s : str) : str := rstrip (lstrip s).

(** Truth value of a string: [not text] holds for the empty string only. *)
Definition truthy_str (s : str) : bool :=
  match s with [] => false | _ :: _ => true end.

Definition ascii_eqb (a b : ascii) : bool := (code a =? code b)%N.

(** [s.startswith(p)] *)
Fixpoint startswith (p s : str) : bool :=
  match p, s with
  | [], _ => true
  | _ :: _, [] => false
  | a :: p', b :: s' => ascii_eqb a b && startswith p' s'
  end.

(** [needle in hay] *)
Fixpoint contains (needle hay : str) : bool :=
  startswith needle hay ||
  match hay with
  | [] => false
  | _ :: t => contains needle t
  end.

(** [s.endswith(p)] *)
Definition endswith (p s : str) : bool := startswith (rev p) (rev s).

(** ** Regular expressions *)

Inductive regex : Type :=
| ReNone
| ReEps
| ReClass (p : ascii -> bool)
| ReCat (r1 r2 : regex)
| ReAlt (r1 r2 : regex)
| ReStar (r : regex).

Definition ReChar (c : ascii) : regex := ReClass (ascii_eqb c).
Definition RePlus (r : regex) : regex := ReCat r (ReStar r).
Definition ReOpt (r : regex) : regex := ReAlt ReEps r.
(** [r{2,}] *)
Definition ReTwoOrMore (r : regex) : regex := ReCat r (ReCat r (ReStar r)).
Definition ReLit (s : str) : regex :=
  fold_right (fun c r => ReCat (ReChar c) r) ReEps s.

Fixpoint nullable (r : regex) : bool :=
  match r with
  | ReNone => false
  | ReEps => true
  | ReClass _ => false
  | ReCat r1 r2 => nullable r1 && nullable r2
  | ReAlt r1 r2 => nullable r1 || nullable r2
  | ReStar _ => true
  end.

Fixpoint deriv (c : ascii) (r : regex) : regex :=
  match r with
  | ReNone => ReNone
  | ReEps => ReNone
  | ReClass p => if p c then ReEps else ReNone
  | ReCat r1 r2 =>
      if nullable r1
      then ReAlt (ReCat (deriv c r1) r2) (deriv c r2)
      else ReCat (deriv c r1) r2
  | ReAlt r1 r2 => ReAlt (deriv c r1) (deriv c r2)
  | ReStar r1 => ReCat (deriv c r1) (ReStar r1)
  end.

(** The whole of [s] is a word of [r]. *)
Fixpoint full_match (r : regex) (s : str) : bool :=
  match s with
  | [] => nullable r
  | c :: t => full_match (deriv c r) t
  end.

Inductive Matches : regex -> str -> Prop :=
| MEps : Matches ReEps []
| MClass p c : p c = true -> Matches (ReClass p) [c]
| MCat r1 r2 s1 s2 :
    Matches r1 s1 -> Matches r2 s2 -> Matches (ReCat r1 r2) (s1 ++ s2)
| MAltL r1 r2 s : Matches r1 s -> Matches (ReAlt r1 r2) s
| MAltR r1 r2 s : Matches r2 s -> Matches (ReAlt r1 r2) s
| MStarNil r : Matches (ReStar r) []
| MStarApp r s1 s2 :
    Matches r s1 -> Matches (ReStar r) s2 -> Matches (ReStar r) (s1 ++ s2).

Definition newline : ascii := ascii_of_N 10.

(** [re.match('^' r '$', s) is not None].  Without MULTILINE, [$] holds at
    the end of the string and also just before a final newline. *)
Definition re_match_anchored (r : regex) (s : str) : bool :=
  full_match r s ||
  match rev s with
  | c :: t => ascii_eqb c newline && full_match r (rev t)
  | [] => false
  end.

(** ** Character classes of the two patterns *)

Definition is_alpha (c : ascii) : bool := in_range 97 122 c || in_range 65 90 c.
Definition is_digit (c : ascii) : bool := in_range 48 57 c.
Definition is_alnum (c : ascii) : bool := is_alpha c || is_digit c.

(** [[a-zA-Z0-9._%+-]] *)
Definition local_char (c : ascii) : bool :=
  is_alnum c || contains [c] (py "._%+-").

(** [[a-zA-Z0-9.-]] *)
Definition domain_char (c : ascii) : bool :=
  is_alnum c || contains [c] (py ".-").

(** [[a-zA-Z0-9-]] *)
Definition host_char (c : ascii) : bool :=
  is_alnum c || contains [c] (py "-").

(** [\S] *)
Definition non_space (c : ascii) : bool := negb (is_space c).

(** The pattern of [is_valid_email]:
    ^ [a-zA-Z0-9._%+-]+ @ [a-zA-Z0-9.-]+ \. [a-zA-Z]{2,} $ *)
Definition email_pattern : regex :=
  ReCat (RePlus (ReClass local_char))
 (ReCat (ReChar "@")
 (ReCat (RePlus (ReClass domain_char))
 (ReCat (ReChar ".")
        (ReTwoOrMore (ReClass is_alpha))))).

(** The pattern of [is_valid_website], group by group:
    ^ (https?://)? (www\.)? [a-zA-Z0-9-]+ \. [a-zA-Z]{2,} (?:\.[a-zA-Z]{2,})? (?:/ \S* )? $ *)
Definition website_pattern : regex :=
  ReCat (ReOpt (ReCat (ReLit (py "http"))
               (ReCat (ReOpt (ReChar "s")) (ReLit (py "://")))))
 (ReCat (ReOpt (ReLit (py "www.")))
 (ReCat (RePlus (ReClass host_char))
 (ReCat (ReChar ".")
 (ReCat (ReTwoOrMore (ReClass is_alpha))
 (ReCat (ReOpt (ReCat (ReChar ".") (ReTwoOrMore (ReClass is_alpha))))
        (ReOpt (ReCat (ReChar "/") (ReStar (ReClass non_space))))))))).

Definition common_domains : list str :=
  map py
    [ ".com"; ".org"; ".net"; ".edu"; ".gov"; ".io"; ".co"; ".info"; ".in";
      ".us"; ".uk"; ".ca"; ".au"; ".de"; ".fr"; ".jp"; ".cn"; ".br"; ".ru";
      ".mx"; ".es"; ".it"; ".nl"; ".se"; ".no"; ".dk"; ".fi"; ".pl"; ".ch" ]%string.

(** ** Core detection functions *)

Definition is_valid_email (text : str) : bool :=
  re_match_anchored email_pattern (strip text).

Definition is_valid_website (text : str) : bool :=
  let text := lower (strip text) in
  if negb (truthy_str text) || negb (contains (py ".") text) then false
  else re_match_anchored website_pattern text
       || existsb (fun ext => contains ext text) common_domains.

Definition is_valid_linkedin (text : str) : bool :=
  let text := lower (strip text) in
  contains (py "linkedin.com") text.

Definition format_website_url (url : str) : str :=
  let url := strip url in
  if negb (startswith (py "http://") url || startswith (py "https://") url)
  then py "https://" ++ url
  else url.

Inductive ContentType : Type := Empty | Email | LinkedIn | Website | Text.

Definition detect_content_type (text : str) : ContentType :=
  let text := strip text in
  if negb (truthy_str text) then Empty
  else if is_valid_email text then Email
  else if is_valid_linkedin text then LinkedIn
  else if is_valid_website text then Website
  else Text.

(** ** Configuration *)

Record BotConfig : Type := mkConfig {
  hyperlink_color : str;
  backup_files : bool;
  max_rows_to_process : Z;
  supported_extensions : list str
}.

Definition defaults : BotConfig :=
  {| hyperlink_color := py "0000FF";
     backup_files := true;
     max_rows_to_process := 100000;
     supported_extensions := map py [".xlsx"; ".xlsm"; ".xltx"; ".xltm"]%string |}.

(** ** Worksheet *)

(** What a cell may hold.  [VObj] stands for any other object that is
    always true (a date, a non-zero float) with its [str()]; a zero
    float is read like [VInt 0], since only its truth value is used. *)
Inductive CellValue : Type :=
| VNone
| VStr (s : str)
| VBool (b : bool)
| VInt (z : Z)
| VObj (repr : str).

(** [bool(v)] *)
Definition truthy (v : CellValue) : bool :=
  match v with
  | VNone => false
  | VStr s => truthy_str s
  | VBool b => b
  | VInt z => negb (z =? 0)%Z
  | VObj _ => true
  end.

(** [str(v)] *)
Definition py_str (v : CellValue) : str :=
  match v with
  | VNone => py "None"
  | VStr s => s
  | VBool true => py "True"
  | VBool false => py "False"
  | VInt z => py (NilZero.string_of_int (Z.to_int z))
  | VObj repr => repr
  end.

Record Font : Type := mkFont {
  color : option str;
  underline : option str;
  bold : bool
}.

Record Cell : Type := mkCell {
  value : CellValue;
  hyperlink : option str;
  font : Font
}.

Definition blank_font : Font :=
  {| color := None; underline := None; bold := false |}.

Definition blank_cell : Cell :=
  {| value := VNone; hyperlink := None; font := blank_font |}.

(** Cells are keyed by (row, column), both counted from 1. *)
Record Worksheet : Type := mkSheet {
  max_row : nat;
  cells : gmap (nat * nat) Cell
}.

(** [ws[f'{column_letter}{row}']]: a cell never written reads as blank. *)
Definition ws_get (ws : Worksheet) (row col : nat) : Cell :=
  default blank_cell (cells ws !! (row, col)).

Definition ws_set (ws : Worksheet) (row col : nat) (c : Cell) : Worksheet :=
  {| max_row := max_row ws; cells := <[(row, col) := c]> (cells ws) |}.

(** [cell.hyperlink = target].  openpyxl's setter also writes the target
    as the value of a cell that holds [None]. *)
Definition set_hyperlink (c : Cell) (target : str) : Cell :=
  {| value := match value c with VNone => VStr target | v => v end;
     hyperlink := Some target;
     font := font c |}.

(** [cell.font = f] *)
Definition set_font (c : Cell) (f : Font) : Cell :=
  {| value := value c; hyperlink := hyperlink c; font := f |}.

(** [str(cell.value).strip() if cell.value else ""] *)
Definition cell_text (c : Cell) : str :=
  if truthy (value c) then strip (py_str (value c)) else [].

(** ** Column analysis *)

Global Instance ContentType_eq_dec : EqDecision ContentType.
Proof. solve_decision. Defined.

Inductive ColumnLabel : Type :=
| Detected (t : ContentType)
| Unknown.

(** The dict [content_types], in insertion order. *)
Abbreviation tally := (list (ContentType * nat)).

(** [d[t] = d.get(t, 0) + 1] *)
Fixpoint tally_add (t : ContentType) (d : tally) : tally :=
  match d with
  | [] => [(t, 1%nat)]
  | (k, n) :: d' =>
      if decide (k = t) then (k, S n) :: d' else (k, n) :: tally_add t d'
  end.

(** [max(items, key=lambda x: x[1])] with [best] the running maximum:
    a later item replaces it only when strictly larger. *)
Fixpoint max_item (best : ContentType * nat) (d : tally) : ContentType * nat :=
  match d with
  | [] => best
  | x :: d' => max_item (if (snd best <? snd x)%nat then x else best) d'
  end.

Definition analyze_step (ws : Worksheet) (col : nat) (d : tally) (row : nat) : tally :=
  let cell := ws_get ws row col in
  let value := cell_text cell in
  if truthy_str value then tally_add (detect_content_type value) d else d.

Definition analyze_column (ws : Worksheet) (col : nat) : ColumnLabel * nat :=
  let sample_size := Nat.min 100 (max_row ws) in
  let content_types := fold_left (analyze_step ws col) (seq 1 sample_size) [] in
  match content_types with
  | [] => (Unknown, 0%nat)
  | x :: d => let '(t, n) := max_item x d in (Detected t, n)
  end.

(** ** Output trace *)

Inductive Event : Type :=
| PrintAnalysis (col : nat) (column_name : str) (label : ColumnLabel) (confidence : nat)
| TqdmOpen (total : Z)
| TqdmUpdate (n : Z)
| TqdmClose
| PrintProcessing (col : nat) (total : Z)
| PrintProgress (progress : Z) (row : nat) (total : Z)
| LogError (msg : str) (path : str)
| LogWarning (msg : str) (path : str)
| LogInfo (msg : str)
| PrintMsg (msg : str)
| PrintFound (total : nat)
| LogFound (total : nat)
| PrintBatchProgress (progress : Z) (done total : nat)
| PrintBatchDone (success_count total : nat)
| LogBatchDone (success_count total : nat).

(** What the processing of one file prints and logs, [FColumn] holding
    the output of one column conversion. *)
Inductive FileEvent : Type :=
| FLogInfo (msg arg : str)
| FLogError (msg arg : str)
| FLogCompleted (total_converted : nat)
| FPrint (msg arg : str)
| FPrintMsg (msg : str)
| FPrintDimensions (rows cols : nat)
| FColumn (out : list Event)
| FPrintTotal (total_converted : nat).

(** What a batch prints and logs: its own lines, and between them what
    each call of [process_single_file] wrote to the same console and log. *)
Inductive BatchEvent : Type :=
| ByBatch (e : Event)
| ByFile (file_path : str) (out : list FileEvent).

(** ** Column conversion *)

Record ConvState : Type := mkConv {
  st_ws : Worksheet;
  converted_count : nat;
  last_progress : Z;
  st_out : list Event
}.

Definition hyperlink_font (cfg : BotConfig) : Font :=
  {| color := Some (hyperlink_color cfg);
     underline := Some (py "single");
     bold := false |}.

(** One iteration of [for row in range(1, total_rows + 1)]. *)
Definition convert_row (cfg : BotConfig) (tqdm_available : bool) (col : nat)
    (total_rows : Z) (st : ConvState) (row : nat) : ConvState :=
  let ws := st_ws st in
  let count := converted_count st in
  let cell := ws_get ws row col in
  let value := cell_text cell in
  let '(ws', count') :=
    if truthy_str value then
      match detect_content_type value with
      | Email =>
          let cell' := set_hyperlink cell (py "mailto:" ++ value) in
          (ws_set ws row col (set_font cell' (hyperlink_font cfg)), S count)
      | Website | LinkedIn =>
          let formatted_url := format_website_url value in
          let cell' := set_hyperlink cell formatted_url in
          (ws_set ws row col (set_font cell' (hyperlink_font cfg)), S count)
      | Empty | Text => (ws, count)
      end
    else (ws, count) in
  if tqdm_available then
    {| st_ws := ws'; converted_count := count';
       last_progress := last_progress st;
       st_out := st_out st ++ [TqdmUpdate 1] |}
  else
    let progress := (Z.of_nat row * 100 / total_rows)%Z in
    if (last_progress st + 10 <=? progress)%Z then
      {| st_ws := ws'; converted_count := count';
         last_progress := progress;
         st_out := st_out st ++ [PrintProgress progress row total_rows] |}
    else
      {| st_ws := ws'; converted_count := count';
         last_progress := last_progress st;
         st_out := st_out st |}.

(** [range(1, n + 1)] for an integer [n]. *)
Definition rows_upto (n : Z) : list nat := seq 1 (Z.to_nat n).

Definition convert_column_to_hyperlinks (cfg : BotConfig) (tqdm_available : bool)
    (ws : Worksheet) (col : nat) (column_name : str) : ConvState :=
  let '(content_type, confidence) := analyze_column ws col in
  let out := [PrintAnalysis col column_name content_type confidence] in
  let total_rows := Z.min (Z.of_nat (max_row ws)) (max_rows_to_process cfg) in
  let out :=
    if tqdm_available then out ++ [TqdmOpen total_rows]
    else out ++ [PrintProcessing col total_rows] in
  let st :=
    fold_left (convert_row cfg tqdm_available col total_rows)
      (rows_upto total_rows)
      {| st_ws := ws; converted_count := 0; last_progress := 0; st_out := out |} in
  if tqdm_available then
    {| st_ws := st_ws st; converted_count := converted_count st;
       last_progress := last_progress st; st_out := st_out st ++ [TqdmClose] |}
  else st.

(** ** Batch processing *)

(** What [os.path.exists] and [os.listdir] see at a path. *)
Inductive FsEntry : Type :=
| Missing
| RegularFile
| Directory (entries : list str).

(** A call either returns or raises an [Exception]. *)
Inductive Outcome (A : Type) : Type :=
| Returned (a : A)
| Raised (e : str).
Arguments Returned {A} a.
Arguments Raised {A} e.

(** [os.path.join(a, b)] on a POSIX system. *)
Definition path_join (a b : str) : str :=
  if startswith (py "/") b then b
  else if negb (truthy_str a) || endswith (py "/") a then a ++ b
  else a ++ py "/" ++ b.

(** [any(file.lower().endswith(ext) for ext in supported_extensions)] *)
Definition is_supported (cfg : BotConfig) (file : str) : bool :=
  existsb (fun ext => endswith ext (lower file)) (supported_extensions cfg).

Record BatchState (World : Type) : Type := mkBatch {
  bs_world : World;
  success_count : nat;
  bs_out : list BatchEvent
}.
Arguments mkBatch {World}.
Arguments bs_world {World}.
Arguments success_count {World}.
Arguments bs_out {World}.

Section Batch.
(** The file system and whatever else a file's processing touches. *)
Variable World : Type.
Variable fs_lookup : World -> str -> FsEntry.
(** [process_single_file] is taken by its interface: on a path it
    returns a flag or raises, leaves a new world, and has printed and
    logged something on the way. *)
Variable process_single_file : str -> World -> Outcome bool * World * list FileEvent.

(** One iteration of [for i, file_path in enumerate(batch_progress)]. *)
Definition batch_step (tqdm_available : bool) (total : nat)
    (st : BatchState World) (item : nat * str) : BatchState World :=
  let '(i, file_path) := item in
  let '(res, w', file_out) := process_single_file file_path (bs_world st) in
  let out := bs_out st ++ [ByFile file_path file_out] in
  let '(count', out') :=
    match res with
    | Returned true => (S (success_count st), out)
    | Returned false =>
        (success_count st, out ++ [ByBatch (LogError (py "Failed to process") file_path)])
    | Raised e =>
        (success_count st,
         out ++ [ByBatch (LogError (py "Error processing") file_path);
                 ByBatch (PrintMsg e)])
    end in
  let out'' :=
    if negb tqdm_available then
      let progress := ((Z.of_nat i + 1) * 100 / Z.of_nat total)%Z in
      out' ++ [ByBatch (PrintBatchProgress progress (i + 1) total)]
    else out' in
  {| bs_world := w'; success_count := count'; bs_out := out'' |}.

(** [enumerate(l)] *)
Definition enumerate (l : list str) : list (nat * str) :=
  combine (seq 0 (length l)) l.

Definition batch_process_folder (cfg : BotConfig) (tqdm_available : bool)
    (folder_path : str) (w : World) : Outcome bool * BatchState World :=
  match fs_lookup w folder_path with
  | Missing =>
      (Returned false,
       {| bs_world := w; success_count := 0;
          bs_out := map ByBatch [LogError (py "Folder not found") folder_path;
                                 PrintMsg (py "Folder not found!")] |})
  | RegularFile =>
      (Raised (py "NotADirectoryError"),
       {| bs_world := w; success_count := 0; bs_out := [] |})
  | Directory entries =>
      let excel_files :=
        map (path_join folder_path) (filter (fun f => is_supported cfg f = true) entries) in
      if decide (excel_files = []) then
        (Returned false,
         {| bs_world := w; success_count := 0;
            bs_out := map ByBatch
                        [LogWarning (py "No Excel files found in") folder_path;
                         PrintMsg (py "No Excel files found in the folder!")] |})
      else
        let total := length excel_files in
        let out :=
          map ByBatch
            ([PrintFound total; LogFound total]
             ++ (if tqdm_available then [TqdmOpen (Z.of_nat total)]
                 else [PrintMsg (py "Starting batch processing...")])) in
        let st :=
          fold_left (batch_step tqdm_available total) (enumerate excel_files)
            {| bs_world := w; success_count := 0; bs_out := out |} in
        let out_end :=
          map ByBatch
            ((if tqdm_available then [TqdmClose] else [])
             ++ [PrintBatchDone (success_count st) total;
                 LogBatchDone (success_count st) total]) in
        (Returned (0 <? success_count st)%nat,
         {| bs_world := bs_world st; success_count := success_count st;
            bs_out := bs_out st ++ out_end |})
  end.
End Batch.

(** ** Predicates used in the statements *)

(** A string with no white space at its start. *)
Definition no_lead (s : str) : Prop :=
  match s with
  | [] => True
  | c :: _ => is_space c = false
  end.

(** A string with no white space at either end. *)
Definition trimmed (s : str) : Prop := no_lead s /\ no_lead (rev s).


(** The shape the email pattern describes: a local part, [@], a domain,
    a dot and a top-level part of at least two letters. *)
Definition email_shape (s : str) : Prop :=
  exists l d t,
    s = l ++ "@"%char :: d ++ "."%char :: t
    /\ l <> [] /\ forallb local_char l = true
    /\ d <> [] /\ forallb domain_char d = true
    /\ (2 <= length t)%nat /\ forallb is_alpha t = true.

(** The website heuristic on a text as it is given: it contains a dot,
    and in lower case it matches the website pattern or contains one of the
    listed domain endings. *)
Definition website_as_given (x : str) : bool :=
  contains (py ".") (lower x)
  && (re_match_anchored website_pattern (lower x)
      || existsb (fun ext => contains ext (lower x)) common_domains).

(** The precedence of the classifier with each test applied to the text
    as it is given, nothing removed from it: blank first, then the anchored
    email pattern, then the LinkedIn substring in any letter case, then the
    website heuristic, else text. *)
Definition classify_as_given (x : str) : ContentType :=
  if forallb is_space x then Empty
  else if re_match_anchored email_pattern x then Email
  else if contains (py "linkedin.com") (lower x) then LinkedIn
  else if website_as_given x then Website
  else Text.

(** [s] starts with one of the two schemes. *)
Definition has_scheme (s : str) : Prop :=
  exists t, s = py "http://" ++ t \/ s = py "https://" ++ t.

(** Some entry of [common_domains] occurs in the stripped, lower-cased text. *)
Definition has_common_domain (x : str) : Prop :=
  exists ext, In ext common_domains /\ contains ext (lower (strip x)) = true.

(** The types the converter turns into links. *)
Definition is_link (t : ContentType) : bool :=
  match t with
  | Email | LinkedIn | Website => true
  | Empty | Text => false
  end.

(** The type the conversion loop computes for a cell. *)
Definition cell_type (c : Cell) : ContentType := detect_content_type (cell_text c).

(** The target a text is linked to: [mailto:] for an email, the formatted
    URL otherwise. *)
Definition link_target (v : str) : str :=
  match detect_content_type v with
  | Email => py "mailto:" ++ v
  | _ => format_website_url v
  end.

(** A cell turned into a link: same value, new target, hyperlink font. *)
Definition linked (cfg : BotConfig) (c : Cell) : Cell :=
  {| value := value c;
     hyperlink := Some (link_target (cell_text c));
     font := hyperlink_font cfg |}.

(** [min(ws.max_row, config.get('max_rows_to_process'))] *)
Definition row_limit (cfg : BotConfig) (ws : Worksheet) : Z :=
  Z.min (Z.of_nat (max_row ws)) (max_rows_to_process cfg).

(** ** A small worksheet for the scenarios *)

Definition text_cell (s : string) : Cell :=
  {| value := VStr (py s); hyperlink := None; font := blank_font |}.

(** Column 1: an address, a note, a site, a profile; column 2: a number. *)
Definition demo_sheet : Worksheet :=
  {| max_row := 4;
     cells := list_to_map
       [ ((1, 1)%nat, text_cell "jane@example.com");
         ((2, 1)%nat, text_cell "Hello World");
         ((3, 1)%nat, text_cell "example.com");
         ((4, 1)%nat, text_cell " LinkedIn.com/in/jane ");
         ((1, 2)%nat, {| value := VInt 42; hyperlink := None; font := blank_font |}) ] |}.


(** A cell that carries the link [target] in the configured hyperlink
    style: the configured colour, single underline. *)
Definition styled_link (cfg : BotConfig) (c : Cell) (target : str) : Prop :=
  hyperlink c = Some target
  /\ font c = hyperlink_font cfg
  /\ color (font c) = Some (hyperlink_color cfg)
  /\ underline (font c) = Some (py "single").

(** ** The analyzer seen from its sample *)

(** The texts the analyzer reads: rows 1 to [min(100, max_row)] of the
    column, in order. *)
Definition sample (ws : Worksheet) (col : nat) : list str :=
  map (fun row => cell_text (ws_get ws row col)) (seq 1 (Nat.min 100 (max_row ws))).

(** How many non-empty texts of [vals] are classified [t]. *)
Fixpoint votes (t : ContentType) (vals : list str) : nat :=
  match vals with
  | [] => 0
  | v :: vs =>
      (if truthy_str v && bool_decide (detect_content_type v = t) then 1 else 0)
      + votes t vs
  end.

(** [d.get(t, 0)] *)
Fixpoint tally_get (t : ContentType) (d : tally) : nat :=
  match d with
  | [] => 0
  | (k, n) :: d' => if decide (k = t) then n else tally_get t d'
  end.

(** The tally of a list of texts, built as the analyzer builds it. *)
Definition tally_from (d : tally) (vals : list str) : tally :=
  fold_left
    (fun d v => if truthy_str v then tally_add (detect_content_type v) d else d)
    vals d.

(** The analyzer's answer as a function of the sampled texts alone. *)
Definition profile (vals : list str) : ColumnLabel * nat :=
  match tally_from [] vals with
  | [] => (Unknown, 0%nat)
  | x :: d => let '(t, n) := max_item x d in (Detected t, n)
  end.

(** A sheet whose first column holds the three texts of the analyzer scenario. *)
Definition scenario_sheet : Worksheet :=
  {| max_row := 3;
     cells := list_to_map
       [ ((1, 1)%nat, text_cell "a@b.com");
         ((2, 1)%nat, text_cell "c@d.com");
         ((3, 1)%nat, text_cell "notes") ] |}.

(** A tally as the analyzer keeps it: one entry per type, counts positive. *)
Definition tally_wf (d : tally) : Prop :=
  List.NoDup (map fst d) /\ Forall (fun kn => (0 < snd kn)%nat) d.

(** ** The batch seen from its files *)

(** A file counts as a success when its processing returns [True]. *)
Definition succeeded (o : Outcome bool) : bool :=
  match o with
  | Returned true => true
  | Returned false | Raised _ => false
  end.

Section BatchFiles.
Variable World : Type.
Variable fs_lookup : World -> str -> FsEntry.
Variable process_single_file : str -> World -> Outcome bool * World * list FileEvent.

(** The files the batch has to process: the supported entries of the
    folder, in listing order; none when there is no such folder. *)
Definition batch_files (cfg : BotConfig) (folder_path : str) (w : World) : list str :=
  match fs_lookup w folder_path with
  | Directory entries =>
      map (path_join folder_path) (filter (fun f => is_supported cfg f = true) entries)
  | Missing | RegularFile => []
  end.

(** Every file processed in turn, each from the world the one before
    left, whatever the one before did. *)
Fixpoint run_files (files : list str) (w : World) : list (Outcome bool) * World :=
  match files with
  | [] => ([], w)
  | f :: fs =>
      let '(res, w', _) := process_single_file f w in
      let '(rs, w'') := run_files fs w' in
      (res :: rs, w'')
  end.
End BatchFiles.
Arguments batch_files {World}.
Arguments run_files {World}.

(** A folder with two good workbooks, a corrupt one and a text file;
    what lies inside the folder is a regular file. *)
Definition demo_folder (w : nat) (path : str) : FsEntry :=
  if decide (path = py "inbox")
  then Directory (map py ["a.xlsx"; "bad.xlsx"; "notes.txt"; "c.XLSX"]%string)
  else if startswith (py "inbox/") path then RegularFile
  else Missing.

(** Processing raises on the corrupt workbook and succeeds on the others;
    the world counts the outputs written. *)
Definition demo_process (file : str) (w : nat) : Outcome bool * nat * list FileEvent :=
  if contains (py "bad") file
  then (Raised (py "corrupt"), w, [FLogInfo (py "Starting processing") file])
  else (Returned true, S w, [FLogInfo (py "Starting processing") file]).

(** ** Reading the output of a column conversion *)

(** The percentages of the progress lines printed, in order. *)
Fixpoint progress_values (out : list Event) : list Z :=
  match out with
  | [] => []
  | PrintProgress p _ _ :: out' => p :: progress_values out'
  | _ :: out' => progress_values out'
  end.

(** The visited rows whose cell the loop turns into a link. *)
Definition link_rows (cfg : BotConfig) (ws : Worksheet) (col : nat) : list nat :=
  List.filter (fun r => is_link (cell_type (ws_get ws r col)))
    (rows_upto (row_limit cfg ws)).

(** ** Paths *)

(** [p.rfind(c)] scanning from index [i], with [found] the last hit so far. *)
Fixpoint rfind_from (c : ascii) (p : str) (i found : Z) : Z :=
  match p with
  | [] => found
  | a :: t => rfind_from c t (i + 1)%Z (if ascii_eqb a c then i else found)
  end.

(** [p.rfind(c)]: the highest index of [c] in [p], or -1. *)
Definition rfind (c : ascii) (p : str) : Z := rfind_from c p 0%Z (-1)%Z.

(** [p[a:b]] for indices that are not negative. *)
Definition slice (a b : Z) (p : str) : str :=
  skipn (Z.to_nat a) (firstn (Z.to_nat b) p).

(** [os.path.basename(p)]: what follows the last slash. *)
Definition basename (p : str) : str :=
  skipn (Z.to_nat (rfind "/" p + 1)) p.

(** [os.path.splitext(p)].  The extension starts at the last dot of the
    last path component, unless only dots come before it there. *)
Definition splitext (p : str) : str * str :=
  let sepIndex := rfind "/" p in
  let dotIndex := rfind "." p in
  if (sepIndex <? dotIndex)%Z
     && existsb (fun a => negb (ascii_eqb a ".")) (slice (sepIndex + 1) dotIndex p)
  then (firstn (Z.to_nat dotIndex) p, skipn (Z.to_nat dotIndex) p)
  else (p, []).

(** [f"{base_name}_with_hyperlinks{ext}"] for [base_name, ext = splitext(file_path)]. *)
Definition output_path (file_path : str) : str :=
  let '(base_name, ext) := splitext file_path in
  base_name ++ py "_with_hyperlinks" ++ ext.

(** ** One workbook *)

(** A sheet as the file processor sees it: its cells and its column extent. *)
Record Sheet : Type := mkSheetOf {
  grid : Worksheet;
  max_column : nat
}.

(** A workbook: the active sheet, if it has one, and the sheets the code
    never looks at. *)
Record Workbook : Type := mkBook {
  active : option Sheet;
  other_sheets : list Sheet
}.

Record ColumnsState : Type := mkColumns {
  cs_ws : Worksheet;
  total_converted : nat;
  cs_out : list FileEvent
}.

(** What [process_single_file] gives back: the flag, the world it leaves
    and what it printed and logged. *)
Record FileResult (World : Type) : Type := mkFileResult {
  fr_ok : bool;
  fr_world : World;
  fr_out : list FileEvent
}.
Arguments mkFileResult {World}.
Arguments fr_ok {World}.
Arguments fr_world {World}.
Arguments fr_out {World}.

Section SingleFile.
(** The clock and the file system, reached through the calls the code makes. *)
Variable World : Type.
(** [datetime.now().strftime("%Y%m%d_%H%M%S")] *)
Variable timestamp : World -> str.
(** Making the [backups] directory when it is missing, then
    [shutil.copy2(src, dst)]; either may raise. *)
Variable copy_to_backups : str -> str -> World -> Outcome unit * World.
(** [openpyxl.load_workbook(path)] *)
Variable load_workbook : str -> World -> Outcome Workbook * World.
(** [wb.save(path)] *)
Variable wb_save : Workbook -> str -> World -> Outcome unit * World.
(** [openpyxl.utils.get_column_letter(col)] *)
Variable get_column_letter : nat -> str.

Definition create_backup (cfg : BotConfig) (file_path : str) (w : World)
    : option str * World * list FileEvent :=
  if negb (backup_files cfg) then (None, w, [])
  else
    let ts := timestamp w in
    let backup_dir := py "backups" in
    let file_name := basename file_path in
    let backup_path := path_join backup_dir (file_name ++ py ".backup_" ++ ts) in
    match copy_to_backups file_path backup_path w with
    | (Returned _, w') =>
        (Some backup_path, w', [FLogInfo (py "Backup created") backup_path])
    | (Raised e, w') => (None, w', [FLogError (py "Backup failed") e])
    end.

(** [header if header else f"Column {column_letter}"], as it is printed. *)
Definition column_name (ws : Worksheet) (col : nat) : str :=
  let header := value (ws_get ws 1 col) in
  if truthy header then py_str header
  else py "Column " ++ get_column_letter col.

(** One iteration of [for col in range(1, ws.max_column + 1)]. *)
Definition convert_columns_step (cfg : BotConfig) (tqdm_available : bool)
    (st : ColumnsState) (col : nat) : ColumnsState :=
  let name := column_name (cs_ws st) col in
  let r := convert_column_to_hyperlinks cfg tqdm_available (cs_ws st) col name in
  {| cs_ws := st_ws r;
     total_converted := total_converted st + converted_count r;
     cs_out := cs_out st ++ [FColumn (st_out r)] |}.

Definition convert_columns (cfg : BotConfig) (tqdm_available : bool) (sh : Sheet)
    : ColumnsState :=
  fold_left (convert_columns_step cfg tqdm_available) (seq 1 (max_column sh))
    {| cs_ws := grid sh; total_converted := 0; cs_out := [] |}.

(** What the [except Exception] handler does. *)
Definition file_failed (file_path e : str) (w : World) (out : list FileEvent)
    : FileResult World :=
  {| fr_ok := false; fr_world := w;
     fr_out := out ++ [FLogError (py "Error processing") file_path;
                       FPrint (py "Error") e] |}.

Definition process_single_file (cfg : BotConfig) (tqdm_available : bool)
    (file_path : str) (w : World) : FileResult World :=
  let out := [FLogInfo (py "Starting processing") file_path] in
  let '(backup_path, w1, backup_out) := create_backup cfg file_path w in
  let out := out ++ backup_out in
  match load_workbook file_path w1 with
  | (Raised e, w2) => file_failed file_path e w2 out
  | (Returned wb, w2) =>
      let out := out ++ [FPrint (py "Processing") (basename file_path)] in
      match active wb with
      | None => file_failed file_path (py "AttributeError") w2 out
      | Some ws =>
          let out := out ++ [FPrintDimensions (max_row (grid ws)) (max_column ws)] in
          let st := convert_columns cfg tqdm_available ws in
          let out := out ++ cs_out st in
          let output_path := output_path file_path in
          let wb' := {| active := Some {| grid := cs_ws st; max_column := max_column ws |};
                        other_sheets := other_sheets wb |} in
          match wb_save wb' output_path w2 with
          | (Raised e, w3) => file_failed file_path e w3 out
          | (Returned _, w3) =>
              {| fr_ok := true; fr_world := w3;
                 fr_out := out
                   ++ [FLogCompleted (total_converted st);
                       FPrintMsg (py "Conversion completed!");
                       FPrintTotal (total_converted st);
                       FPrint (py "Saved as") output_path]
                   ++ match backup_path with
                      | Some b => [FPrint (py "Backup") b]
                      | None => []
                      end |}
          end
      end
  end.
End SingleFile.
Arguments create_backup {World}.
Arguments process_single_file {World}.
Arguments file_failed {World}.

(** [process_single_file] as the batch calls it.  Its handler catches
    every [Exception], so the call returns a flag and does not raise. *)
Definition call_process_single_file {World : Type}
    (timestamp : World -> str)
    (copy_to_backups : str -> str -> World -> Outcome unit * World)
    (load_workbook : str -> World -> Outcome Workbook * World)
    (wb_save : Workbook -> str -> World -> Outcome unit * World)
    (get_column_letter : nat -> str)
    (cfg : BotConfig) (tqdm_available : bool)
    (file_path : str) (w : World) : Outcome bool * World * list FileEvent :=
  let r := process_single_file timestamp copy_to_backups load_workbook wb_save
             get_column_letter cfg tqdm_available file_path w in
  (Returned (fr_ok r), fr_world r, fr_out r).

(** A small world for the scenarios of one file: the number of writes
    done so far.  Loading fails for a path that contains ["bad"]; copying
    into [backups] always fails; saving always works. *)
Definition demo_timestamp (w : nat) : str := py "20240101_120000".

Definition demo_copy (src dst : str) (w : nat) : Outcome unit * nat :=
  (Raised (py "PermissionError"), w).

Definition demo_load (path : str) (w : nat) : Outcome Workbook * nat :=
  if contains (py "bad") path then (Raised (py "BadZipFile"), w)
  else (Returned {| active := Some {| grid := demo_sheet; max_column := 2 |};
                    other_sheets := [] |}, w).

Definition demo_save (wb : Workbook) (path : str) (w : nat) : Outcome unit * nat :=
  (Returned tt, S w).

Definition demo_letter (col : nat) : str :=
  match col with 1%nat => py "A" | 2%nat => py "B" | _ => py "?" end.

(** ** Reading the output of a batch *)

(** An error line of the log with the message [msg]. *)
Definition is_error_line (msg : str) (e : Event) : bool :=
  match e with
  | LogError m _ => bool_decide (m = msg)
  | _ => false
  end.

Definition count_lines (msg : str) (out : list Event) : nat :=
  length (List.filter (is_error_line msg) out).

(** The error lines with the message [msg] that one file's processing
    wrote, those of its column conversions included. *)
Fixpoint file_error_lines (msg : str) (out : list FileEvent) : nat :=
  match out with
  | [] => 0
  | FLogError m _ :: out' =>
      (if bool_decide (m = msg) then 1 else 0) + file_error_lines msg out'
  | FColumn o :: out' => count_lines msg o + file_error_lines msg out'
  | _ :: out' => file_error_lines msg out'
  end.

(** The error lines with the message [msg] in the log of a batch: the
    batch's own and those of the files it processed. *)
Fixpoint errors_logged (msg : str) (out : list BatchEvent) : nat :=
  match out with
  | [] => 0
  | ByBatch e :: out' =>
      (if is_error_line msg e then 1 else 0) + errors_logged msg out'
  | ByFile _ o :: out' => file_error_lines msg o + errors_logged msg out'
  end.

(** ** The configuration store *)

(** The values of the settings: what the built-in defaults hold and what
    the program itself stores (strings, booleans, integers, lists of
    these), with [JNull] for Python's [None].  Floats and nested objects,
    which only a file edited by hand could bring in, are left out. *)
#[warnings="-register-all"]
Inductive JValue : Type :=
| JNull
| JBool (b : bool)
| JInt (z : Z)
| JStr (s : str)
| JList (l : list JValue).

(** An element of a JSON array as [dict.update] takes it: a pair of a
    key and a value (a two-element array whose first element is the
    string [k], or a string of two characters), or an element on which
    [update] raises (not a sequence, not of length two, or with a list as
    its key).  A two-element array whose first element is a number, a
    boolean or [null], which would bring in a key that is not a string,
    is left out. *)
Inductive ArrayItem : Type :=
| Pair (k : str) (v : JValue)
| BadItem.

(** What the path [excel_bot_config.json] holds: nothing; something on
    which loading raises before the store is touched ([open] or
    [json.load] fails, or the file holds a number, a boolean, [null] or a
    string that is not empty); a settings object; or an array, the empty
    string counting as the empty array. *)
Inductive ConfigFile : Type :=
| NoFile
| Unreadable
| Saved (d : gmap str JValue)
| SavedArray (items : list ArrayItem).

(** [d.update(items)] for a sequence: the pairs are stored one by one,
    and the first element that is no pair raises with the pairs before it
    already stored.  The flag tells whether the call returned. *)
Fixpoint dict_update_items (items : list ArrayItem) (d : gmap str JValue)
    : gmap str JValue * bool :=
  match items with
  | [] => (d, true)
  | Pair k v :: rest => dict_update_items rest (<[k := v]> d)
  | BadItem :: _ => (d, false)
  end.

(** The pairs of an array that come before its first bad element. *)
Fixpoint leading_pairs (items : list ArrayItem) : list (str * JValue) :=
  match items with
  | Pair k v :: rest => (k, v) :: leading_pairs rest
  | _ => []
  end.

(** The value the last pair with key [k] gives, if there is one. *)
Fixpoint last_value (k : str) (pairs : list (str * JValue)) : option JValue :=
  match pairs with
  | [] => None
  | (k', v) :: rest =>
      match last_value k rest with
      | Some v' => Some v'
      | None => if decide (k' = k) then Some v else None
      end
  end.

(** How the next attempt to write the file ends: it works, [open] fails
    and leaves the file alone, or the dump fails after [open] has
    truncated the file. *)
Inductive WriteMode : Type := WriteOk | OpenFails | DumpFails.

Record ConfigWorld : Type := mkConfigWorld {
  cf_file : ConfigFile;
  cf_writes : list WriteMode
}.

Inductive ConfigEvent : Type :=
| CfgInfo (msg : str)
| CfgWarning (msg : str)
| CfgError (msg : str).

Module BotConfigStore.

(** [self.defaults] as the class is created. *)
Definition defaults : gmap str JValue :=
  list_to_map
    [ (py "hyperlink_color", JStr (py "0000FF"));
      (py "backup_files", JBool true);
      (py "auto_detect", JBool true);
      (py "max_rows_to_process", JInt 100000);
      (py "supported_extensions",
         JList (map (fun s => JStr (py s)) [".xlsx"; ".xlsm"; ".xltx"; ".xltm"]%string));
      (py "social_media_platforms",
         JList (map (fun s => JStr (py s))
                  ["linkedin"; "twitter"; "facebook"; "instagram"; "youtube"]%string));
      (py "log_level", JStr (py "INFO")) ].

Definition save_config (d : gmap str JValue) (w : ConfigWorld)
    : ConfigWorld * list ConfigEvent :=
  match cf_writes w with
  | [] | WriteOk :: _ =>
      ({| cf_file := Saved d; cf_writes := tl (cf_writes w) |},
       [CfgInfo (py "Configuration saved")])
  | OpenFails :: rest =>
      ({| cf_file := cf_file w; cf_writes := rest |},
       [CfgError (py "Could not save config")])
  | DumpFails :: rest =>
      ({| cf_file := Unreadable; cf_writes := rest |},
       [CfgError (py "Could not save config")])
  end.

Definition load_config (d : gmap str JValue) (w : ConfigWorld)
    : gmap str JValue * ConfigWorld * list ConfigEvent :=
  match cf_file w with
  | Saved saved_config =>
      (saved_config ∪ d, w, [CfgInfo (py "Configuration loaded from file")])
  | SavedArray items =>
      let '(d', returned) := dict_update_items items d in
      (d', w,
       [if returned then CfgInfo (py "Configuration loaded from file")
        else CfgWarning (py "Could not load config")])
  | Unreadable => (d, w, [CfgWarning (py "Could not load config")])
  | NoFile =>
      let '(w', out) := save_config d w in
      (d, w', out ++ [CfgInfo (py "Default configuration created")])
  end.

(** [BotConfig()] *)
Definition init (w : ConfigWorld) : gmap str JValue * ConfigWorld * list ConfigEvent :=
  load_config defaults w.

(** [self.defaults.get(key)] *)
Definition get (d : gmap str JValue) (key : str) : JValue :=
  default JNull (d !! key).

Definition set (key : str) (v : JValue) (d : gmap str JValue) (w : ConfigWorld)
    : gmap str JValue * ConfigWorld * list ConfigEvent :=
  let d' := <[key := v]> d in
  let '(w', out) := save_config d' w in
  (d', w', out).

End BotConfigStore.

(** A run of the program as far as the settings go: the store is
    created, then [set] is called for each pair in turn. *)
Definition config_step (st : gmap str JValue * ConfigWorld) (op : str * JValue)
    : gmap str JValue * ConfigWorld :=
  fst (BotConfigStore.set (fst op) (snd op) (fst st) (snd st)).

Definition config_session (w : ConfigWorld) (ops : list (str * JValue))
    : gmap str JValue * ConfigWorld :=
  fold_left config_step ops (fst (BotConfigStore.init w)).

(** Every key of the built-in defaults is set. *)
Definition has_default_keys (d : gmap str JValue) : Prop :=
  forall k, is_Some (BotConfigStore.defaults !! k) -> is_Some (d !! k).

(** What the plain-print loop keeps true of its output. *)
Definition print_inv (st : ConvState) : Prop :=
  (0 <= last_progress st <= 100)%Z
  /\ (10 * Z.of_nat (length (progress_values (st_out st))) <= last_progress st)%Z
  /\ Forall (fun p => (10 <= p <= 100)%Z) (progress_values (st_out st)).

(** ** The settings menu *)

(** The pattern of the colour check: ^ [0-9A-Fa-f]{6} $ *)
Definition is_hex (c : ascii) : bool :=
  is_digit c || in_range 65 70 c || in_range 97 102 c.

Definition is_upper_hex (c : ascii) : bool := is_digit c || in_range 65 70 c.

Definition color_pattern : regex :=
  ReCat (ReClass is_hex) (ReCat (ReClass is_hex) (ReCat (ReClass is_hex)
 (ReCat (ReClass is_hex) (ReCat (ReClass is_hex) (ReClass is_hex))))).

Definition log_levels : list str := map py ["DEBUG"; "INFO"; "WARNING"; "ERROR"]%string.

(** [bool(v)] for a stored value. *)
Definition jtruthy (v : JValue) : bool :=
  match v with
  | JNull => false
  | JBool b => b
  | JInt z => negb (z =? 0)%Z
  | JStr s => truthy_str s
  | JList l => match l with [] => false | _ :: _ => true end
  end.

Section Menu.
(** [int(text)]: the number, or nothing when it raises [ValueError]. *)
Variable parse_int : str -> option Z.
(** [text.upper()] *)
Variable upper : str -> str.

(** [update_configuration()] reading its answers from [inputs], one line
    for each call of [input]; when the lines run out [input] raises.
    What the menu prints, and the logging set up again after a change of
    level, are not recorded: only the settings and their file are. *)
Fixpoint update_configuration (inputs : list str) (d : gmap str JValue)
    (w : ConfigWorld) : Outcome unit * (gmap str JValue * ConfigWorld) :=
  match inputs with
  | [] => (Raised (py "EOFError"), (d, w))
  | line :: rest =>
      let choice := strip line in
      if decide (choice = py "1") then
        match rest with
        | [] => (Raised (py "EOFError"), (d, w))
        | line2 :: rest' =>
            let new_color := strip line2 in
            if re_match_anchored color_pattern new_color
            then update_configuration rest'
                   (fst (fst (BotConfigStore.set (py "hyperlink_color")
                                (JStr (upper new_color)) d w)))
                   (snd (fst (BotConfigStore.set (py "hyperlink_color")
                                (JStr (upper new_color)) d w)))
            else update_configuration rest' d w
        end
      else if decide (choice = py "2") then
        let current := BotConfigStore.get d (py "backup_files") in
        let new_value := negb (jtruthy current) in
        update_configuration rest
          (fst (fst (BotConfigStore.set (py "backup_files") (JBool new_value) d w)))
          (snd (fst (BotConfigStore.set (py "backup_files") (JBool new_value) d w)))
      else if decide (choice = py "3") then
        match rest with
        | [] => (Raised (py "EOFError"), (d, w))
        | line2 :: rest' =>
            match parse_int (strip line2) with
            | Some max_rows =>
                if (0 <? max_rows)%Z
                then update_configuration rest'
                       (fst (fst (BotConfigStore.set (py "max_rows_to_process")
                                    (JInt max_rows) d w)))
                       (snd (fst (BotConfigStore.set (py "max_rows_to_process")
                                    (JInt max_rows) d w)))
                else update_configuration rest' d w
            | None => update_configuration rest' d w
            end
        end
      else if decide (choice = py "4") then
        match rest with
        | [] => (Raised (py "EOFError"), (d, w))
        | line2 :: rest' =>
            let new_level := upper (strip line2) in
            if existsb (fun l => bool_decide (new_level = l)) log_levels
            then update_configuration rest'
                   (fst (fst (BotConfigStore.set (py "log_level") (JStr new_level) d w)))
                   (snd (fst (BotConfigStore.set (py "log_level") (JStr new_level) d w)))
            else update_configuration rest' d w
        end
      else if decide (choice = py "5") then (Returned tt, (d, w))
      else update_configuration rest d w
  end.
End Menu.

(** Settings as the menu leaves them: a colour of six capital hex
    digits, a positive row cap, a boolean backup switch and a known log
    level. *)
Definition menu_valid (d : gmap str JValue) : Prop :=
  (exists s, d !! py "hyperlink_color" = Some (JStr s)
             /\ length s = 6%nat /\ forallb is_upper_hex s = true)
  /\ (exists n, d !! py "max_rows_to_process" = Some (JInt n) /\ (0 < n)%Z)
  /\ (exists b, d !! py "backup_files" = Some (JBool b))
  /\ (exists l, d !! py "log_level" = Some (JStr l) /\ In l log_levels).

(** For the scenarios: an [upper] that capitalises the letters a to z
    and leaves every other character as it is. *)
Definition ascii_upper (s : str) : str :=
  map (fun c => if in_range 97 122 c then ascii_of_N (code c - 32) else c) s.

(** For the scenarios: an [int] that reads a plain run of decimal digits
    and rejects every other text. *)
Definition digits_int (s : str) : option Z :=
  if truthy_str s && forallb is_digit s
  then Some (fold_left (fun acc c => (10 * acc + Z.of_N (code c - 48))%Z) s 0%Z)
  else None.

(** * Properties *)

(** ** The scenarios of the classifier *)

Example detect_email : detect_content_type (py "jane@example.com") = Email.
Proof. vm_compute. reflexivity. Qed.

Example detect_linkedin : detect_content_type (py "linkedin.com/in/jane") = LinkedIn.
Proof. vm_compute. reflexivity. Qed.

Example detect_website : detect_content_type (py "example.com") = Website.
Proof. vm_compute. reflexivity. Qed.

Example detect_text : detect_content_type (py "Hello World") = Text.
Proof. vm_compute. reflexivity. Qed.

Example detect_padded : detect_content_type (py "  a@b.co ") = Email.
Proof. vm_compute. reflexivity. Qed.

(** ** Characters and strings *)

Lemma ascii_eqb_eq (a b : ascii) : ascii_eqb a b = true <-> a = b.
Proof.
  unfold ascii_eqb, code. rewrite N.eqb_eq. split.
  - intros H. rewrite <- (ascii_N_embedding a), <- (ascii_N_embedding b).
    now rewrite H.
  - now intros ->.
Qed.

Lemma ascii_eqb_refl (a : ascii) : ascii_eqb a a = true.
Proof. now apply ascii_eqb_eq. Qed.

Lemma startswith_spec (p s : str) :
  startswith p s = true <-> exists t, s = p ++ t.
Proof.
  revert s. induction p as [|a p IH]; intros s; simpl.
  - split; [intros _; now exists s | reflexivity].
  - destruct s as [|b s].
    + split; [discriminate | intros [t Ht]; discriminate].
    + rewrite andb_true_iff, ascii_eqb_eq, IH. split.
      * intros [-> [t ->]]. now exists t.
      * intros [t Ht]. injection Ht as -> ->. split; [reflexivity | now exists t].
Qed.

Lemma contains_spec (needle hay : str) :
  contains needle hay = true <-> exists a b, hay = a ++ needle ++ b.
Proof.
  induction hay as [|c hay IH].
  - simpl. rewrite orb_false_r, startswith_spec. split.
    + intros [t Ht]. now exists [], t.
    + intros [a [b Hab]]. destruct a; [now exists b | discriminate].
  - change (contains needle (c :: hay))
      with (startswith needle (c :: hay) || contains needle hay).
    rewrite orb_true_iff, startswith_spec, IH. split.
    + intros [[t Ht] | [a [b Hab]]].
      * now exists [], t.
      * exists (c :: a), b. now rewrite Hab.
    + intros [a [b Hab]]. destruct a as [|c' a].
      * left. now exists b.
      * right. injection Hab as _ ->. now exists a, b.
Qed.

Lemma lstrip_no_lead (s : str) : no_lead (lstrip s).
Proof.
  induction s as [|c s IH]; simpl; [exact I |].
  destruct (is_space c) eqn:E; [exact IH | exact E].
Qed.

Lemma lstrip_fixed (s : str) : no_lead s -> lstrip s = s.
Proof. destruct s as [|c s]; simpl; [reflexivity | now intros ->]. Qed.

Lemma lstrip_split (s : str) :
  exists w, s = w ++ lstrip s /\ forallb is_space w = true.
Proof.
  induction s as [|c s [w [Hs Hw]]]; simpl.
  - now exists [].
  - destruct (is_space c) eqn:E.
    + exists (c :: w). simpl. rewrite E, Hw. split; [now rewrite <- Hs | reflexivity].
    + now exists [].
Qed.

Lemma forallb_rev {A} (p : A -> bool) (l : list A) :
  forallb p (rev l) = forallb p l.
Proof.
  induction l as [|a l IH]; simpl; [reflexivity |].
  rewrite forallb_app, IH. simpl. rewrite andb_true_r. apply andb_comm.
Qed.

Lemma rstrip_split (s : str) :
  exists w, s = rstrip s ++ w /\ forallb is_space w = true.
Proof.
  unfold rstrip. destruct (lstrip_split (rev s)) as [w [Hs Hw]].
  exists (rev w). split.
  - rewrite <- rev_app_distr, <- Hs. now rewrite rev_involutive.
  - now rewrite forallb_rev.
Qed.

Lemma rstrip_no_lead (s : str) : no_lead s -> no_lead (rstrip s).
Proof.
  intros H. destruct (rstrip_split s) as [w [Hs _]].
  destruct (rstrip s) as [|c u]; [exact I |].
  rewrite Hs in H. exact H.
Qed.

Lemma strip_trimmed (s : str) : trimmed (strip s).
Proof.
  split.
  - apply rstrip_no_lead, lstrip_no_lead.
  - unfold strip, rstrip. rewrite rev_involutive. apply lstrip_no_lead.
Qed.

Lemma strip_fixed (s : str) : trimmed s -> strip s = s.
Proof.
  intros [H1 H2]. unfold strip, rstrip.
  rewrite (lstrip_fixed s H1), (lstrip_fixed (rev s) H2).
  apply rev_involutive.
Qed.

Lemma strip_idempotent (s : str) : strip (strip s) = strip s.
Proof. apply strip_fixed, strip_trimmed. Qed.

(** [s] is its stripped form between two runs of white space. *)
Lemma strip_split (s : str) :
  exists w1 w2, s = w1 ++ strip s ++ w2
    /\ forallb is_space w1 = true /\ forallb is_space w2 = true.
Proof.
  destruct (lstrip_split s) as [w1 [H1 Hw1]].
  destruct (rstrip_split (lstrip s)) as [w2 [H2 Hw2]].
  exists w1, w2. unfold strip. now rewrite <- H2, <- H1.
Qed.

Lemma lstrip_spaces (w : str) : forallb is_space w = true -> lstrip w = [].
Proof.
  induction w as [|c w IH]; simpl; [reflexivity |].
  rewrite andb_true_iff. intros [-> H]. now apply IH.
Qed.

Lemma strip_empty_iff (s : str) :
  truthy_str (strip s) = false <-> forallb is_space s = true.
Proof.
  split.
  - intros H. destruct (strip s) eqn:E; [| discriminate].
    destruct (strip_split s) as [w1 [w2 [Hs [H1 H2]]]].
    rewrite E in Hs. rewrite Hs, forallb_app, H1. exact H2.
  - intros H. unfold strip, rstrip.
    rewrite (lstrip_spaces s H). reflexivity.
Qed.

(** ** The matcher computes the meaning of a pattern *)

Lemma Matches_eps_iff (s : str) : Matches ReEps s <-> s = [].
Proof.
  split; [intros H; now inversion H | intros ->; constructor].
Qed.

Lemma Matches_none_iff (s : str) : Matches ReNone s <-> False.
Proof. split; [intros H; inversion H | intros []]. Qed.

Lemma Matches_class_iff (p : ascii -> bool) (s : str) :
  Matches (ReClass p) s <-> exists c, s = [c] /\ p c = true.
Proof.
  split.
  - intros H. inversion H; subst. now exists c.
  - intros [c [-> Hc]]. now constructor.
Qed.

Lemma Matches_cat_iff (r1 r2 : regex) (s : str) :
  Matches (ReCat r1 r2) s <->
  exists s1 s2, s = s1 ++ s2 /\ Matches r1 s1 /\ Matches r2 s2.
Proof.
  split.
  - intros H. inversion H; subst. now exists s1, s2.
  - intros [s1 [s2 [-> [H1 H2]]]]. now constructor.
Qed.

Lemma Matches_alt_iff (r1 r2 : regex) (s : str) :
  Matches (ReAlt r1 r2) s <-> Matches r1 s \/ Matches r2 s.
Proof.
  split.
  - intros H. inversion H; subst; [now left | now right].
  - intros [H | H]; [now apply MAltL | now apply MAltR].
Qed.

Lemma nullable_spec (r : regex) : nullable r = true <-> Matches r [].
Proof.
  induction r as [| | p | r1 IH1 r2 IH2 | r1 IH1 r2 IH2 | r IH]; simpl.
  - rewrite Matches_none_iff. split; [discriminate | intros []].
  - rewrite Matches_eps_iff. split; reflexivity.
  - rewrite Matches_class_iff. split; [discriminate | intros [c [Hc _]]; discriminate].
  - rewrite andb_true_iff, IH1, IH2, Matches_cat_iff. split.
    + intros [H1 H2]. now exists [], [].
    + intros [s1 [s2 [Hs [H1 H2]]]]. symmetry in Hs.
      apply app_eq_nil in Hs as [-> ->]. now split.
  - now rewrite orb_true_iff, IH1, IH2, Matches_alt_iff.
  - split; [intros _; constructor | reflexivity].
Qed.

(** A non-empty word of a starred pattern begins with a non-empty word
    of its body. *)
Lemma star_cons_inv (r : regex) (c : ascii) (s : str) :
  Matches (ReStar r) (c :: s) ->
  exists s1 s2, s = s1 ++ s2 /\ Matches r (c :: s1) /\ Matches (ReStar r) s2.
Proof.
  intros H. remember (ReStar r) as r' eqn:Er. remember (c :: s) as w eqn:Ew.
  induction H as [| | | | | |r0 s1 s2 H1 _ H2 IH2]; try discriminate.
  injection Er as ->. destruct s1 as [|c1 s1].
  - simpl in Ew. now apply IH2.
  - simpl in Ew. injection Ew as -> <-. now exists s1, s2.
Qed.

Lemma deriv_spec (c : ascii) (r : regex) (s : str) :
  Matches (deriv c r) s <-> Matches r (c :: s).
Proof.
  revert s.
  induction r as [| | p | r1 IH1 r2 IH2 | r1 IH1 r2 IH2 | r IH]; intros s; simpl.
  - rewrite !Matches_none_iff. reflexivity.
  - rewrite Matches_none_iff, Matches_eps_iff. split; [intros [] | discriminate].
  - rewrite Matches_class_iff. destruct (p c) eqn:Hp.
    + rewrite Matches_eps_iff. split.
      * intros ->. now exists c.
      * intros [c' [Hc' _]]. now injection Hc'.
    + rewrite Matches_none_iff. split; [intros [] |].
      intros [c' [Hc' Hp']]. injection Hc' as -> _. congruence.
  - assert (Hcat : Matches (ReCat (deriv c r1) r2) s <->
                   exists s1 s2, s = s1 ++ s2 /\ Matches r1 (c :: s1) /\ Matches r2 s2).
    { rewrite Matches_cat_iff. split; intros [s1 [s2 [Hs [H1 H2]]]];
        exists s1, s2; (split; [exact Hs | split; [now apply IH1 | exact H2]]). }
    rewrite (Matches_cat_iff r1 r2). destruct (nullable r1) eqn:Hn.
    + rewrite Matches_alt_iff, Hcat, IH2. split.
      * intros [[s1 [s2 [-> [H1 H2]]]] | H2].
        -- now exists (c :: s1), s2.
        -- exists [], (c :: s). split; [reflexivity | split; [now apply nullable_spec | exact H2]].
      * intros [s1 [s2 [Hs [H1 H2]]]]. destruct s1 as [|c1 s1].
        -- right. simpl in Hs. now rewrite Hs.
        -- left. simpl in Hs. injection Hs as -> ->. now exists s1, s2.
    + rewrite Hcat. split.
      * intros [s1 [s2 [-> [H1 H2]]]]. now exists (c :: s1), s2.
      * intros [s1 [s2 [Hs [H1 H2]]]]. destruct s1 as [|c1 s1].
        -- apply nullable_spec in H1. congruence.
        -- simpl in Hs. injection Hs as -> ->. now exists s1, s2.
  - now rewrite !Matches_alt_iff, IH1, IH2.
  - rewrite Matches_cat_iff. split.
    + intros [s1 [s2 [-> [H1 H2]]]]. apply IH in H1.
      change (c :: s1 ++ s2) with ((c :: s1) ++ s2). now apply MStarApp.
    + intros H. apply star_cons_inv in H as [s1 [s2 [-> [H1 H2]]]].
      exists s1, s2. split; [reflexivity | split; [now apply IH | exact H2]].
Qed.

Lemma full_match_spec (r : regex) (s : str) :
  full_match r s = true <-> Matches r s.
Proof.
  revert r. induction s as [|c s IH]; intros r; simpl.
  - apply nullable_spec.
  - rewrite IH. apply deriv_spec.
Qed.

Lemma Matches_char_iff (c : ascii) (s : str) : Matches (ReChar c) s <-> s = [c].
Proof.
  unfold ReChar. rewrite Matches_class_iff. split.
  - intros [c' [-> Hc]]. apply ascii_eqb_eq in Hc. now subst.
  - intros ->. exists c. split; [reflexivity | apply ascii_eqb_refl].
Qed.

Lemma Matches_star_class_iff (p : ascii -> bool) (s : str) :
  Matches (ReStar (ReClass p)) s <-> forallb p s = true.
Proof.
  split.
  - intros H. remember (ReStar (ReClass p)) as r eqn:Er.
    induction H as [| | | | | |r0 s1 s2 H1 _ H2 IH2]; try discriminate.
    + reflexivity.
    + injection Er as ->. apply Matches_class_iff in H1 as [c [-> Hc]].
      simpl. rewrite Hc. now apply IH2.
  - induction s as [|c s IH]; simpl.
    + intros _. constructor.
    + rewrite andb_true_iff. intros [Hc Hs].
      change (c :: s) with ([c] ++ s). apply MStarApp; [now constructor | now apply IH].
Qed.

Lemma Matches_plus_class_iff (p : ascii -> bool) (s : str) :
  Matches (RePlus (ReClass p)) s <-> s <> [] /\ forallb p s = true.
Proof.
  unfold RePlus. rewrite Matches_cat_iff. split.
  - intros [s1 [s2 [-> [H1 H2]]]].
    apply Matches_class_iff in H1 as [c [-> Hc]].
    apply Matches_star_class_iff in H2. simpl. rewrite Hc. now split.
  - intros [Hne Hs]. destruct s as [|c s]; [congruence |].
    simpl in Hs. apply andb_true_iff in Hs as [Hc Hs].
    exists [c], s. split; [reflexivity |].
    split; [now constructor | now apply Matches_star_class_iff].
Qed.

Lemma Matches_two_or_more_iff (p : ascii -> bool) (s : str) :
  Matches (ReTwoOrMore (ReClass p)) s <-> (2 <= length s)%nat /\ forallb p s = true.
Proof.
  unfold ReTwoOrMore. rewrite Matches_cat_iff. split.
  - intros [s1 [s2 [-> [H1 H2]]]].
    apply Matches_class_iff in H1 as [c [-> Hc]].
    apply Matches_cat_iff in H2 as [s3 [s4 [-> [H3 H4]]]].
    apply Matches_class_iff in H3 as [d [-> Hd]].
    apply Matches_star_class_iff in H4. simpl. rewrite Hc, Hd. split; [lia | exact H4].
  - intros [Hlen Hs]. destruct s as [|c [|d s]]; simpl in Hlen; try lia.
    simpl in Hs. apply andb_true_iff in Hs as [Hc Hs].
    apply andb_true_iff in Hs as [Hd Hs].
    exists [c], (d :: s). split; [reflexivity |]. split; [now constructor |].
    apply Matches_cat_iff. exists [d], s. split; [reflexivity |].
    split; [now constructor | now apply Matches_star_class_iff].
Qed.

(** On a string with no white space at its end, [$] can only hold at the
    very end: the anchored match is a match of the whole string. *)
Lemma re_match_anchored_trimmed (r : regex) (s : str) :
  no_lead (rev s) -> re_match_anchored r s = full_match r s.
Proof.
  unfold re_match_anchored. intros H. destruct (rev s) as [|c t]; simpl in *.
  - apply orb_false_r.
  - destruct (ascii_eqb c newline) eqn:E; [| apply orb_false_r].
    apply ascii_eqb_eq in E. subst c. discriminate.
Qed.

(** ** The email pattern *)

Lemma email_pattern_shape (s : str) : Matches email_pattern s <-> email_shape s.
Proof.
  unfold email_pattern, email_shape.
  rewrite Matches_cat_iff. split.
  - intros [l [s1 [-> [Hl H1]]]].
    apply Matches_plus_class_iff in Hl as [Hl1 Hl2].
    apply Matches_cat_iff in H1 as [a [s2 [-> [Ha H2]]]].
    apply Matches_char_iff in Ha as ->.
    apply Matches_cat_iff in H2 as [d [s3 [-> [Hd H3]]]].
    apply Matches_plus_class_iff in Hd as [Hd1 Hd2].
    apply Matches_cat_iff in H3 as [b [t [-> [Hb Ht]]]].
    apply Matches_char_iff in Hb as ->.
    apply Matches_two_or_more_iff in Ht as [Ht1 Ht2].
    exists l, d, t. repeat split; assumption.
  - intros [l [d [t [-> [Hl1 [Hl2 [Hd1 [Hd2 [Ht1 Ht2]]]]]]]]].
    exists l, ("@"%char :: d ++ "."%char :: t). split; [reflexivity |].
    split; [now apply Matches_plus_class_iff |].
    apply Matches_cat_iff. exists ["@"%char], (d ++ "."%char :: t).
    split; [reflexivity |]. split; [now apply Matches_char_iff |].
    apply Matches_cat_iff. exists d, ("."%char :: t).
    split; [reflexivity |]. split; [now apply Matches_plus_class_iff |].
    apply Matches_cat_iff. exists ["."%char], t.
    split; [reflexivity |]. split; [now apply Matches_char_iff |].
    now apply Matches_two_or_more_iff.
Qed.

(** On its stripped argument the email test is a match of the whole text. *)
Lemma is_valid_email_shape (x : str) :
  is_valid_email x = true <-> email_shape (strip x).
Proof.
  unfold is_valid_email.
  rewrite re_match_anchored_trimmed by apply strip_trimmed.
  rewrite full_match_spec. apply email_pattern_shape.
Qed.

Lemma is_valid_email_strip (x : str) : is_valid_email (strip x) = is_valid_email x.
Proof. unfold is_valid_email. now rewrite strip_idempotent. Qed.

Lemma is_valid_website_strip (x : str) : is_valid_website (strip x) = is_valid_website x.
Proof. unfold is_valid_website. now rewrite strip_idempotent. Qed.

Lemma is_valid_linkedin_strip (x : str) : is_valid_linkedin (strip x) = is_valid_linkedin x.
Proof. unfold is_valid_linkedin. now rewrite strip_idempotent. Qed.

Lemma detect_content_type_strip (x : str) :
  detect_content_type (strip x) = detect_content_type x.
Proof. unfold detect_content_type. now rewrite strip_idempotent. Qed.

(** ** White space around a text does not hide or create a substring *)

Lemma is_space_lower_char (c : ascii) : is_space (lower_char c) = is_space c.
Proof.
  destruct c as [b0 b1 b2 b3 b4 b5 b6 b7].
  destruct b0, b1, b2, b3, b4, b5, b6, b7; vm_compute; reflexivity.
Qed.

Lemma forallb_space_lower (w : str) :
  forallb is_space (lower w) = forallb is_space w.
Proof.
  induction w as [|c w IH]; simpl; [reflexivity |].
  now rewrite is_space_lower_char, IH.
Qed.

Lemma contains_skip_lead (needle w h : str) :
  needle <> [] -> forallb non_space needle = true ->
  forallb is_space w = true ->
  contains needle (w ++ h) = contains needle h.
Proof.
  intros Hne Hn. destruct needle as [|n0 n']; [congruence |].
  simpl in Hn. apply andb_true_iff in Hn as [Hn0 _].
  induction w as [|c w IH]; intros Hw; [reflexivity |].
  simpl in Hw. apply andb_true_iff in Hw as [Hc Hw].
  change (contains (n0 :: n') ((c :: w) ++ h))
    with (startswith (n0 :: n') (c :: w ++ h) || contains (n0 :: n') (w ++ h)).
  rewrite (IH Hw). simpl startswith.
  destruct (ascii_eqb n0 c) eqn:E; [| reflexivity].
  apply ascii_eqb_eq in E. subst c. unfold non_space in Hn0.
  rewrite Hc in Hn0. discriminate.
Qed.

Lemma contains_rev (needle hay : str) :
  contains (rev needle) (rev hay) = contains needle hay.
Proof.
  apply Bool.eq_iff_eq_true. rewrite !contains_spec. split.
  - intros [a [b H]]. exists (rev b), (rev a).
    apply (f_equal (@rev ascii)) in H.
    rewrite rev_involutive, !rev_app_distr, rev_involutive in H.
    now rewrite H, app_assoc.
  - intros [a [b ->]]. exists (rev b), (rev a).
    now rewrite !rev_app_distr, app_assoc.
Qed.

Lemma contains_trim (needle w1 m w2 : str) :
  needle <> [] -> forallb non_space needle = true ->
  forallb is_space w1 = true -> forallb is_space w2 = true ->
  contains needle (w1 ++ m ++ w2) = contains needle m.
Proof.
  intros Hne Hn H1 H2.
  rewrite (contains_skip_lead needle w1 (m ++ w2) Hne Hn H1).
  rewrite <- contains_rev, rev_app_distr.
  rewrite contains_skip_lead.
  - apply contains_rev.
  - intros E. apply (f_equal (@rev ascii)) in E.
    rewrite rev_involutive in E. now apply Hne.
  - now rewrite forallb_rev.
  - now rewrite forallb_rev.
Qed.

(** Looking for a blank-free needle in the lower-cased text gives the same
    answer before and after stripping. *)
Lemma contains_lower_strip (needle x : str) :
  needle <> [] -> forallb non_space needle = true ->
  contains needle (lower (strip x)) = contains needle (lower x).
Proof.
  intros Hne Hn. destruct (strip_split x) as [w1 [w2 [Hx [H1 H2]]]].
  assert (L : forall a b : str, lower (a ++ b) = lower a ++ lower b)
    by (intros a b; apply map_app).
  rewrite Hx at 2. rewrite !L.
  symmetry. apply contains_trim; try assumption.
  - now rewrite (forallb_space_lower w1).
  - now rewrite (forallb_space_lower w2).
Qed.

Lemma is_valid_linkedin_raw (x : str) :
  is_valid_linkedin x = contains (py "linkedin.com") (lower x).
Proof.
  unfold is_valid_linkedin. apply contains_lower_strip.
  - discriminate.
  - vm_compute. reflexivity.
Qed.

(** ** The classifier *)

Lemma blank_trimmed (s : str) :
  trimmed s -> forallb is_space s = negb (truthy_str s).
Proof.
  intros T. pose proof (strip_empty_iff s) as E. rewrite (strip_fixed s T) in E.
  destruct (truthy_str s); simpl.
  - destruct (forallb is_space s); [| reflexivity].
    destruct E as [_ E]. discriminate (E eq_refl).
  - now apply E.
Qed.

Lemma is_valid_website_as_given (s : str) :
  trimmed s -> is_valid_website s = website_as_given s.
Proof.
  intros T. unfold is_valid_website, website_as_given. rewrite (strip_fixed s T).
  destruct (contains (py ".") (lower s)) eqn:C.
  - assert (N : truthy_str (lower s) = true).
    { destruct (lower s); [vm_compute in C; discriminate C | reflexivity]. }
    rewrite N. reflexivity.
  - now rewrite orb_true_r.
Qed.

(** C1, as the code has it.  For every string [x], [detect_content_type]
    follows the fixed first-match-wins order on [x] with its leading and
    trailing white space removed: when nothing is left it returns Empty;
    otherwise when what is left matches the anchored email pattern, Email;
    otherwise when it contains linkedin.com in any letter case, LinkedIn;
    otherwise when it satisfies the website heuristic, Website; otherwise
    Text.  Exactly one type is returned. *)
Theorem detect_content_type_precedence (x : str) :
  detect_content_type x = classify_as_given (strip x)
  /\ exists! t : ContentType, detect_content_type x = t.
Proof.
  split.
  - pose proof (strip_trimmed x) as T.
    unfold detect_content_type, classify_as_given.
    rewrite (blank_trimmed _ T).
    rewrite (is_valid_website_as_given _ T).
    unfold is_valid_email, is_valid_linkedin. rewrite (strip_fixed _ T).
    reflexivity.
  - exists (detect_content_type x). split; [reflexivity | now intros t <-].
Qed.

(** C1 as stated, with each test on the text as given, fails on a padded
    address at linkedin.com: the text " a@linkedin.com" is not blank and
    does not match the anchored email pattern, its first character being a
    space, and it contains linkedin.com, so the stated order gives
    LinkedIn; the code strips it first and returns Email. *)
Lemma precedence_padded_counterexample :
  forallb is_space (py " a@linkedin.com") = false
  /\ re_match_anchored email_pattern (py " a@linkedin.com") = false
  /\ ~ email_shape (py " a@linkedin.com")
  /\ contains (py "linkedin.com") (lower (py " a@linkedin.com")) = true
  /\ classify_as_given (py " a@linkedin.com") = LinkedIn
  /\ detect_content_type (py " a@linkedin.com") = Email
  /\ detect_content_type (py " a@linkedin.com") <> classify_as_given (py " a@linkedin.com").
Proof.
  split; [vm_compute; reflexivity |].
  split; [vm_compute; reflexivity |].
  split.
  { intros H. apply email_pattern_shape, full_match_spec in H.
    vm_compute in H. discriminate. }
  split; [vm_compute; reflexivity |].
  split; [vm_compute; reflexivity |].
  split; [vm_compute; reflexivity |].
  vm_compute. discriminate.
Qed.

Lemma strip_mem (c : ascii) (x : str) : In c (strip x) -> In c x.
Proof.
  intros H. destruct (strip_split x) as [w1 [w2 [Hx _]]].
  rewrite Hx. apply in_or_app. right. apply in_or_app. now left.
Qed.

(** C7, as the code has it.  When [detect_content_type x] is Email, the
    character [@] occurs in [x] and the text with its surrounding white
    space removed matches the anchored email pattern in full: a local part
    of alphanumerics and [. _ % + -], then [@], then a domain of
    alphanumerics, hyphens and dots, then a dot and at least two letters. *)
Theorem email_classified_shape (x : str) :
  detect_content_type x = Email ->
  In "@"%char x /\ email_shape (strip x).
Proof.
  intros H. unfold detect_content_type in H.
  destruct (negb (truthy_str (strip x))); [discriminate |].
  destruct (is_valid_email (strip x)) eqn:E.
  - rewrite is_valid_email_strip in E.
    apply is_valid_email_shape in E. split; [| exact E].
    apply strip_mem. destruct E as [l [d [t [-> _]]]].
    apply in_or_app. right. now left.
  - destruct (is_valid_linkedin (strip x)); [discriminate |].
    destruct (is_valid_website (strip x)); discriminate.
Qed.

Lemma email_classified_shape_witness :
  detect_content_type (py "jane@example.com") = Email
  /\ In "@"%char (py "jane@example.com")
  /\ email_shape (strip (py "jane@example.com")).
Proof.
  split; [vm_compute; reflexivity |].
  apply (email_classified_shape (py "jane@example.com")).
  vm_compute. reflexivity.
Defined.

(** C7 as stated fails on a padded address: the text " a@b.co" is not
    empty and is classified Email, yet it does not match the anchored
    pattern in full, its first character being a space. *)
Lemma email_padded_counterexample :
  py " a@b.co" <> []
  /\ detect_content_type (py " a@b.co") = Email
  /\ re_match_anchored email_pattern (py " a@b.co") = false
  /\ ~ email_shape (py " a@b.co").
Proof.
  split; [discriminate |].
  split; [vm_compute; reflexivity |].
  split; [vm_compute; reflexivity |].
  intros H. apply email_pattern_shape, full_match_spec in H.
  vm_compute in H. discriminate.
Qed.

(** ** URL formatting *)

Lemma has_scheme_startswith (s : str) :
  startswith (py "http://") s || startswith (py "https://") s = true
  <-> has_scheme s.
Proof.
  unfold has_scheme. rewrite orb_true_iff, !startswith_spec. split.
  - intros [[t H] | [t H]]; exists t; [now left | now right].
  - intros [t [H | H]]; [left | right]; now exists t.
Qed.

Lemma https_prefix_trimmed (u : str) :
  trimmed u -> trimmed (py "https://" ++ u).
Proof.
  intros [_ H]. split; [reflexivity |].
  rewrite rev_app_distr. destruct (rev u) as [|c t]; [reflexivity | exact H].
Qed.

Lemma format_website_url_eq (x : str) :
  format_website_url x =
  if startswith (py "http://") (strip x) || startswith (py "https://") (strip x)
  then strip x else py "https://" ++ strip x.
Proof.
  unfold format_website_url.
  now destruct (startswith (py "http://") (strip x) || startswith (py "https://") (strip x)).
Qed.

(** C5.  Formatting twice is formatting once.  The result is the stripped
    argument, either as it is or behind ["https://"], and the prefix is
    added exactly when the stripped argument starts with neither ["http://"]
    nor ["https://"]. *)
Theorem format_website_url_idempotent (x : str) :
  format_website_url (format_website_url x) = format_website_url x
  /\ (format_website_url x = strip x
      \/ format_website_url x = py "https://" ++ strip x)
  /\ (format_website_url x = py "https://" ++ strip x
      <-> ~ has_scheme (strip x)).
Proof.
  rewrite !format_website_url_eq.
  destruct (startswith (py "http://") (strip x) || startswith (py "https://") (strip x))
    eqn:E.
  - split; [| split].
    + now rewrite strip_idempotent, E.
    + now left.
    + split.
      * intros H. apply (f_equal (@length ascii)) in H.
        rewrite length_app in H. change (length (py "https://")) with 8%nat in H. lia.
      * intros H. exfalso. apply H. now apply has_scheme_startswith.
  - split; [| split].
    + rewrite (strip_fixed (py "https://" ++ strip x))
        by apply https_prefix_trimmed, strip_trimmed.
      assert (S2 : startswith (py "https://") (py "https://" ++ strip x) = true)
        by (apply startswith_spec; now exists (strip x)).
      rewrite S2, orb_true_r. reflexivity.
    + now right.
    + split; [| reflexivity].
      intros _ H. apply has_scheme_startswith in H. congruence.
Qed.

Example format_example :
  format_website_url (py "example.com") = py "https://example.com"
  /\ format_website_url (py "linkedin.com/in/jane") = py "https://linkedin.com/in/jane"
  /\ format_website_url (py " http://a.org ") = py "http://a.org".
Proof. vm_compute. repeat split. Qed.

(** ** Known domain endings *)

Lemma common_domains_dotted :
  Forall (fun ext => exists e, ext = "."%char :: e) common_domains.
Proof. repeat constructor; eexists; vm_compute; reflexivity. Qed.

Lemma common_domain_has_dot (ext t : str) :
  In ext common_domains -> contains ext t = true ->
  truthy_str t = true /\ contains (py ".") t = true.
Proof.
  intros Hin Hc.
  pose proof (proj1 (List.Forall_forall _ _) common_domains_dotted) as F.
  destruct (F ext Hin) as [e ->].
  apply contains_spec in Hc as [a [b ->]]. split.
  - destruct a; reflexivity.
  - apply contains_spec. exists a, (e ++ b). reflexivity.
Qed.

Lemma common_domain_website (x : str) :
  has_common_domain x -> is_valid_website x = true.
Proof.
  intros [ext [Hin Hc]]. unfold is_valid_website.
  destruct (common_domain_has_dot ext _ Hin Hc) as [Ht Hd].
  rewrite Ht, Hd. cbn [negb orb]. apply orb_true_iff. right.
  apply existsb_exists. now exists ext.
Qed.

Lemma common_domain_not_blank (x : str) :
  has_common_domain x -> truthy_str (strip x) = true.
Proof.
  intros [ext [Hin Hc]].
  destruct (common_domain_has_dot ext _ Hin Hc) as [Ht _].
  destruct (strip x); [discriminate | reflexivity].
Qed.

Lemma common_domain_classified (x : str) :
  has_common_domain x ->
  detect_content_type x = Email \/ detect_content_type x = LinkedIn
  \/ detect_content_type x = Website.
Proof.
  intros H. unfold detect_content_type.
  rewrite (common_domain_not_blank x H). cbn [negb].
  rewrite is_valid_email_strip, is_valid_linkedin_strip, is_valid_website_strip.
  rewrite (common_domain_website x H).
  destruct (is_valid_email x); [now left |].
  destruct (is_valid_linkedin x); [right; now left | right; now right].
Qed.

(** ** Cells of a worksheet *)

Lemma ws_get_set_eq (ws : Worksheet) (r c : nat) (x : Cell) :
  ws_get (ws_set ws r c x) r c = x.
Proof. unfold ws_get, ws_set. simpl. now rewrite lookup_insert_eq. Qed.

Lemma ws_get_set_ne (ws : Worksheet) (r c r' c' : nat) (x : Cell) :
  (r, c) <> (r', c') -> ws_get (ws_set ws r c x) r' c' = ws_get ws r' c'.
Proof. intros H. unfold ws_get, ws_set. simpl. now rewrite lookup_insert_ne. Qed.

Lemma cell_text_empty_type (c : Cell) :
  truthy_str (cell_text c) = false -> cell_type c = Empty.
Proof.
  unfold cell_type. destruct (cell_text c); [reflexivity | discriminate].
Qed.

Lemma cell_text_linked (cfg : BotConfig) (c : Cell) :
  cell_text (linked cfg c) = cell_text c.
Proof. reflexivity. Qed.

(** ** One iteration of the conversion loop *)

Section ConvertRow.
Variables (cfg : BotConfig) (tqdm_available : bool) (col : nat) (total_rows : Z).

Local Abbreviation step := (convert_row cfg tqdm_available col total_rows).

Lemma truthy_text_value (c : Cell) :
  truthy_str (cell_text c) = true -> value c <> VNone.
Proof. unfold cell_text. intros H E. rewrite E in H. discriminate. Qed.

(** On a cell with a non-empty text, writing the link and the font gives
    the linked cell: the value is not [None], so it stays. *)
Lemma set_link_linked (c : Cell) (target : str) :
  truthy_str (cell_text c) = true ->
  set_font (set_hyperlink c target) (hyperlink_font cfg)
  = {| value := value c; hyperlink := Some target; font := hyperlink_font cfg |}.
Proof.
  intros H. apply truthy_text_value in H.
  unfold set_font, set_hyperlink. simpl.
  destruct (value c); [congruence | reflexivity ..].
Qed.

Lemma convert_row_ws (st : ConvState) (row : nat) :
  st_ws (step st row) =
  if is_link (cell_type (ws_get (st_ws st) row col))
  then ws_set (st_ws st) row col (linked cfg (ws_get (st_ws st) row col))
  else st_ws st.
Proof.
  unfold convert_row, cell_type, linked, link_target.
  set (cell := ws_get (st_ws st) row col).
  destruct (truthy_str (cell_text cell)) eqn:T.
  - destruct (detect_content_type (cell_text cell)); cbv zeta;
      rewrite ?(set_link_linked cell _ T); simpl;
      destruct tqdm_available; simpl;
      try destruct (_ <=? _)%Z; reflexivity.
  - assert (E : cell_text cell = []) by (destruct (cell_text cell); [reflexivity | discriminate]).
    rewrite E. simpl.
    destruct tqdm_available; simpl; try destruct (_ <=? _)%Z; reflexivity.
Qed.

Lemma convert_row_count (st : ConvState) (row : nat) :
  converted_count (step st row) =
  (converted_count st
   + if is_link (cell_type (ws_get (st_ws st) row col)) then 1 else 0)%nat.
Proof.
  unfold convert_row, cell_type.
  set (cell := ws_get (st_ws st) row col).
  destruct (truthy_str (cell_text cell)) eqn:T.
  - destruct (detect_content_type (cell_text cell)); simpl;
      destruct tqdm_available; simpl;
      try destruct (_ <=? _)%Z; simpl; lia.
  - assert (E : cell_text cell = []) by (destruct (cell_text cell); [reflexivity | discriminate]).
    rewrite E. simpl.
    destruct tqdm_available; simpl; try destruct (_ <=? _)%Z; simpl; lia.
Qed.

Lemma convert_row_max_row (st : ConvState) (row : nat) :
  max_row (st_ws (step st row)) = max_row (st_ws st).
Proof.
  rewrite convert_row_ws.
  now destruct (is_link (cell_type (ws_get (st_ws st) row col))).
Qed.

(** A row step leaves every other cell as it was. *)
Lemma convert_row_other (st : ConvState) (row r c : nat) :
  (row, col) <> (r, c) ->
  ws_get (st_ws (step st row)) r c = ws_get (st_ws st) r c.
Proof.
  intros H. rewrite convert_row_ws.
  destruct (is_link (cell_type (ws_get (st_ws st) row col))); [| reflexivity].
  now apply ws_get_set_ne.
Qed.

(** A row step links its own cell when the cell's type asks for it. *)
Lemma convert_row_self (st : ConvState) (row : nat) :
  ws_get (st_ws (step st row)) row col =
  if is_link (cell_type (ws_get (st_ws st) row col))
  then linked cfg (ws_get (st_ws st) row col)
  else ws_get (st_ws st) row col.
Proof.
  rewrite convert_row_ws.
  destruct (is_link (cell_type (ws_get (st_ws st) row col))); [| reflexivity].
  apply ws_get_set_eq.
Qed.

(** *** The loop *)

Lemma convert_loop_other (rows : list nat) (st : ConvState) (r c : nat) :
  c <> col \/ ~ In r rows ->
  ws_get (st_ws (fold_left step rows st)) r c = ws_get (st_ws st) r c.
Proof.
  revert st. induction rows as [|row rows IH]; intros st H; simpl; [reflexivity |].
  rewrite IH.
  - apply convert_row_other. intros E. injection E as -> ->.
    destruct H as [H | H]; [congruence | apply H; now left].
  - destruct H as [H | H]; [now left | right]. intros Hin. apply H. now right.
Qed.

Lemma convert_loop_visited (rows : list nat) (st : ConvState) (r : nat) :
  List.NoDup rows -> In r rows ->
  ws_get (st_ws (fold_left step rows st)) r col =
  if is_link (cell_type (ws_get (st_ws st) r col))
  then linked cfg (ws_get (st_ws st) r col)
  else ws_get (st_ws st) r col.
Proof.
  revert st. induction rows as [|row rows IH]; intros st Hnd Hin; [destruct Hin |].
  inversion Hnd as [|? ? Hnotin Hnd']; subst. simpl.
  destruct Hin as [-> | Hin].
  - rewrite convert_loop_other by now right. apply convert_row_self.
  - rewrite (IH _ Hnd' Hin).
    assert (Hne : (row, col) <> (r, col)) by (intros E; injection E as ->; contradiction).
    now rewrite (convert_row_other st row r col Hne).
Qed.

Lemma convert_loop_max_row (rows : list nat) (st : ConvState) :
  max_row (st_ws (fold_left step rows st)) = max_row (st_ws st).
Proof.
  revert st. induction rows as [|row rows IH]; intros st; simpl; [reflexivity |].
  rewrite IH. apply convert_row_max_row.
Qed.

Lemma convert_loop_count_bound (rows : list nat) (st : ConvState) :
  (converted_count st <= converted_count (fold_left step rows st)
   <= converted_count st + length rows)%nat.
Proof.
  revert st. induction rows as [|row rows IH]; intros st; simpl; [lia |].
  specialize (IH (step st row)). rewrite convert_row_count in IH.
  destruct (is_link (cell_type (ws_get (st_ws st) row col))); lia.
Qed.
End ConvertRow.

(** ** The whole column *)

Lemma rows_upto_NoDup (n : Z) : List.NoDup (rows_upto n).
Proof. apply List.seq_NoDup. Qed.

Lemma rows_upto_In (n : Z) (r : nat) :
  In r (rows_upto n) <-> (1 <= r <= Z.to_nat n)%nat.
Proof. unfold rows_upto. rewrite in_seq. lia. Qed.

(** The conversion is its loop, run from the sheet as given with a count
    of zero; only the output differs. *)
Lemma convert_column_loop (cfg : BotConfig) (tq : bool) (ws : Worksheet)
    (col : nat) (name : str) :
  exists out,
    let st := fold_left (convert_row cfg tq col (row_limit cfg ws))
                (rows_upto (row_limit cfg ws))
                {| st_ws := ws; converted_count := 0; last_progress := 0; st_out := out |} in
    st_ws (convert_column_to_hyperlinks cfg tq ws col name) = st_ws st
    /\ converted_count (convert_column_to_hyperlinks cfg tq ws col name)
       = converted_count st.
Proof.
  unfold convert_column_to_hyperlinks, row_limit.
  destruct (analyze_column ws col) as [label confidence].
  destruct tq; eexists; split; reflexivity.
Qed.

Lemma convert_column_other (cfg : BotConfig) (tq : bool) (ws : Worksheet)
    (col : nat) (name : str) (r c : nat) :
  c <> col \/ ~ In r (rows_upto (row_limit cfg ws)) ->
  ws_get (st_ws (convert_column_to_hyperlinks cfg tq ws col name)) r c = ws_get ws r c.
Proof.
  intros H. destruct (convert_column_loop cfg tq ws col name) as [out [E _]].
  rewrite E. now rewrite convert_loop_other.
Qed.

Lemma convert_column_visited (cfg : BotConfig) (tq : bool) (ws : Worksheet)
    (col : nat) (name : str) (r : nat) :
  In r (rows_upto (row_limit cfg ws)) ->
  ws_get (st_ws (convert_column_to_hyperlinks cfg tq ws col name)) r col =
  if is_link (cell_type (ws_get ws r col))
  then linked cfg (ws_get ws r col)
  else ws_get ws r col.
Proof.
  intros H. destruct (convert_column_loop cfg tq ws col name) as [out [E _]].
  rewrite E. now rewrite convert_loop_visited by (apply rows_upto_NoDup || exact H).
Qed.

Lemma is_link_false_iff (t : ContentType) :
  is_link t = false <-> t = Empty \/ t = Text.
Proof.
  destruct t; simpl; (split; [intros H | intros [H | H]]);
    try discriminate; try reflexivity; [now left | now right].
Qed.

(** C2.  Converting a column changes a cell only if the cell lies in that
    column, in a visited row, and its classified type is Email, LinkedIn
    or Website.  A cell classified Empty or Text reads back the same
    value, hyperlink and font after the conversion, and the row extent of
    the sheet is kept. *)
Theorem convert_column_frame (cfg : BotConfig) (tq : bool) (ws : Worksheet)
    (col : nat) (name : str) (r c : nat) :
  (ws_get (st_ws (convert_column_to_hyperlinks cfg tq ws col name)) r c <> ws_get ws r c ->
     c = col /\ In r (rows_upto (row_limit cfg ws))
     /\ is_link (cell_type (ws_get ws r c)) = true)
  /\ (cell_type (ws_get ws r c) = Empty \/ cell_type (ws_get ws r c) = Text ->
      ws_get (st_ws (convert_column_to_hyperlinks cfg tq ws col name)) r c = ws_get ws r c)
  /\ max_row (st_ws (convert_column_to_hyperlinks cfg tq ws col name)) = max_row ws.
Proof.
  assert (Keep : is_link (cell_type (ws_get ws r c)) = false ->
          ws_get (st_ws (convert_column_to_hyperlinks cfg tq ws col name)) r c = ws_get ws r c).
  { intros L. destruct (Nat.eq_dec c col) as [-> | Hc].
    - destruct (in_dec Nat.eq_dec r (rows_upto (row_limit cfg ws))) as [Hin | Hin].
      + rewrite convert_column_visited by exact Hin. now rewrite L.
      + apply convert_column_other. now right.
    - apply convert_column_other. now left. }
  split; [| split].
  - intros Hne. destruct (Nat.eq_dec c col) as [-> | Hc].
    + destruct (in_dec Nat.eq_dec r (rows_upto (row_limit cfg ws))) as [Hin | Hin].
      * split; [reflexivity | split; [exact Hin |]].
        destruct (is_link (cell_type (ws_get ws r col))) eqn:L; [reflexivity |].
        exfalso. apply Hne. now apply Keep.
      * exfalso. apply Hne. apply convert_column_other. now right.
    + exfalso. apply Hne. apply convert_column_other. now left.
  - intros H. apply Keep. now apply is_link_false_iff.
  - destruct (convert_column_loop cfg tq ws col name) as [out [E _]].
    rewrite E. now rewrite convert_loop_max_row.
Qed.

(** C4.  With a positive cap, the count a column conversion returns is at
    most the smaller of the sheet's row extent and the cap. *)
Theorem converted_count_bound (cfg : BotConfig) (tq : bool) (ws : Worksheet)
    (col : nat) (name : str) :
  (0 < max_rows_to_process cfg)%Z ->
  (Z.of_nat (converted_count (convert_column_to_hyperlinks cfg tq ws col name))
   <= Z.min (Z.of_nat (max_row ws)) (max_rows_to_process cfg))%Z.
Proof.
  intros Hcap. destruct (convert_column_loop cfg tq ws col name) as [out [_ E]].
  rewrite E.
  pose proof (convert_loop_count_bound cfg tq col (row_limit cfg ws)
                (rows_upto (row_limit cfg ws))
                {| st_ws := ws; converted_count := 0; last_progress := 0; st_out := out |}) as B.
  assert (L : length (rows_upto (row_limit cfg ws)) = Z.to_nat (row_limit cfg ws))
    by apply length_seq.
  rewrite L in B. cbn [converted_count] in B.
  unfold row_limit in *. lia.
Qed.

Lemma converted_count_bound_witness :
  (0 < max_rows_to_process defaults)%Z
  /\ (Z.of_nat (converted_count
        (convert_column_to_hyperlinks defaults false demo_sheet 1 (py "Contact")))
      <= Z.min (Z.of_nat (max_row demo_sheet)) (max_rows_to_process defaults))%Z.
Proof.
  split; [reflexivity |].
  apply (converted_count_bound defaults false demo_sheet 1 (py "Contact")).
  reflexivity.
Defined.

Example demo_conversion :
  let st := convert_column_to_hyperlinks defaults false demo_sheet 1 (py "Contact") in
  converted_count st = 3%nat
  /\ hyperlink (ws_get (st_ws st) 1 1) = Some (py "mailto:jane@example.com")
  /\ ws_get (st_ws st) 2 1 = text_cell "Hello World"
  /\ hyperlink (ws_get (st_ws st) 3 1) = Some (py "https://example.com")
  /\ hyperlink (ws_get (st_ws st) 4 1) = Some (py "https://LinkedIn.com/in/jane")
  /\ font (ws_get (st_ws st) 4 1) = hyperlink_font defaults.
Proof. vm_compute. repeat split. Qed.

Lemma linked_styled (cfg : BotConfig) (c : Cell) :
  styled_link cfg (linked cfg c) (link_target (cell_text c)).
Proof. repeat split. Qed.

Lemma link_target_email (v : str) :
  detect_content_type v = Email -> link_target v = py "mailto:" ++ v.
Proof. unfold link_target. now intros ->. Qed.

Lemma link_target_url (v : str) :
  detect_content_type v = Website \/ detect_content_type v = LinkedIn ->
  link_target v = format_website_url v.
Proof. unfold link_target. now intros [-> | ->]. Qed.

(** One pass of the loop body over a cell whose text [v] is not empty,
    from any state of the loop: the link written, the font, the value kept
    and the count raised by one. *)
Lemma convert_row_links (cfg : BotConfig) (tq : bool) (col : nat)
    (total_rows : Z) (st : ConvState) (row : nat) :
  cell_text (ws_get (st_ws st) row col) <> [] ->
  (detect_content_type (cell_text (ws_get (st_ws st) row col)) = Email ->
     styled_link cfg
       (ws_get (st_ws (convert_row cfg tq col total_rows st row)) row col)
       (py "mailto:" ++ cell_text (ws_get (st_ws st) row col))
     /\ value (ws_get (st_ws (convert_row cfg tq col total_rows st row)) row col)
        = value (ws_get (st_ws st) row col)
     /\ converted_count (convert_row cfg tq col total_rows st row)
        = S (converted_count st))
  /\ (detect_content_type (cell_text (ws_get (st_ws st) row col)) = Website
      \/ detect_content_type (cell_text (ws_get (st_ws st) row col)) = LinkedIn ->
     styled_link cfg
       (ws_get (st_ws (convert_row cfg tq col total_rows st row)) row col)
       (format_website_url (cell_text (ws_get (st_ws st) row col)))
     /\ value (ws_get (st_ws (convert_row cfg tq col total_rows st row)) row col)
        = value (ws_get (st_ws st) row col)
     /\ converted_count (convert_row cfg tq col total_rows st row)
        = S (converted_count st)).
Proof.
  intros _. rewrite convert_row_self, convert_row_count. unfold cell_type.
  split.
  - intros E. rewrite E. simpl is_link. cbv iota.
    rewrite <- (link_target_email _ E).
    split; [apply linked_styled | split; [reflexivity | lia]].
  - intros E. assert (L : is_link (detect_content_type
                      (cell_text (ws_get (st_ws st) row col))) = true)
      by (destruct E as [E | E]; now rewrite E).
    rewrite L. rewrite <- (link_target_url _ E).
    split; [apply linked_styled | split; [reflexivity | lia]].
Qed.

(** The same cells, read from the sheet a whole column conversion leaves. *)
Lemma convert_column_links (cfg : BotConfig) (tq : bool) (ws : Worksheet)
    (col : nat) (name : str) (row : nat) :
  In row (rows_upto (row_limit cfg ws)) ->
  is_link (cell_type (ws_get ws row col)) = true ->
  styled_link cfg
    (ws_get (st_ws (convert_column_to_hyperlinks cfg tq ws col name)) row col)
    (link_target (cell_text (ws_get ws row col)))
  /\ value (ws_get (st_ws (convert_column_to_hyperlinks cfg tq ws col name)) row col)
     = value (ws_get ws row col).
Proof.
  intros Hin L. rewrite convert_column_visited by exact Hin. rewrite L.
  split; [apply linked_styled | reflexivity].
Qed.



(** ** Progress reporting does not steer the conversion *)

Lemma convert_loop_progress_irrelevant (cfg : BotConfig) (col : nat) (total_rows : Z)
    (rows : list nat) (st1 st2 : ConvState) :
  st_ws st1 = st_ws st2 -> converted_count st1 = converted_count st2 ->
  st_ws (fold_left (convert_row cfg true col total_rows) rows st1)
  = st_ws (fold_left (convert_row cfg false col total_rows) rows st2)
  /\ converted_count (fold_left (convert_row cfg true col total_rows) rows st1)
     = converted_count (fold_left (convert_row cfg false col total_rows) rows st2).
Proof.
  revert st1 st2. induction rows as [|row rows IH]; intros st1 st2 Hw Hc; simpl.
  - now split.
  - apply IH.
    + rewrite !convert_row_ws. now rewrite Hw.
    + rewrite !convert_row_count. now rewrite Hw, Hc.
Qed.

(** C9.  For every column, the progress-bar path and the plain-print path
    of the conversion leave the same worksheet (so the same value,
    hyperlink and font in every cell) and return the same count. *)
Theorem convert_column_progress_independent (cfg : BotConfig) (ws : Worksheet)
    (col : nat) (name : str) :
  st_ws (convert_column_to_hyperlinks cfg true ws col name)
  = st_ws (convert_column_to_hyperlinks cfg false ws col name)
  /\ converted_count (convert_column_to_hyperlinks cfg true ws col name)
     = converted_count (convert_column_to_hyperlinks cfg false ws col name).
Proof.
  destruct (convert_column_loop cfg true ws col name) as [out1 [W1 C1]].
  destruct (convert_column_loop cfg false ws col name) as [out2 [W2 C2]].
  rewrite W1, W2, C1, C2.
  now apply convert_loop_progress_irrelevant.
Qed.

Example progress_paths_differ_in_output :
  st_out (convert_column_to_hyperlinks defaults true demo_sheet 1 (py "Contact"))
  <> st_out (convert_column_to_hyperlinks defaults false demo_sheet 1 (py "Contact")).
Proof. vm_compute. discriminate. Qed.

(** ** Known domain endings are always linked *)

Lemma common_domain_truthy (v : CellValue) :
  has_common_domain (py_str v) -> truthy v = true.
Proof.
  intros H. pose proof (common_domain_not_blank _ H) as N.
  pose proof (common_domain_website _ H) as W.
  destruct v as [| s | [|] | z | repr]; simpl in *.
  - vm_compute in W. discriminate.
  - destruct s; [discriminate | reflexivity].
  - reflexivity.
  - vm_compute in W. discriminate.
  - destruct z; [vm_compute in W; discriminate | reflexivity | reflexivity].
  - reflexivity.
Qed.

(** C10.  When the stripped, lower-cased form of [x] contains one of the
    listed domain endings, [x] is never classified Text: it is Email,
    LinkedIn or Website, and a cell whose value reads [x], in a row the
    conversion visits, comes out as a hyperlink in the hyperlink style and
    is counted by the loop. *)
Theorem common_domain_always_linked (x : str) :
  has_common_domain x ->
  detect_content_type x <> Text
  /\ (detect_content_type x = Email \/ detect_content_type x = LinkedIn
      \/ detect_content_type x = Website)
  /\ (forall (cfg : BotConfig) (tq : bool) (col : nat) (total_rows : Z)
        (st : ConvState) (row : nat),
        py_str (value (ws_get (st_ws st) row col)) = x ->
        styled_link cfg
          (ws_get (st_ws (convert_row cfg tq col total_rows st row)) row col)
          (link_target (strip x))
        /\ converted_count (convert_row cfg tq col total_rows st row)
           = S (converted_count st))
  /\ (forall (cfg : BotConfig) (tq : bool) (ws : Worksheet) (col : nat)
        (name : str) (row : nat),
        In row (rows_upto (row_limit cfg ws)) ->
        py_str (value (ws_get ws row col)) = x ->
        styled_link cfg
          (ws_get (st_ws (convert_column_to_hyperlinks cfg tq ws col name)) row col)
          (link_target (strip x))).
Proof.
  intros H. pose proof (common_domain_classified x H) as D.
  assert (T : forall c : Cell, py_str (value c) = x ->
            cell_text c = strip x /\ is_link (cell_type c) = true).
  { intros c Hv. assert (Tx : cell_text c = strip x).
    { unfold cell_text. rewrite (common_domain_truthy (value c)) by now rewrite Hv.
      now rewrite Hv. }
    split; [exact Tx |]. unfold cell_type.
    rewrite Tx, detect_content_type_strip.
    destruct D as [D | [D | D]]; now rewrite D. }
  split; [destruct D as [D | [D | D]]; rewrite D; discriminate |].
  split; [exact D |]. split.
  - intros cfg tq col total_rows st row Hv. destruct (T _ Hv) as [Tx L].
    rewrite convert_row_self, convert_row_count, L, <- Tx.
    split; [apply linked_styled | lia].
  - intros cfg tq ws col name row Hin Hv. destruct (T _ Hv) as [Tx L].
    rewrite <- Tx. now apply convert_column_links.
Qed.

Lemma common_domain_always_linked_witness :
  has_common_domain (py "example.com")
  /\ detect_content_type (py "example.com") <> Text
  /\ styled_link defaults
       (ws_get (st_ws (convert_column_to_hyperlinks defaults false demo_sheet 1
                         (py "Contact"))) 3 1)
       (link_target (strip (py "example.com"))).
Proof.
  assert (H : has_common_domain (py "example.com")).
  { exists (py ".com"). split; [now left | vm_compute; reflexivity]. }
  split; [exact H |].
  pose proof (common_domain_always_linked (py "example.com") H) as [N [_ [_ L]]].
  split; [exact N |].
  apply L; [| reflexivity].
  apply rows_upto_In. vm_compute. lia.
Defined.

(** ** The column analyzer *)

Lemma tally_get_add (t t' : ContentType) (d : tally) :
  tally_get t' (tally_add t d)
  = (tally_get t' d + if decide (t = t') then 1 else 0)%nat.
Proof.
  induction d as [|[k n] d IH]; simpl.
  - destruct (decide (t = t')); reflexivity.
  - destruct (decide (k = t)) as [-> | Hk]; simpl.
    + destruct (decide (t = t')); lia.
    + destruct (decide (k = t')) as [-> | Hk'].
      * destruct (decide (t = t')); [congruence | lia].
      * exact IH.
Qed.

Lemma tally_add_keys (t : ContentType) (d : tally) (k : ContentType) :
  In k (map fst (tally_add t d)) <-> k = t \/ In k (map fst d).
Proof.
  induction d as [|[k0 n] d IH]; simpl.
  - split; [intros [<- | []]; now left | intros [-> | []]; now left].
  - destruct (decide (k0 = t)) as [-> | Hk]; simpl.
    + split; [intros [H | H]; [right; now left | right; now right] |].
      intros [-> | [H | H]]; [now left | now left | now right].
    + rewrite IH. split.
      * intros [H | [H | H]]; [right; now left | now left | right; now right].
      * intros [H | [H | H]]; [right; now left | now left | right; now right].
Qed.

Lemma tally_add_wf (t : ContentType) (d : tally) :
  tally_wf d -> tally_wf (tally_add t d).
Proof.
  unfold tally_wf. induction d as [|[k n] d IH]; simpl; intros [Hnd Hpos].
  - split; [repeat constructor; intros [] | repeat constructor].
  - inversion Hnd as [|? ? Hnotin Hnd']; subst.
    inversion Hpos as [|? ? Hn Hpos']; subst. simpl in Hn.
    destruct (decide (k = t)) as [-> | Hk]; simpl.
    + split; [exact Hnd |]. constructor; [simpl; lia | exact Hpos'].
    + destruct (IH (conj Hnd' Hpos')) as [IH1 IH2]. split.
      * constructor; [| exact IH1]. rewrite tally_add_keys.
        intros [-> | H]; [congruence | contradiction].
      * constructor; [exact Hn | exact IH2].
Qed.

Lemma tally_from_wf (vals : list str) (d : tally) :
  tally_wf d -> tally_wf (tally_from d vals).
Proof.
  revert d. induction vals as [|v vals IH]; intros d H; simpl; [exact H |].
  apply IH. destruct (truthy_str v); [now apply tally_add_wf | exact H].
Qed.

Lemma tally_from_get (t : ContentType) (vals : list str) (d : tally) :
  tally_get t (tally_from d vals) = (tally_get t d + votes t vals)%nat.
Proof.
  revert d. induction vals as [|v vals IH]; intros d; simpl; [lia |].
  rewrite IH. destruct (truthy_str v); simpl; [| lia].
  rewrite tally_get_add.
  destruct (decide (detect_content_type v = t)) as [E | E].
  - rewrite bool_decide_eq_true_2 by exact E. lia.
  - rewrite bool_decide_eq_false_2 by exact E. lia.
Qed.

Lemma tally_get_entry (d : tally) (k : ContentType) (n : nat) :
  List.NoDup (map fst d) -> In (k, n) d -> tally_get k d = n.
Proof.
  induction d as [|[k0 n0] d IH]; simpl; intros Hnd Hin; [destruct Hin |].
  inversion Hnd as [|? ? Hnotin Hnd']; subst.
  destruct Hin as [E | Hin].
  - injection E as -> ->. now rewrite decide_True.
  - destruct (decide (k0 = k)) as [-> | Hk]; [| now apply IH].
    exfalso. apply Hnotin. change k with (fst (k, n)). now apply in_map.
Qed.

Lemma tally_get_found (d : tally) (t : ContentType) :
  tally_get t d = 0%nat \/ In (t, tally_get t d) d.
Proof.
  induction d as [|[k n] d IH]; simpl; [now left |].
  destruct (decide (k = t)) as [-> | Hk].
  - right. now left.
  - destruct IH as [IH | IH]; [now left | right; now right].
Qed.

(** [max_item] returns an item of the list, and none has a larger count. *)
Lemma max_item_spec (best : ContentType * nat) (d : tally) :
  In (max_item best d) (best :: d)
  /\ forall y, In y (best :: d) -> (snd y <= snd (max_item best d))%nat.
Proof.
  revert best. induction d as [|x d IH]; intros best; simpl.
  - split; [now left |]. intros y [<- | []]. lia.
  - destruct (IH (if (snd best <? snd x)%nat then x else best)) as [H1 H2].
    split.
    + destruct H1 as [H1 | H1]; [| right; now right].
      rewrite <- H1. destruct (snd best <? snd x)%nat; [right; now left | now left].
    + intros y Hy.
      assert (Hb : (snd best <= snd (max_item (if (snd best <? snd x)%nat then x else best) d)
                    /\ snd x <= snd (max_item (if (snd best <? snd x)%nat then x else best) d))%nat).
      { pose proof (H2 _ (or_introl eq_refl)) as Hm.
        destruct (snd best <? snd x)%nat eqn:E.
        - apply Nat.ltb_lt in E. lia.
        - apply Nat.ltb_ge in E. lia. }
      destruct Hy as [<- | [<- | Hy]]; [lia | lia |].
      apply H2. now right.
Qed.

Lemma analyze_column_profile (ws : Worksheet) (col : nat) :
  analyze_column ws col = profile (sample ws col).
Proof.
  unfold analyze_column, profile, sample, tally_from, analyze_step.
  generalize (seq 1 (Nat.min 100 (max_row ws))) as rows. intros rows.
  generalize (@nil (ContentType * nat)) as d. intros d.
  assert (E : fold_left
            (fun (d0 : tally) (row : nat) =>
               if truthy_str (cell_text (ws_get ws row col))
               then tally_add (detect_content_type (cell_text (ws_get ws row col))) d0
               else d0) rows d
          = fold_left
              (fun (d0 : tally) (v : str) =>
                 if truthy_str v then tally_add (detect_content_type v) d0 else d0)
              (map (fun row => cell_text (ws_get ws row col)) rows) d).
  { revert d. induction rows as [|r rows IH]; intros d; simpl; [reflexivity | apply IH]. }
  now rewrite E.
Qed.

Lemma votes_none (vals : list str) :
  (forall t, votes t vals = 0%nat) <-> Forall (fun v => v = []) vals.
Proof.
  induction vals as [|v vals IH]; simpl.
  - split; [constructor | reflexivity].
  - split.
    + intros H. constructor.
      * destruct v as [|c v]; [reflexivity |].
        specialize (H (detect_content_type (c :: v))). simpl in H.
        rewrite bool_decide_eq_true_2 in H by reflexivity. discriminate.
      * apply IH. intros t. specialize (H t). lia.
    + intros H t. inversion H as [|? ? Hv Hvals]; subst. simpl.
      now apply IH.
Qed.

Lemma profile_spec (vals : list str) :
  match profile vals with
  | (Unknown, n) => n = 0%nat /\ Forall (fun v => v = []) vals
  | (Detected t, n) =>
      n = votes t vals /\ (0 < n)%nat /\ forall t', (votes t' vals <= n)%nat
  end.
Proof.
  unfold profile.
  assert (Hwf : tally_wf (tally_from [] vals)).
  { apply tally_from_wf. split; constructor. }
  assert (Hget : forall t, tally_get t (tally_from [] vals) = votes t vals).
  { intros t. now rewrite tally_from_get. }
  destruct (tally_from [] vals) as [|x d] eqn:E.
  - split; [reflexivity |]. apply votes_none. intros t. now rewrite <- Hget.
  - destruct (max_item_spec x d) as [Hin Hmax].
    destruct (max_item x d) as [t n] eqn:M.
    destruct Hwf as [Hnd Hpos].
    assert (Hn : n = votes t vals).
    { rewrite <- Hget. symmetry. now apply tally_get_entry. }
    split; [exact Hn | split].
    + rewrite List.Forall_forall in Hpos. apply (Hpos (t, n) Hin).
    + intros t'. rewrite <- Hget.
      destruct (tally_get_found (x :: d) t') as [Z | F]; [lia |].
      apply (Hmax _ F).
Qed.


Example analyze_scenario : analyze_column scenario_sheet 1 = (Detected Email, 2%nat).
Proof. vm_compute. reflexivity. Qed.

Example analyze_blank_column : analyze_column scenario_sheet 2 = (Unknown, 0%nat).
Proof. vm_compute. reflexivity. Qed.

(** ** Batch processing *)

Section BatchProperties.
Variable World : Type.
Variable fs_lookup : World -> str -> FsEntry.
Variable process_single_file : str -> World -> Outcome bool * World * list FileEvent.

Local Abbreviation step tq total := (batch_step World process_single_file tq total).

Lemma batch_step_world (tq : bool) (total : nat) (st : BatchState World)
    (i : nat) (f : str) :
  bs_world (step tq total st (i, f))
  = snd (fst (process_single_file f (bs_world st))).
Proof.
  unfold batch_step.
  destruct (process_single_file f (bs_world st)) as [[[[|] | e] w'] o]; reflexivity.
Qed.

Lemma batch_step_count (tq : bool) (total : nat) (st : BatchState World)
    (i : nat) (f : str) :
  success_count (step tq total st (i, f))
  = (success_count st
     + if succeeded (fst (fst (process_single_file f (bs_world st)))) then 1 else 0)%nat.
Proof.
  unfold batch_step.
  destruct (process_single_file f (bs_world st)) as [[[[|] | e] w'] o]; simpl; lia.
Qed.

(** The loop visits every file, threads the world through all of them
    and counts the successes, whatever each call did. *)
Lemma batch_loop_run (tq : bool) (total : nat) (files : list str) (i : nat)
    (st : BatchState World) :
  bs_world (fold_left (step tq total) (combine (seq i (length files)) files) st)
  = snd (run_files process_single_file files (bs_world st))
  /\ success_count (fold_left (step tq total) (combine (seq i (length files)) files) st)
     = (success_count st
        + length (List.filter succeeded
                    (fst (run_files process_single_file files (bs_world st)))))%nat.
Proof.
  revert i st. induction files as [|f files IH]; intros i st.
  - simpl. split; [reflexivity | lia].
  - cbn [length seq combine fold_left run_files].
    destruct (IH (S i) (step tq total st (i, f))) as [IHw IHc].
    rewrite IHw, IHc, batch_step_world, batch_step_count.
    destruct (process_single_file f (bs_world st)) as [[res w'] o].
    cbn [fst snd].
    destruct (run_files process_single_file files w') as [rs w''].
    cbn [fst snd List.filter].
    destruct (succeeded res); simpl; split; try reflexivity; lia.
Qed.

Lemma run_files_length (files : list str) (w : World) :
  length (fst (run_files process_single_file files w)) = length files.
Proof.
  revert w. induction files as [|f files IH]; intros w; simpl; [reflexivity |].
  destruct (process_single_file f w) as [[res w'] o].
  specialize (IH w'). destruct (run_files process_single_file files w') as [rs w''].
  simpl in *. now rewrite IH.
Qed.

Lemma existsb_succeeded (os : list (Outcome bool)) :
  existsb succeeded os = (0 <? length (List.filter succeeded os))%nat.
Proof.
  induction os as [|o os IH]; simpl; [reflexivity |].
  destruct (succeeded o); simpl; [reflexivity | exact IH].
Qed.

(** The part of the batch's contract that holds: when the path is
    missing or names a directory, the batch returns a flag and raises
    nothing.  A missing folder and a folder with no supported file are
    reported and give [False].  Otherwise every supported file is
    processed in turn, a call that raises or returns [False] only fails
    to count, and the flag is [True] exactly when some file succeeded. *)
Lemma batch_process_folder_isolated (cfg : BotConfig) (tq : bool)
    (folder_path : str) (w : World) :
  fs_lookup w folder_path = Missing
  \/ (exists entries, fs_lookup w folder_path = Directory entries) ->
  fst (batch_process_folder World fs_lookup process_single_file cfg tq folder_path w)
  = Returned (existsb succeeded
      (fst (run_files process_single_file (batch_files fs_lookup cfg folder_path w) w)))
  /\ length (fst (run_files process_single_file (batch_files fs_lookup cfg folder_path w) w))
     = length (batch_files fs_lookup cfg folder_path w)
  /\ bs_world (snd (batch_process_folder World fs_lookup process_single_file cfg tq folder_path w))
     = snd (run_files process_single_file (batch_files fs_lookup cfg folder_path w) w)
  /\ success_count (snd (batch_process_folder World fs_lookup process_single_file cfg tq folder_path w))
     = length (List.filter succeeded
         (fst (run_files process_single_file (batch_files fs_lookup cfg folder_path w) w)))
  /\ (fs_lookup w folder_path = Missing ->
      fst (batch_process_folder World fs_lookup process_single_file cfg tq folder_path w)
      = Returned false
      /\ In (ByBatch (LogError (py "Folder not found") folder_path))
           (bs_out (snd (batch_process_folder World fs_lookup process_single_file cfg tq folder_path w))))
  /\ (batch_files fs_lookup cfg folder_path w = [] ->
      (exists entries, fs_lookup w folder_path = Directory entries) ->
      fst (batch_process_folder World fs_lookup process_single_file cfg tq folder_path w)
      = Returned false
      /\ In (ByBatch (PrintMsg (py "No Excel files found in the folder!")))
           (bs_out (snd (batch_process_folder World fs_lookup process_single_file cfg tq folder_path w)))).
Proof.
  intros Hfs. unfold batch_process_folder, batch_files.
  destruct (fs_lookup w folder_path) as [| |entries] eqn:L.
  - cbn [fst snd run_files existsb length List.filter bs_world success_count bs_out].
    split; [reflexivity |]. split; [reflexivity |].
    split; [reflexivity |]. split; [reflexivity |].
    split.
    + intros _. split; [reflexivity | now left].
    + intros _ [entries He]. discriminate.
  - destruct Hfs as [Hfs | [entries Hfs]]; discriminate.
  - set (files := map (path_join folder_path)
                    (filter (fun f => is_supported cfg f = true) entries)).
    destruct (decide (files = [])) as [E | E].
    + rewrite E.
      cbn [fst snd run_files existsb length List.filter bs_world success_count bs_out].
      split; [reflexivity |]. split; [reflexivity |].
      split; [reflexivity |]. split; [reflexivity |].
      split; [discriminate |].
      intros _ _. split; [reflexivity | right; now left].
    + cbv zeta.
      pose proof (batch_loop_run tq (length files) files 0
                    {| bs_world := w; success_count := 0;
                       bs_out := map ByBatch
                                   ([PrintFound (length files); LogFound (length files)]
                                    ++ (if tq then [TqdmOpen (Z.of_nat (length files))]
                                        else [PrintMsg (py "Starting batch processing...")])) |})
        as [Hw Hc].
      unfold enumerate. cbn [fst snd bs_world success_count].
      cbn [bs_world success_count] in Hw, Hc.
      rewrite Hw, Hc. cbn [Nat.add].
      split; [now rewrite existsb_succeeded |].
      split; [apply run_files_length |].
      split; [reflexivity |].
      split; [reflexivity |].
      split; [discriminate |].
      intros F. contradiction.
Qed.

(** C8, where the code departs from it.  A path that exists without
    being a directory passes the [os.path.exists] test, and then
    [os.listdir] raises: the batch raises to its caller exactly when the
    path names a regular file, and then it has reported nothing, has
    processed nothing and gives no flag. *)
Theorem batch_process_folder_not_a_directory (cfg : BotConfig) (tq : bool)
    (folder_path : str) (w : World) :
  (fs_lookup w folder_path = RegularFile <->
   exists e,
     fst (batch_process_folder World fs_lookup process_single_file cfg tq folder_path w)
     = Raised e)
  /\ (fs_lookup w folder_path = RegularFile ->
      fst (batch_process_folder World fs_lookup process_single_file cfg tq folder_path w)
      = Raised (py "NotADirectoryError")
      /\ bs_out (snd (batch_process_folder World fs_lookup process_single_file
                        cfg tq folder_path w)) = []
      /\ bs_world (snd (batch_process_folder World fs_lookup process_single_file
                          cfg tq folder_path w)) = w).
Proof.
  unfold batch_process_folder.
  destruct (fs_lookup w folder_path) as [| |entries] eqn:L.
  - split; [split |]; [discriminate | intros [e E]; discriminate E | discriminate].
  - split; [split |].
    + intros _. eexists. reflexivity.
    + reflexivity.
    + intros _. repeat split.
  - split; [split |]; [discriminate | | discriminate].
    intros [e E]. exfalso. revert E.
    destruct (decide (_ = [])); cbv zeta; cbn [fst]; discriminate.
Qed.
End BatchProperties.

Lemma batch_process_folder_not_a_directory_witness :
  demo_folder 0 (py "inbox/a.xlsx") = RegularFile
  /\ fst (batch_process_folder nat demo_folder demo_process defaults false
            (py "inbox/a.xlsx") 0%nat)
     = Raised (py "NotADirectoryError")
  /\ bs_out (snd (batch_process_folder nat demo_folder demo_process defaults false
                    (py "inbox/a.xlsx") 0%nat)) = [].
Proof.
  assert (H : demo_folder 0 (py "inbox/a.xlsx") = RegularFile)
    by (vm_compute; reflexivity).
  split; [exact H |].
  destruct (proj2 (batch_process_folder_not_a_directory nat demo_folder demo_process
                     defaults false (py "inbox/a.xlsx") 0%nat) H) as [R [O _]].
  split; [exact R | exact O].
Defined.

Example batch_demo_folder :
  fst (batch_process_folder nat demo_folder demo_process defaults false (py "inbox") 0%nat)
  = Returned true
  /\ success_count
       (snd (batch_process_folder nat demo_folder demo_process defaults false (py "inbox") 0%nat))
     = 2%nat
  /\ length (batch_files demo_folder defaults (py "inbox") 0%nat) = 3%nat.
Proof. vm_compute. repeat split. Qed.

Example batch_missing_folder :
  fst (batch_process_folder nat demo_folder demo_process defaults false (py "nowhere") 0%nat)
  = Returned false.
Proof. vm_compute. reflexivity. Qed.

(** * Further properties of the code *)

(** ** Padding with white space *)

Lemma lstrip_app_spaces (w s : str) :
  forallb is_space w = true -> lstrip (w ++ s) = lstrip s.
Proof.
  induction w as [|c w IH]; simpl; [reflexivity |].
  rewrite andb_true_iff. intros [-> H]. now apply IH.
Qed.

Lemma lstrip_app_nonblank (s t : str) :
  lstrip s <> [] -> lstrip (s ++ t) = lstrip s ++ t.
Proof.
  induction s as [|c s IH]; simpl; [congruence |].
  destruct (is_space c); [exact IH | reflexivity].
Qed.

Lemma lstrip_nil_spaces (s : str) : lstrip s = [] -> forallb is_space s = true.
Proof.
  induction s as [|c s IH]; simpl; [reflexivity |].
  destruct (is_space c); [exact IH | discriminate].
Qed.

Lemma rstrip_app_spaces (s w : str) :
  forallb is_space w = true -> rstrip (s ++ w) = rstrip s.
Proof.
  intros H. unfold rstrip. rewrite rev_app_distr, lstrip_app_spaces; [reflexivity |].
  now rewrite forallb_rev.
Qed.

Lemma strip_pad (w1 x w2 : str) :
  forallb is_space w1 = true -> forallb is_space w2 = true ->
  strip (w1 ++ x ++ w2) = strip x.
Proof.
  intros H1 H2. unfold strip. rewrite (lstrip_app_spaces w1 _ H1).
  destruct (lstrip x) as [|c u] eqn:E.
  - apply lstrip_nil_spaces in E.
    rewrite (lstrip_spaces (x ++ w2)); [reflexivity |].
    now rewrite forallb_app, E, H2.
  - rewrite lstrip_app_nonblank by (rewrite E; discriminate).
    rewrite E. now apply rstrip_app_spaces.
Qed.

(** X1.  White space around a text changes nothing: padded on either
    side with any white-space characters, a text gets the same type, the
    same answer from each of the three tests and the same formatted URL. *)
Theorem padding_ignored (w1 x w2 : str) :
  forallb is_space w1 = true -> forallb is_space w2 = true ->
  detect_content_type (w1 ++ x ++ w2) = detect_content_type x
  /\ is_valid_email (w1 ++ x ++ w2) = is_valid_email x
  /\ is_valid_linkedin (w1 ++ x ++ w2) = is_valid_linkedin x
  /\ is_valid_website (w1 ++ x ++ w2) = is_valid_website x
  /\ format_website_url (w1 ++ x ++ w2) = format_website_url x.
Proof.
  intros H1 H2. pose proof (strip_pad w1 x w2 H1 H2) as E.
  unfold detect_content_type, is_valid_email, is_valid_linkedin,
    is_valid_website, format_website_url.
  rewrite E. repeat split.
Qed.

Lemma padding_ignored_witness :
  forallb is_space (py "  ") = true
  /\ forallb is_space [newline] = true
  /\ detect_content_type (py "  " ++ py "jane@example.com" ++ [newline])
     = detect_content_type (py "jane@example.com").
Proof.
  split; [reflexivity |]. split; [reflexivity |].
  apply (padding_ignored (py "  ") (py "jane@example.com") [newline]); reflexivity.
Defined.

(** ** How the tests overlap *)

Lemma contains_app_r (needle pre hay : str) :
  contains needle hay = true -> contains needle (pre ++ hay) = true.
Proof.
  rewrite !contains_spec. intros [a [b ->]].
  exists (pre ++ a), b. now rewrite <- app_assoc.
Qed.

Lemma contains_suffix_of_needle (pre suf hay : str) :
  contains (pre ++ suf) hay = true -> contains suf hay = true.
Proof.
  rewrite !contains_spec. intros [a [b ->]].
  exists (a ++ pre), b. now rewrite <- !app_assoc.
Qed.




Lemma contains_single (c : ascii) (t : str) : contains [c] t = true <-> In c t.
Proof.
  rewrite contains_spec. split.
  - intros [a [b ->]]. apply in_or_app. right. now left.
  - intros H. apply in_split in H as [a [b ->]]. now exists a, b.
Qed.

Lemma lower_char_dot (c : ascii) : lower_char c = "."%char -> c = "."%char.
Proof.
  destruct c as [b0 b1 b2 b3 b4 b5 b6 b7].
  destruct b0, b1, b2, b3, b4, b5, b6, b7; vm_compute; intros H;
    first [reflexivity | discriminate H].
Qed.

Lemma lower_mem_dot (t : str) : In "."%char (lower t) -> In "."%char t.
Proof.
  unfold lower. rewrite in_map_iff. intros [c [Hc Hin]].
  apply lower_char_dot in Hc. now subst.
Qed.

(** X3.  A text with no dot in it is never linked: the three tests all
    reject it, and it is classified Empty or Text. *)
Theorem dotless_never_linked (x : str) :
  ~ In "."%char x ->
  is_valid_email x = false
  /\ is_valid_linkedin x = false
  /\ is_valid_website x = false
  /\ (detect_content_type x = Empty \/ detect_content_type x = Text).
Proof.
  intros Hdot.
  assert (Hs : ~ In "."%char (lower (strip x))).
  { intros H. apply Hdot, strip_mem, lower_mem_dot, H. }
  assert (E : is_valid_email x = false).
  { destruct (is_valid_email x) eqn:E; [| reflexivity].
    apply is_valid_email_shape in E. destruct E as [l [d [t [E _]]]].
    exfalso. apply Hdot, strip_mem. rewrite E.
    apply in_or_app. right. right. apply in_or_app. right. now left. }
  assert (L : is_valid_linkedin x = false).
  { destruct (is_valid_linkedin x) eqn:L; [| reflexivity].
    exfalso. apply Hs. apply contains_single.
    apply (contains_suffix_of_needle (py "linkedin") [("."%char)]).
    apply contains_spec. apply contains_spec in L as [a [b ->]].
    exists a, (py "com" ++ b). reflexivity. }
  assert (W : is_valid_website x = false).
  { unfold is_valid_website.
    destruct (contains (py ".") (lower (strip x))) eqn:C.
    - exfalso. apply Hs. now apply contains_single.
    - now rewrite orb_true_r. }
  split; [exact E |]. split; [exact L |]. split; [exact W |].
  unfold detect_content_type.
  rewrite is_valid_email_strip, is_valid_linkedin_strip, is_valid_website_strip, E, L, W.
  destruct (negb (truthy_str (strip x))); [now left | now right].
Qed.

Lemma dotless_never_linked_witness :
  ~ In "."%char (py "jane@example")
  /\ detect_content_type (py "jane@example") = Text.
Proof.
  assert (H : ~ In "."%char (py "jane@example")).
  { intros H. vm_compute in H. repeat (destruct H as [H | H]; [discriminate H |]). exact H. }
  split; [exact H |].
  destruct (dotless_never_linked (py "jane@example") H) as [_ [_ [_ [D | D]]]];
    [vm_compute in D; discriminate D | exact D].
Defined.

(** ** What a formatted URL looks like *)

(** X4.  A formatted URL always starts with ["http://"] or ["https://"]
    and has no white space at either end; a blank argument gives the bare
    ["https://"]. *)
Theorem format_website_url_scheme (x : str) :
  has_scheme (format_website_url x)
  /\ trimmed (format_website_url x)
  /\ (forallb is_space x = true -> format_website_url x = py "https://").
Proof.
  rewrite format_website_url_eq.
  split; [| split].
  - destruct (startswith (py "http://") (strip x) || startswith (py "https://") (strip x))
      eqn:E.
    + now apply has_scheme_startswith.
    + exists (strip x). now right.
  - destruct (startswith (py "http://") (strip x) || startswith (py "https://") (strip x)).
    + apply strip_trimmed.
    + apply https_prefix_trimmed, strip_trimmed.
  - intros H. apply strip_empty_iff in H.
    destruct (strip x); [reflexivity | discriminate].
Qed.

Lemma startswith_lower (p s : str) :
  startswith p s = true -> startswith (lower p) (lower s) = true.
Proof.
  rewrite !startswith_spec. intros [t ->]. exists (lower t).
  unfold lower. apply map_app.
Qed.

Lemma lower_length (s : str) : length (lower s) = length s.
Proof. apply length_map. Qed.

(** A text that starts with [p], where [p] is a scheme in some other
    letter case, starts with neither scheme as the code looks for it. *)
Lemma capital_scheme_unseen (p t : str) :
  lower p = py "http://" \/ lower p = py "https://" ->
  p <> lower p ->
  startswith (py "http://") (p ++ t) = false
  /\ startswith (py "https://") (p ++ t) = false.
Proof.
  intros Hl Hne.
  assert (Hlen : length p = 7%nat \/ length p = 8%nat).
  { destruct Hl as [Hl | Hl]; apply (f_equal (@length ascii)) in Hl;
      rewrite lower_length in Hl; [left | right]; exact Hl. }
  split.
  - destruct (startswith (py "http://") (p ++ t)) eqn:S; [exfalso | reflexivity].
    apply startswith_spec in S as [t' S].
    destruct Hlen as [Hlen | Hlen].
    + apply app_inj_1 in S as [-> _]; [| exact Hlen]. now apply Hne.
    + destruct Hl as [Hl | Hl];
        [apply (f_equal (@length ascii)) in Hl; rewrite lower_length in Hl;
         rewrite Hlen in Hl; discriminate Hl |].
      do 8 (destruct p as [|? p]; [discriminate Hlen |]).
      destruct p; [| discriminate Hlen].
      injection S as -> -> -> -> -> -> -> _. vm_compute in Hl. discriminate Hl.
  - destruct (startswith (py "https://") (p ++ t)) eqn:S; [exfalso | reflexivity].
    apply startswith_spec in S as [t' S].
    destruct Hlen as [Hlen | Hlen].
    + destruct Hl as [Hl | Hl];
        [| apply (f_equal (@length ascii)) in Hl; rewrite lower_length in Hl;
           rewrite Hlen in Hl; discriminate Hl].
      do 7 (destruct p as [|? p]; [discriminate Hlen |]).
      destruct p; [| discriminate Hlen].
      injection S as -> -> -> -> -> -> -> _. vm_compute in Hl. discriminate Hl.
    + apply app_inj_1 in S as [-> _]; [| exact Hlen]. now apply Hne.
Qed.

(** X5.  The scheme is looked for in lower case only.  A text that
    starts with ["http://"] or ["https://"] written with some capital
    letter is not seen as having a scheme, and gets ["https://"] put in
    front of the scheme it already has. *)
Theorem capital_scheme_prefixed (x p t : str) :
  strip x = p ++ t ->
  lower p = py "http://" \/ lower p = py "https://" ->
  p <> lower p ->
  format_website_url x = py "https://" ++ p ++ t.
Proof.
  intros Hx Hl Hne. rewrite format_website_url_eq, Hx.
  destruct (capital_scheme_unseen p t Hl Hne) as [-> ->]. reflexivity.
Qed.

Lemma capital_scheme_prefixed_witness :
  format_website_url (py "HTTP://Example.com") = py "https://HTTP://Example.com"
  /\ detect_content_type (py "HTTP://Example.com") = Website.
Proof.
  split; [| vm_compute; reflexivity].
  apply (capital_scheme_prefixed (py "HTTP://Example.com") (py "HTTP://") (py "Example.com")).
  - vm_compute. reflexivity.
  - left. vm_compute. reflexivity.
  - vm_compute. discriminate.
Defined.

(** ** What an address looks like *)

Lemma forallb_weaken (p q : ascii -> bool) (l : str) :
  (forall c, p c = true -> q c = true) ->
  forallb p l = true -> forallb q l = true.
Proof.
  intros H. induction l as [|c l IH]; simpl; [reflexivity |].
  rewrite !andb_true_iff. intros [Hc Hl]. split; [now apply H | now apply IH].
Qed.

Lemma forallb_excludes (p : ascii -> bool) (l : str) (c : ascii) :
  forallb p l = true -> p c = false -> ~ In c l.
Proof.
  intros Hl Hc Hin. rewrite forallb_forall in Hl.
  rewrite (Hl c Hin) in Hc. discriminate.
Qed.

Lemma domain_char_non_space (c : ascii) : domain_char c = true -> non_space c = true.
Proof.
  destruct c as [b0 b1 b2 b3 b4 b5 b6 b7].
  destruct b0, b1, b2, b3, b4, b5, b6, b7; vm_compute; intros H;
    first [reflexivity | discriminate H].
Qed.

Lemma local_char_non_space (c : ascii) : local_char c = true -> non_space c = true.
Proof.
  destruct c as [b0 b1 b2 b3 b4 b5 b6 b7].
  destruct b0, b1, b2, b3, b4, b5, b6, b7; vm_compute; intros H;
    first [reflexivity | discriminate H].
Qed.

Lemma is_alpha_domain_char (c : ascii) : is_alpha c = true -> domain_char c = true.
Proof. unfold domain_char, is_alnum. now intros ->. Qed.

(** X6.  A text classified Email, once stripped, holds exactly one [@]
    and no white space at all, so the [mailto:] target built from it has
    none either. *)
Theorem email_one_at_no_space (x : str) :
  detect_content_type x = Email ->
  (exists l r, strip x = l ++ "@"%char :: r
               /\ ~ In "@"%char l /\ ~ In "@"%char r)
  /\ forallb non_space (strip x) = true
  /\ forallb non_space (py "mailto:" ++ strip x) = true.
Proof.
  intros H. unfold detect_content_type in H.
  destruct (negb (truthy_str (strip x))); [discriminate |].
  destruct (is_valid_email (strip x)) eqn:E;
    [| destruct (is_valid_linkedin (strip x)); [discriminate |];
       destruct (is_valid_website (strip x)); discriminate].
  rewrite is_valid_email_strip in E. apply is_valid_email_shape in E.
  destruct E as [l [d [t [E [_ [Hl [_ [Hd [_ Ht]]]]]]]]].
  pose proof (forallb_weaken _ _ t is_alpha_domain_char Ht) as Ht'.
  assert (Hr : forallb domain_char (d ++ "."%char :: t) = true).
  { rewrite forallb_app, Hd. simpl. exact Ht'. }
  assert (Hs : forallb non_space (strip x) = true).
  { rewrite E, forallb_app.
    rewrite (forallb_weaken _ _ l local_char_non_space Hl).
    change (forallb non_space ("@"%char :: d ++ "."%char :: t))
      with (non_space "@"%char && forallb non_space (d ++ "."%char :: t)).
    now rewrite (forallb_weaken _ _ _ domain_char_non_space Hr). }
  split; [| split].
  - exists l, (d ++ "."%char :: t). split; [exact E |]. split.
    + now apply (forallb_excludes local_char).
    + now apply (forallb_excludes domain_char).
  - exact Hs.
  - rewrite forallb_app, Hs. reflexivity.
Qed.

Lemma email_one_at_no_space_witness :
  detect_content_type (py " jane@example.com ") = Email
  /\ forallb non_space (strip (py " jane@example.com ")) = true.
Proof.
  assert (H : detect_content_type (py " jane@example.com ") = Email)
    by (vm_compute; reflexivity).
  split; [exact H |].
  now destruct (email_one_at_no_space (py " jane@example.com ") H) as [_ [S _]].
Defined.

(** ** More on the analyzer *)

Lemma votes_le_length (t : ContentType) (vals : list str) :
  (votes t vals <= length vals)%nat.
Proof.
  induction vals as [|v vals IH]; simpl; [lia |].
  destruct (truthy_str v && bool_decide (detect_content_type v = t)); lia.
Qed.

Lemma cell_text_fixed (c : Cell) : strip (cell_text c) = cell_text c.
Proof.
  unfold cell_text. destruct (truthy (value c)); [apply strip_idempotent | reflexivity].
Qed.

Lemma cell_text_not_empty_type (c : Cell) :
  truthy_str (cell_text c) = true -> detect_content_type (cell_text c) <> Empty.
Proof.
  intros T. unfold detect_content_type. rewrite cell_text_fixed, T. cbn [negb].
  destruct (is_valid_email (cell_text c)); [discriminate |].
  destruct (is_valid_linkedin (cell_text c)); [discriminate |].
  destruct (is_valid_website (cell_text c)); discriminate.
Qed.

Lemma votes_empty_cells (cs : list Cell) : votes Empty (map cell_text cs) = 0%nat.
Proof.
  induction cs as [|c cs IH]; simpl; [reflexivity |]. rewrite IH.
  destruct (truthy_str (cell_text c)) eqn:T; [| reflexivity].
  rewrite bool_decide_eq_false_2 by now apply cell_text_not_empty_type.
  reflexivity.
Qed.

Lemma sample_cells (ws : Worksheet) (col : nat) :
  sample ws col
  = map cell_text (map (fun row => ws_get ws row col) (seq 1 (Nat.min 100 (max_row ws)))).
Proof. unfold sample. now rewrite map_map. Qed.

(** X7.  The analyzer never names Empty as the type of a column, and
    the count it returns is at most the number of sampled rows, so at
    most 100. *)
Theorem analyze_column_bounds (ws : Worksheet) (col : nat) :
  fst (analyze_column ws col) <> Detected Empty
  /\ (snd (analyze_column ws col) <= Nat.min 100 (max_row ws))%nat
  /\ (snd (analyze_column ws col) <= 100)%nat.
Proof.
  pose proof (profile_spec (sample ws col)) as P.
  rewrite <- analyze_column_profile in P.
  assert (L : length (sample ws col) = Nat.min 100 (max_row ws))
    by (unfold sample; now rewrite length_map, length_seq).
  destruct (analyze_column ws col) as [[t |] n]; cbn [fst snd].
  - destruct P as [Hn [Hpos _]]. split.
    + intros E. injection E as ->.
      rewrite sample_cells, votes_empty_cells in Hn. lia.
    + pose proof (votes_le_length t (sample ws col)). lia.
  - destruct P as [-> _]. split; [discriminate | lia].
Qed.

Lemma tally_add_head (k t : ContentType) (n : nat) (d : tally) :
  exists n' d', tally_add k ((t, n) :: d) = (t, n') :: d'.
Proof.
  simpl. destruct (decide (t = k)); eexists; eexists; reflexivity.
Qed.

Lemma tally_from_head (vals : list str) (t : ContentType) (n : nat) (d : tally) :
  exists n' d', tally_from ((t, n) :: d) vals = (t, n') :: d'.
Proof.
  revert n d. induction vals as [|v vals IH]; intros n d.
  - now exists n, d.
  - change (tally_from ((t, n) :: d) (v :: vals))
      with (tally_from (if truthy_str v
                        then tally_add (detect_content_type v) ((t, n) :: d)
                        else (t, n) :: d) vals).
    destruct (truthy_str v); [| apply IH].
    destruct (tally_add_head (detect_content_type v) t n d) as [n' [d' ->]].
    apply IH.
Qed.

Lemma tally_from_blank (pre : list str) (d : tally) :
  Forall (fun u => u = []) pre -> tally_from d pre = d.
Proof.
  induction 1 as [|u pre -> _ IH]; simpl; [reflexivity | exact IH].
Qed.

Lemma max_item_keep (best : ContentType * nat) (d : tally) :
  (forall y, In y d -> (snd y <= snd best)%nat) -> max_item best d = best.
Proof.
  revert best. induction d as [|x d IH]; intros best H; simpl; [reflexivity |].
  assert (Hx : (snd x <= snd best)%nat) by (apply H; now left).
  destruct (snd best <? snd x)%nat eqn:E; [apply Nat.ltb_lt in E; lia |].
  apply IH. intros y Hy. apply H. now right.
Qed.

(** X8.  Ties go to the type seen first.  When the first non-empty
    sampled text has type [t] and no type has more votes than [t], the
    analyzer answers [t] with its tally. *)
Theorem analyze_column_first_seen (ws : Worksheet) (col : nat)
    (pre post : list str) (v : str) (t : ContentType) :
  sample ws col = pre ++ v :: post ->
  Forall (fun u => u = []) pre ->
  v <> [] ->
  detect_content_type v = t ->
  (forall t', (votes t' (sample ws col) <= votes t (sample ws col))%nat) ->
  analyze_column ws col = (Detected t, votes t (sample ws col)).
Proof.
  intros Hs Hpre Hv Ht Hmax. rewrite analyze_column_profile. unfold profile.
  assert (Hwf : tally_wf (tally_from [] (sample ws col)))
    by (apply tally_from_wf; split; constructor).
  assert (Hget : forall k, tally_get k (tally_from [] (sample ws col))
                           = votes k (sample ws col))
    by (intros k; now rewrite tally_from_get).
  assert (Hhead : exists m d, tally_from [] (sample ws col) = (t, m) :: d).
  { rewrite Hs. unfold tally_from. rewrite fold_left_app.
    fold (tally_from [] pre). rewrite (tally_from_blank pre [] Hpre). simpl.
    destruct v as [|c v']; [congruence |]. cbn [truthy_str].
    rewrite Ht. apply tally_from_head. }
  destruct Hhead as [m [d E]]. rewrite E in *.
  assert (Hm : m = votes t (sample ws col)).
  { rewrite <- Hget. simpl. now rewrite decide_True. }
  destruct Hwf as [Hnd _].
  rewrite max_item_keep; [now rewrite Hm |].
  intros [k j] Hy. simpl.
  assert (Hj : j = votes k (sample ws col)).
  { rewrite <- Hget. symmetry. apply tally_get_entry; [exact Hnd | now right]. }
  rewrite Hj, Hm. apply Hmax.
Qed.

Lemma analyze_column_first_seen_witness :
  analyze_column demo_sheet 1 = (Detected Email, votes Email (sample demo_sheet 1))
  /\ votes Email (sample demo_sheet 1) = votes Website (sample demo_sheet 1).
Proof.
  split; [| vm_compute; reflexivity].
  apply (analyze_column_first_seen demo_sheet 1 []
           (List.tl (sample demo_sheet 1)) (py "jane@example.com") Email).
  - vm_compute. reflexivity.
  - constructor.
  - discriminate.
  - vm_compute. reflexivity.
  - intros t'. destruct t'; vm_compute; lia.
Defined.

(** ** More on the column conversion *)

Lemma cell_type_linked (cfg : BotConfig) (c : Cell) :
  cell_type (linked cfg c) = cell_type c.
Proof. reflexivity. Qed.

Lemma linked_linked (cfg : BotConfig) (c : Cell) :
  linked cfg (linked cfg c) = linked cfg c.
Proof. reflexivity. Qed.

Lemma convert_loop_count (cfg : BotConfig) (tq : bool) (col : nat) (total_rows : Z)
    (rows : list nat) (st : ConvState) :
  List.NoDup rows ->
  converted_count (fold_left (convert_row cfg tq col total_rows) rows st)
  = (converted_count st
     + length (List.filter (fun r => is_link (cell_type (ws_get (st_ws st) r col))) rows))%nat.
Proof.
  revert st. induction rows as [|row rows IH]; intros st Hnd; simpl; [lia |].
  inversion Hnd as [|? ? Hnotin Hnd']; subst.
  rewrite (IH _ Hnd'), convert_row_count.
  rewrite (List.filter_ext_in
             (fun r => is_link (cell_type (ws_get (st_ws (convert_row cfg tq col total_rows st row)) r col)))
             (fun r => is_link (cell_type (ws_get (st_ws st) r col)))).
  - destruct (is_link (cell_type (ws_get (st_ws st) row col))); simpl; lia.
  - intros r Hr. rewrite convert_row_other; [reflexivity |].
    intros E. injection E as ->. contradiction.
Qed.

Lemma convert_column_count (cfg : BotConfig) (tq : bool) (ws : Worksheet)
    (col : nat) (name : str) :
  converted_count (convert_column_to_hyperlinks cfg tq ws col name)
  = length (link_rows cfg ws col).
Proof.
  destruct (convert_column_loop cfg tq ws col name) as [out [_ E]].
  rewrite E, convert_loop_count by apply rows_upto_NoDup. reflexivity.
Qed.

(** X9.  The count a column conversion returns is the number of visited
    rows whose cell is classified Email, LinkedIn or Website; it is zero
    exactly when the conversion leaves the sheet as it was read. *)
Theorem converted_count_exact (cfg : BotConfig) (tq : bool) (ws : Worksheet)
    (col : nat) (name : str) :
  converted_count (convert_column_to_hyperlinks cfg tq ws col name)
  = length (link_rows cfg ws col)
  /\ (forall r, In r (link_rows cfg ws col) <->
        In r (rows_upto (row_limit cfg ws))
        /\ is_link (cell_type (ws_get ws r col)) = true)
  /\ (converted_count (convert_column_to_hyperlinks cfg tq ws col name) = 0%nat ->
      forall r c,
        ws_get (st_ws (convert_column_to_hyperlinks cfg tq ws col name)) r c
        = ws_get ws r c).
Proof.
  split; [apply convert_column_count |].
  split; [intros r; unfold link_rows; apply List.filter_In |].
  intros Z r c. rewrite convert_column_count in Z.
  destruct (Nat.eq_dec c col) as [-> | Hc]; [| apply convert_column_other; now left].
  destruct (in_dec Nat.eq_dec r (rows_upto (row_limit cfg ws))) as [Hin | Hin];
    [| apply convert_column_other; now right].
  rewrite convert_column_visited by exact Hin.
  destruct (is_link (cell_type (ws_get ws r col))) eqn:L; [| reflexivity].
  assert (Hr : In r (link_rows cfg ws col))
    by (unfold link_rows; apply List.filter_In; now split).
  destruct (link_rows cfg ws col); [destruct Hr | discriminate Z].
Qed.

(** *** Converting twice *)

Lemma ws_set_same (ws : Worksheet) (r c : nat) (x : Cell) :
  cells ws !! (r, c) = Some x -> ws_set ws r c x = ws.
Proof.
  intros H. destruct ws as [m cs]. unfold ws_set. simpl in *.
  f_equal. now apply insert_id.
Qed.

Lemma ws_get_stored (ws : Worksheet) (r c : nat) (x : Cell) :
  ws_get ws r c = x -> x <> blank_cell -> cells ws !! (r, c) = Some x.
Proof.
  unfold ws_get. destruct (cells ws !! (r, c)) as [y |]; simpl.
  - now intros ->.
  - intros <- H. congruence.
Qed.

Lemma linked_not_blank (cfg : BotConfig) (c : Cell) : linked cfg c <> blank_cell.
Proof. discriminate. Qed.

(** A loop over rows whose link cells are all stored in linked form
    leaves the sheet as it is. *)
Lemma convert_loop_settled (cfg : BotConfig) (tq : bool) (col : nat) (total_rows : Z)
    (rows : list nat) (st : ConvState) :
  (forall r, In r rows ->
     is_link (cell_type (ws_get (st_ws st) r col)) = true ->
     cells (st_ws st) !! (r, col) = Some (linked cfg (ws_get (st_ws st) r col))) ->
  st_ws (fold_left (convert_row cfg tq col total_rows) rows st) = st_ws st.
Proof.
  revert st. induction rows as [|row rows IH]; intros st H; simpl; [reflexivity |].
  assert (E : st_ws (convert_row cfg tq col total_rows st row) = st_ws st).
  { rewrite convert_row_ws.
    destruct (is_link (cell_type (ws_get (st_ws st) row col))) eqn:L; [| reflexivity].
    apply ws_set_same. apply H; [now left | exact L]. }
  rewrite IH; [exact E |].
  intros r Hr. rewrite E. apply H. now right.
Qed.

(** X10.  Converting a column a second time changes nothing in the
    sheet and returns the same count again: cells already linked are
    linked to the same target and counted once more. *)
Theorem convert_column_twice (cfg : BotConfig) (tq tq' : bool) (ws : Worksheet)
    (col : nat) (name name' : str) :
  st_ws (convert_column_to_hyperlinks cfg tq'
           (st_ws (convert_column_to_hyperlinks cfg tq ws col name)) col name')
  = st_ws (convert_column_to_hyperlinks cfg tq ws col name)
  /\ converted_count (convert_column_to_hyperlinks cfg tq'
                        (st_ws (convert_column_to_hyperlinks cfg tq ws col name)) col name')
     = converted_count (convert_column_to_hyperlinks cfg tq ws col name).
Proof.
  set (ws1 := st_ws (convert_column_to_hyperlinks cfg tq ws col name)).
  assert (M : max_row ws1 = max_row ws).
  { unfold ws1. destruct (convert_column_loop cfg tq ws col name) as [out [E _]].
    rewrite E. now rewrite convert_loop_max_row. }
  assert (R : row_limit cfg ws1 = row_limit cfg ws) by (unfold row_limit; now rewrite M).
  assert (V : forall r, In r (rows_upto (row_limit cfg ws)) ->
                ws_get ws1 r col =
                if is_link (cell_type (ws_get ws r col))
                then linked cfg (ws_get ws r col) else ws_get ws r col).
  { intros r Hr. unfold ws1. now apply convert_column_visited. }
  assert (T : forall r, In r (rows_upto (row_limit cfg ws)) ->
                cell_type (ws_get ws1 r col) = cell_type (ws_get ws r col)).
  { intros r Hr. rewrite (V r Hr).
    now destruct (is_link (cell_type (ws_get ws r col))). }
  split.
  - destruct (convert_column_loop cfg tq' ws1 col name') as [out [E _]].
    rewrite E. cbv zeta. rewrite convert_loop_settled; [reflexivity |].
    cbn [st_ws]. rewrite R. intros r Hr L.
    apply ws_get_stored; [| apply linked_not_blank].
    rewrite (T r Hr) in L. rewrite (V r Hr), L. reflexivity.
  - rewrite !convert_column_count. unfold link_rows. rewrite R.
    f_equal. apply List.filter_ext_in. intros r Hr. now rewrite (T r Hr).
Qed.

(** X11.  A column conversion never alters what a cell holds: every
    cell of the sheet keeps its value, hence its type, and a cell that
    had a hyperlink still has one. *)
Theorem convert_column_keeps_values (cfg : BotConfig) (tq : bool) (ws : Worksheet)
    (col : nat) (name : str) (r c : nat) :
  value (ws_get (st_ws (convert_column_to_hyperlinks cfg tq ws col name)) r c)
  = value (ws_get ws r c)
  /\ cell_type (ws_get (st_ws (convert_column_to_hyperlinks cfg tq ws col name)) r c)
     = cell_type (ws_get ws r c)
  /\ (hyperlink (ws_get ws r c) <> None ->
      hyperlink (ws_get (st_ws (convert_column_to_hyperlinks cfg tq ws col name)) r c)
      <> None).
Proof.
  destruct (Nat.eq_dec c col) as [-> | Hc].
  - destruct (in_dec Nat.eq_dec r (rows_upto (row_limit cfg ws))) as [Hin | Hin].
    + rewrite convert_column_visited by exact Hin.
      destruct (is_link (cell_type (ws_get ws r col))); repeat split;
        try discriminate; auto.
    + rewrite convert_column_other by now right. repeat split; auto.
  - rewrite convert_column_other by now left. repeat split; auto.
Qed.

(** *** Progress output *)

Lemma convert_row_out (cfg : BotConfig) (tq : bool) (col : nat) (total_rows : Z)
    (st : ConvState) (row : nat) :
  (st_out (convert_row cfg tq col total_rows st row),
   last_progress (convert_row cfg tq col total_rows st row))
  = if tq then (st_out st ++ [TqdmUpdate 1], last_progress st)
    else if (last_progress st + 10 <=? Z.of_nat row * 100 / total_rows)%Z
         then (st_out st ++ [PrintProgress (Z.of_nat row * 100 / total_rows) row total_rows],
               (Z.of_nat row * 100 / total_rows)%Z)
         else (st_out st, last_progress st).
Proof.
  unfold convert_row.
  destruct (truthy_str (cell_text (ws_get (st_ws st) row col)));
    [destruct (detect_content_type (cell_text (ws_get (st_ws st) row col))) |];
    cbv zeta; cbn [fst snd]; destruct tq; try reflexivity;
    destruct (last_progress st + 10 <=? Z.of_nat row * 100 / total_rows)%Z; reflexivity.
Qed.

Lemma progress_values_app (o1 o2 : list Event) :
  progress_values (o1 ++ o2) = progress_values o1 ++ progress_values o2.
Proof.
  induction o1 as [|e o1 IH]; simpl; [reflexivity |].
  destruct e; simpl; now rewrite ?IH.
Qed.

Lemma percent_bounds (row : nat) (total : Z) :
  (1 <= row)%nat -> (Z.of_nat row <= total)%Z ->
  (0 <= Z.of_nat row * 100 / total <= 100)%Z.
Proof.
  intros H1 H2. split.
  - apply Z.div_pos; lia.
  - apply Z.div_le_upper_bound; lia.
Qed.

Lemma convert_row_print_inv (cfg : BotConfig) (col : nat) (total : Z)
    (st : ConvState) (row : nat) :
  (1 <= row)%nat -> (Z.of_nat row <= total)%Z ->
  print_inv st -> print_inv (convert_row cfg false col total st row).
Proof.
  intros H1 H2 [Hl [Hn Hf]]. unfold print_inv.
  pose proof (convert_row_out cfg false col total st row) as E. cbv iota in E.
  pose proof (percent_bounds row total H1 H2) as Hp.
  destruct (last_progress st + 10 <=? Z.of_nat row * 100 / total)%Z eqn:C;
    injection E as -> ->.
  - apply Z.leb_le in C. rewrite progress_values_app. simpl.
    rewrite length_app. simpl. split; [lia |]. split; [lia |].
    apply Forall_app. split; [exact Hf |]. constructor; [lia | constructor].
  - now repeat split.
Qed.

Lemma convert_loop_print_inv (cfg : BotConfig) (col : nat) (total : Z)
    (rows : list nat) (st : ConvState) :
  (forall r, In r rows -> (1 <= r)%nat /\ (Z.of_nat r <= total)%Z) ->
  print_inv st ->
  print_inv (fold_left (convert_row cfg false col total) rows st).
Proof.
  revert st. induction rows as [|row rows IH]; intros st Hr Hi; simpl; [exact Hi |].
  apply IH.
  - intros r H. apply Hr. now right.
  - destruct (Hr row (or_introl eq_refl)) as [H1 H2].
    now apply convert_row_print_inv.
Qed.

(** X12.  Without the progress bar, a column conversion prints at most
    ten progress lines, each with a percentage between 10 and 100. *)
Theorem plain_progress_at_most_ten (cfg : BotConfig) (ws : Worksheet)
    (col : nat) (name : str) :
  (length (progress_values
     (st_out (convert_column_to_hyperlinks cfg false ws col name))) <= 10)%nat
  /\ Forall (fun p => (10 <= p <= 100)%Z)
       (progress_values (st_out (convert_column_to_hyperlinks cfg false ws col name))).
Proof.
  unfold convert_column_to_hyperlinks.
  destruct (analyze_column ws col) as [label confidence]. cbv zeta iota.
  fold (row_limit cfg ws).
  pose proof (convert_loop_print_inv cfg col (row_limit cfg ws)
                (rows_upto (row_limit cfg ws))
                {| st_ws := ws; converted_count := 0; last_progress := 0;
                   st_out := [PrintAnalysis col name label confidence]
                             ++ [PrintProcessing col (row_limit cfg ws)] |}) as I.
  destruct I as [Hl [Hn Hf]].
  - intros r Hr. apply rows_upto_In in Hr. lia.
  - unfold print_inv. simpl. repeat split; try lia. constructor.
  - split; [lia | exact Hf].
Qed.

Lemma convert_loop_tqdm_out (cfg : BotConfig) (col : nat) (total : Z)
    (rows : list nat) (st : ConvState) :
  st_out (fold_left (convert_row cfg true col total) rows st)
  = st_out st ++ repeat (TqdmUpdate 1) (length rows).
Proof.
  revert st. induction rows as [|row rows IH]; intros st; simpl.
  - now rewrite app_nil_r.
  - rewrite IH.
    pose proof (convert_row_out cfg true col total st row) as E. cbv iota in E.
    injection E as -> _. now rewrite <- app_assoc.
Qed.

(** X13.  With the progress bar, the output of a column conversion is
    the analysis line, the bar opened with the row limit as its total, one
    update of 1 for each visited row, and the bar closed: the bar is
    advanced exactly as many times as rows are visited. *)
Theorem tqdm_one_update_per_row (cfg : BotConfig) (ws : Worksheet)
    (col : nat) (name : str) :
  st_out (convert_column_to_hyperlinks cfg true ws col name)
  = [PrintAnalysis col name (fst (analyze_column ws col)) (snd (analyze_column ws col));
     TqdmOpen (row_limit cfg ws)]
    ++ repeat (TqdmUpdate 1) (Z.to_nat (row_limit cfg ws))
    ++ [TqdmClose].
Proof.
  unfold convert_column_to_hyperlinks.
  destruct (analyze_column ws col) as [label confidence]. cbv zeta iota.
  fold (row_limit cfg ws). cbn [st_out fst snd].
  rewrite convert_loop_tqdm_out. cbn [st_out].
  unfold rows_upto. rewrite length_seq. now rewrite <- !app_assoc.
Qed.

(** ** Paths *)

Example splitext_examples :
  splitext (py "dir.v2/report.final.xlsx") = (py "dir.v2/report.final", py ".xlsx")
  /\ splitext (py "dir.v2/report") = (py "dir.v2/report", [])
  /\ splitext (py "dir/.hidden") = (py "dir/.hidden", [])
  /\ splitext (py "..xlsx") = (py "..xlsx", [])
  /\ basename (py "a/b/c.xlsx") = py "c.xlsx"
  /\ basename (py "c.xlsx") = py "c.xlsx"
  /\ output_path (py "in/data.XLSX") = py "in/data_with_hyperlinks.XLSX".
Proof. vm_compute. repeat split. Qed.

Lemma rfind_from_absent (c : ascii) (p : str) (i found : Z) :
  ~ In c p -> rfind_from c p i found = found.
Proof.
  revert i found. induction p as [|a p IH]; intros i found H; simpl; [reflexivity |].
  destruct (ascii_eqb a c) eqn:E.
  - apply ascii_eqb_eq in E. subst. exfalso. apply H. now left.
  - apply IH. intros Hin. apply H. now right.
Qed.

Lemma rfind_from_last (c : ascii) (a b : str) (i found : Z) :
  ~ In c b -> rfind_from c (a ++ c :: b) i found = (i + Z.of_nat (length a))%Z.
Proof.
  intros Hb. revert i found. induction a as [|x a IH]; intros i found; simpl.
  - rewrite ascii_eqb_refl, rfind_from_absent by exact Hb. lia.
  - rewrite IH. lia.
Qed.

Lemma rfind_from_app_absent (c : ascii) (a b : str) (i found : Z) :
  ~ In c b -> rfind_from c (a ++ b) i found = rfind_from c a i found.
Proof.
  intros Hb. revert i found. induction a as [|x a IH]; intros i found; simpl.
  - now apply rfind_from_absent.
  - apply IH.
Qed.

Lemma rfind_from_range (c : ascii) (p : str) (i found : Z) :
  rfind_from c p i found = found
  \/ (i <= rfind_from c p i found < i + Z.of_nat (length p))%Z.
Proof.
  revert i found. induction p as [|a p IH]; intros i found; simpl; [now left |].
  destruct (IH (i + 1)%Z (if ascii_eqb a c then i else found)) as [E | E].
  - rewrite E. destruct (ascii_eqb a c); [right; lia | now left].
  - right. lia.
Qed.

Lemma rfind_range (c : ascii) (p : str) :
  (-1 <= rfind c p < Z.of_nat (length p))%Z.
Proof.
  unfold rfind. destruct (rfind_from_range c p 0 (-1)) as [E | E]; lia.
Qed.

Lemma splitext_join (p : str) : fst (splitext p) ++ snd (splitext p) = p.
Proof.
  unfold splitext.
  destruct ((rfind "/" p <? rfind "." p)%Z && _); simpl.
  - apply firstn_skipn.
  - apply app_nil_r.
Qed.

(** X14.  The output path is the input path with ["_with_hyperlinks"]
    put in before the extension that [splitext] finds: it is 16 characters
    longer, so it is never the input path itself, and taking the marker out
    gives the input path back. *)
Theorem output_path_differs (p : str) :
  output_path p = fst (splitext p) ++ py "_with_hyperlinks" ++ snd (splitext p)
  /\ fst (splitext p) ++ snd (splitext p) = p
  /\ length (output_path p) = (length p + 16)%nat
  /\ output_path p <> p.
Proof.
  assert (E : output_path p
              = fst (splitext p) ++ py "_with_hyperlinks" ++ snd (splitext p)).
  { unfold output_path. now destruct (splitext p). }
  assert (L : length (output_path p) = (length p + 16)%nat).
  { rewrite E. rewrite <- (splitext_join p) at 3.
    rewrite !length_app. change (length (py "_with_hyperlinks")) with 16%nat. lia. }
  split; [exact E |]. split; [apply splitext_join |]. split; [exact L |].
  intros H. rewrite H in L. lia.
Qed.

Lemma endswith_app (a e : str) : endswith e (a ++ e) = true.
Proof.
  unfold endswith. rewrite rev_app_distr. apply startswith_spec. now exists (rev a).
Qed.

Lemma lower_app (a b : str) : lower (a ++ b) = lower a ++ lower b.
Proof. apply map_app. Qed.

Lemma lower_mem (c : ascii) (s : str) : In c s -> In (lower_char c) (lower s).
Proof. apply in_map. Qed.

(** The split of a name that has a plain extension. *)
Lemma splitext_plain (d n e0' : str) :
  ~ In "/"%char n -> (exists c, In c n /\ c <> "."%char) ->
  ~ In "."%char e0' -> ~ In "/"%char e0' ->
  splitext (d ++ n ++ "."%char :: e0') = (d ++ n, "."%char :: e0').
Proof.
  intros Hn [c [Hc Hcd]] Hd Hs.
  set (p := d ++ n ++ "."%char :: e0').
  assert (Dot : rfind "." p = Z.of_nat (length (d ++ n))).
  { unfold rfind, p. rewrite app_assoc. rewrite rfind_from_last by exact Hd. lia. }
  assert (Sep : rfind "/" p = rfind "/" d).
  { unfold rfind, p. apply rfind_from_app_absent.
    intros H. apply in_app_or in H as [H | [H | H]];
      [now apply Hn | discriminate H | now apply Hs]. }
  pose proof (rfind_range "/" d) as Rd.
  unfold splitext. fold p. rewrite Dot, Sep.
  assert (Take : firstn (Z.to_nat (Z.of_nat (length (d ++ n)))) p = d ++ n).
  { rewrite Nat2Z.id. unfold p. rewrite app_assoc. now rewrite take_app_length. }
  assert (Drop : skipn (Z.to_nat (Z.of_nat (length (d ++ n)))) p = "."%char :: e0').
  { rewrite Nat2Z.id. unfold p. rewrite app_assoc. now rewrite drop_app_length. }
  assert (Lt : (rfind "/" d <? Z.of_nat (length (d ++ n)))%Z = true).
  { apply Z.ltb_lt. rewrite length_app. lia. }
  assert (Ex : existsb (fun a => negb (ascii_eqb a "."))
                 (slice (rfind "/" d + 1) (Z.of_nat (length (d ++ n))) p) = true).
  { unfold slice. rewrite Take.
    rewrite skipn_app.
    replace (Z.to_nat (rfind "/" d + 1) - length d)%nat with 0%nat by lia.
    rewrite existsb_app. apply orb_true_iff. right.
    apply existsb_exists. exists c. split; [exact Hc |].
    destruct (ascii_eqb c ".") eqn:E; [| reflexivity].
    apply ascii_eqb_eq in E. contradiction. }
  rewrite Lt, Ex, Take, Drop. reflexivity.
Qed.

(** X15.  The output of a supported workbook is a supported workbook
    again.  For a file whose name ends in a configured extension (a dot
    followed by characters other than dot and slash, in any letter case)
    and has something other than dots before it, the output path keeps
    directory and extension and only lengthens the name, so a later batch
    over the same folder picks the output up as well. *)
Theorem output_path_supported (cfg : BotConfig) (d n e0 e : str) :
  In e (supported_extensions cfg) ->
  lower e0 = e ->
  (exists e', e = "."%char :: e' /\ ~ In "."%char e' /\ ~ In "/"%char e') ->
  ~ In "/"%char n ->
  (exists c, In c n /\ c <> "."%char) ->
  output_path (d ++ n ++ e0) = d ++ n ++ py "_with_hyperlinks" ++ e0
  /\ is_supported cfg (d ++ n ++ e0) = true
  /\ is_supported cfg (output_path (d ++ n ++ e0)) = true.
Proof.
  intros Hin Hl [e' [He [Hd Hs]]] Hn Hc.
  destruct e0 as [|c0 e0']; [subst e; discriminate He |].
  rewrite He in Hl. simpl in Hl. injection Hl as Hc0 He0.
  apply lower_char_dot in Hc0. subst c0.
  assert (Hd0 : ~ In "."%char e0').
  { intros H. apply Hd. rewrite <- He0. now apply (lower_mem "."%char). }
  assert (Hs0 : ~ In "/"%char e0').
  { intros H. apply Hs. rewrite <- He0. now apply (lower_mem "/"%char). }
  assert (Le : lower ("."%char :: e0') = e) by (rewrite He, <- He0; reflexivity).
  assert (O : output_path (d ++ n ++ "."%char :: e0')
              = d ++ n ++ py "_with_hyperlinks" ++ "."%char :: e0').
  { unfold output_path. rewrite (splitext_plain d n e0' Hn Hc Hd0 Hs0).
    now rewrite <- app_assoc. }
  assert (Sup : forall a, is_supported cfg (a ++ "."%char :: e0') = true).
  { intros a. unfold is_supported. apply existsb_exists. exists e.
    split; [exact Hin |]. rewrite lower_app, Le. apply endswith_app. }
  split; [exact O |]. split.
  - rewrite app_assoc. apply Sup.
  - rewrite O. rewrite !app_assoc. apply Sup.
Qed.

Lemma output_path_supported_witness :
  output_path (py "inbox/" ++ py "data" ++ py ".XLSX")
  = py "inbox/" ++ py "data" ++ py "_with_hyperlinks" ++ py ".XLSX"
  /\ is_supported defaults (output_path (py "inbox/" ++ py "data" ++ py ".XLSX")) = true.
Proof.
  destruct (output_path_supported defaults (py "inbox/") (py "data") (py ".XLSX")
              (py ".xlsx")) as [O [_ S]].
  - now left.
  - vm_compute. reflexivity.
  - exists (py "xlsx"). split; [reflexivity |].
    split; intros H; vm_compute in H; repeat (destruct H as [H | H]; [discriminate H |]);
      exact H.
  - intros H. vm_compute in H. repeat (destruct H as [H | H]; [discriminate H |]). exact H.
  - exists "d"%char. split; [now left | discriminate].
  - split; [exact O | exact S].
Defined.

(** ** All the columns of a sheet *)

Lemma convert_column_max_row (cfg : BotConfig) (tq : bool) (ws : Worksheet)
    (col : nat) (name : str) :
  max_row (st_ws (convert_column_to_hyperlinks cfg tq ws col name)) = max_row ws.
Proof.
  destruct (convert_column_loop cfg tq ws col name) as [out [E _]].
  rewrite E. now rewrite convert_loop_max_row.
Qed.

(** A column's cells decide what its conversion does: two sheets of the
    same extent that agree on a column get the same links there. *)
Lemma link_rows_agree (cfg : BotConfig) (ws ws' : Worksheet) (col : nat) :
  max_row ws' = max_row ws ->
  (forall r, ws_get ws' r col = ws_get ws r col) ->
  link_rows cfg ws' col = link_rows cfg ws col.
Proof.
  intros M H. unfold link_rows, row_limit. rewrite M.
  apply List.filter_ext. intros r. now rewrite H.
Qed.

Lemma list_sum_cons (x : nat) (l : list nat) : list_sum (x :: l) = (x + list_sum l)%nat.
Proof. reflexivity. Qed.

Section Columns.
Variable get_column_letter : nat -> str.
Variables (cfg : BotConfig) (tq : bool).

Local Abbreviation cstep := (convert_columns_step get_column_letter cfg tq).

Lemma convert_columns_step_other (st : ColumnsState) (col r c : nat) :
  c <> col -> ws_get (cs_ws (cstep st col)) r c = ws_get (cs_ws st) r c.
Proof. intros H. unfold convert_columns_step. simpl. apply convert_column_other. now left. Qed.

Lemma convert_columns_step_max_row (st : ColumnsState) (col : nat) :
  max_row (cs_ws (cstep st col)) = max_row (cs_ws st).
Proof. unfold convert_columns_step. simpl. apply convert_column_max_row. Qed.

Lemma convert_columns_loop_max_row (cols : list nat) (st : ColumnsState) :
  max_row (cs_ws (fold_left cstep cols st)) = max_row (cs_ws st).
Proof.
  revert st. induction cols as [|col cols IH]; intros st; simpl; [reflexivity |].
  rewrite IH. apply convert_columns_step_max_row.
Qed.

Lemma convert_columns_loop_other (cols : list nat) (st : ColumnsState) (r c : nat) :
  ~ In c cols -> ws_get (cs_ws (fold_left cstep cols st)) r c = ws_get (cs_ws st) r c.
Proof.
  revert st. induction cols as [|col cols IH]; intros st H; simpl; [reflexivity |].
  rewrite IH by (intros Hin; apply H; now right).
  apply convert_columns_step_other. intros ->. apply H. now left.
Qed.

Lemma convert_columns_loop_own (cols : list nat) (st : ColumnsState)
    (r c : nat) (name : str) :
  List.NoDup cols -> In c cols ->
  ws_get (cs_ws (fold_left cstep cols st)) r c
  = ws_get (st_ws (convert_column_to_hyperlinks cfg tq (cs_ws st) c name)) r c.
Proof.
  revert st. induction cols as [|col cols IH]; intros st Hnd Hin; [destruct Hin |].
  inversion Hnd as [|? ? Hnotin Hnd']; subst. simpl.
  assert (Same : forall ws n1 n2 r0 c0,
            ws_get (st_ws (convert_column_to_hyperlinks cfg tq ws c0 n1)) r0 c0
            = ws_get (st_ws (convert_column_to_hyperlinks cfg tq ws c0 n2)) r0 c0).
  { intros ws n1 n2 r0 c0.
    destruct (in_dec Nat.eq_dec r0 (rows_upto (row_limit cfg ws))) as [Hr | Hr].
    - now rewrite !convert_column_visited by exact Hr.
    - now rewrite !convert_column_other by now right. }
  destruct Hin as [-> | Hin].
  - rewrite convert_columns_loop_other by exact Hnotin.
    unfold convert_columns_step. simpl. apply Same.
  - rewrite (IH _ Hnd' Hin).
    assert (Hne : c <> col) by (intros ->; contradiction).
    set (st1 := cstep st col).
    assert (M : max_row (cs_ws st1) = max_row (cs_ws st))
      by apply convert_columns_step_max_row.
    assert (A : forall r0, ws_get (cs_ws st1) r0 c = ws_get (cs_ws st) r0 c)
      by (intros r0; now apply convert_columns_step_other).
    assert (R : row_limit cfg (cs_ws st1) = row_limit cfg (cs_ws st))
      by (unfold row_limit; now rewrite M).
    destruct (in_dec Nat.eq_dec r (rows_upto (row_limit cfg (cs_ws st)))) as [Hr | Hr].
    + rewrite convert_column_visited by (rewrite R; exact Hr).
      rewrite convert_column_visited by exact Hr. now rewrite A.
    + rewrite convert_column_other by (right; rewrite R; exact Hr).
      rewrite convert_column_other by now right. apply A.
Qed.

Lemma convert_columns_loop_total (cols : list nat) (st : ColumnsState) :
  List.NoDup cols ->
  total_converted (fold_left cstep cols st)
  = (total_converted st
     + list_sum (map (fun c => length (link_rows cfg (cs_ws st) c)) cols))%nat.
Proof.
  revert st. induction cols as [|col cols IH]; intros st Hnd;
    [simpl; lia |].
  inversion Hnd as [|? ? Hnotin Hnd']; subst. cbn [fold_left].
  rewrite (IH _ Hnd').
  assert (T : total_converted (cstep st col)
              = (total_converted st + length (link_rows cfg (cs_ws st) col))%nat).
  { unfold convert_columns_step. cbn [total_converted].
    now rewrite convert_column_count. }
  rewrite T.
  rewrite (map_ext_in (fun c => length (link_rows cfg (cs_ws (cstep st col)) c))
             (fun c => length (link_rows cfg (cs_ws st) c))).
  - rewrite map_cons, list_sum_cons. lia.
  - intros c Hc. f_equal. apply link_rows_agree.
    + apply convert_columns_step_max_row.
    + intros r. apply convert_columns_step_other. intros ->. contradiction.
Qed.

(** X16.  The columns of a sheet are converted independently.  After
    the loop over all columns, a cell in column 1 to [max_column] reads as
    it does after converting its own column alone on the sheet as loaded,
    cells in other columns are as loaded, the row extent is kept, and the
    total is the sum of the counts of the single columns. *)
Theorem convert_columns_independent (sh : Sheet) :
  (forall r c name, (1 <= c <= max_column sh)%nat ->
     ws_get (cs_ws (convert_columns get_column_letter cfg tq sh)) r c
     = ws_get (st_ws (convert_column_to_hyperlinks cfg tq (grid sh) c name)) r c)
  /\ (forall r c, ~ (1 <= c <= max_column sh)%nat ->
        ws_get (cs_ws (convert_columns get_column_letter cfg tq sh)) r c
        = ws_get (grid sh) r c)
  /\ max_row (cs_ws (convert_columns get_column_letter cfg tq sh)) = max_row (grid sh)
  /\ total_converted (convert_columns get_column_letter cfg tq sh)
     = list_sum (map (fun c => converted_count
                        (convert_column_to_hyperlinks cfg tq (grid sh) c
                           (column_name get_column_letter (grid sh) c)))
                   (seq 1 (max_column sh))).
Proof.
  unfold convert_columns. split; [| split; [| split]].
  - intros r c name Hc.
    rewrite (convert_columns_loop_own _ _ r c name); [reflexivity | apply List.seq_NoDup |].
    apply in_seq. lia.
  - intros r c Hc. rewrite convert_columns_loop_other; [reflexivity |].
    rewrite in_seq. lia.
  - apply convert_columns_loop_max_row.
  - rewrite convert_columns_loop_total by apply List.seq_NoDup.
    cbn [total_converted cs_ws]. rewrite Nat.add_0_l. f_equal. apply map_ext.
    intros c. now rewrite convert_column_count.
Qed.
End Columns.

(** ** One workbook *)

Section SingleFileProperties.
Variable World : Type.
Variable timestamp : World -> str.
Variable copy_to_backups : str -> str -> World -> Outcome unit * World.
Variable load_workbook : str -> World -> Outcome Workbook * World.
Variable wb_save : Workbook -> str -> World -> Outcome unit * World.
Variable get_column_letter : nat -> str.

Local Abbreviation run_file :=
  (process_single_file timestamp copy_to_backups load_workbook wb_save get_column_letter).
Local Abbreviation backup := (create_backup timestamp copy_to_backups).

Lemma in_split_last (c : ascii) (p : str) :
  In c p -> exists a b, p = a ++ c :: b /\ ~ In c b.
Proof.
  induction p as [|x p IH]; intros H; [destruct H |].
  destruct (in_dec ascii_dec c p) as [Hin | Hout].
  - destruct (IH Hin) as [a [b [-> Hb]]]. now exists (x :: a), b.
  - destruct H as [-> | H]; [| contradiction]. now exists [], p.
Qed.

Lemma basename_no_slash (p : str) : ~ In "/"%char (basename p).
Proof.
  unfold basename, rfind.
  destruct (in_dec ascii_dec "/"%char p) as [Hin | Hout].
  - destruct (in_split_last _ _ Hin) as [a [b [-> Hb]]].
    rewrite rfind_from_last by exact Hb.
    replace (Z.to_nat (0 + Z.of_nat (length a) + 1)) with (length (a ++ ["/"%char]))
      by (rewrite length_app; simpl; lia).
    change (a ++ "/"%char :: b) with (a ++ ["/"%char] ++ b).
    rewrite app_assoc, drop_app_length. exact Hb.
  - rewrite rfind_from_absent by exact Hout. exact Hout.
Qed.

Lemma path_join_plain (a f : str) :
  a <> [] -> endswith (py "/") a = false -> startswith (py "/") f = false ->
  path_join a f = a ++ py "/" ++ f.
Proof.
  intros Ha He Hf. unfold path_join. rewrite Hf, He.
  destruct a; [congruence | reflexivity].
Qed.

Lemma no_slash_startswith (f : str) :
  ~ In "/"%char f -> startswith (py "/") f = false.
Proof.
  intros H. destruct (startswith (py "/") f) eqn:E; [| reflexivity].
  apply startswith_spec in E as [t ->]. exfalso. apply H. now left.
Qed.

(** X17.  A backup goes straight into the [backups] directory under a
    name made of the file's base name and the time stamp only.  With
    backups switched off nothing is touched; a failed copy gives no path
    and is not raised further.  When a path is returned it is
    ["backups/"], the base name, [".backup_"] and the time stamp, so two
    files with the same base name backed up at the same time stamp get
    the same backup path. *)
Theorem create_backup_path (cfg : BotConfig) (file_path : str) (w : World) :
  (backup_files cfg = false -> backup cfg file_path w = (None, w, []))
  /\ (forall b w' out, backup cfg file_path w = (Some b, w', out) ->
        b = py "backups/" ++ basename file_path ++ py ".backup_" ++ timestamp w
        /\ ~ In "/"%char (basename file_path)
        /\ fst (copy_to_backups file_path b w) = Returned tt)
  /\ (forall other b w' out,
        basename other = basename file_path ->
        backup cfg file_path w = (Some b, w', out) ->
        forall b2 w2 out2, backup cfg other w = (Some b2, w2, out2) -> b2 = b).
Proof.
  assert (P : forall f, path_join (py "backups") (basename f ++ py ".backup_" ++ timestamp w)
                        = py "backups/" ++ basename f ++ py ".backup_" ++ timestamp w).
  { intros f. rewrite path_join_plain; [reflexivity | discriminate | reflexivity |].
    destruct (basename f) as [|c t] eqn:E; [reflexivity |].
    pose proof (basename_no_slash f) as N. rewrite E in N.
    simpl. destruct (ascii_eqb "/" c) eqn:C; [| reflexivity].
    apply ascii_eqb_eq in C. subst c. exfalso. apply N. now left. }
  assert (Q : forall f b w' out, backup cfg f w = (Some b, w', out) ->
            b = py "backups/" ++ basename f ++ py ".backup_" ++ timestamp w
            /\ fst (copy_to_backups f b w) = Returned tt).
  { intros f b w' out H. unfold create_backup in H.
    destruct (negb (backup_files cfg)); [discriminate H |].
    cbv zeta in H. rewrite P in H.
    set (b0 := py "backups/" ++ basename f ++ py ".backup_" ++ timestamp w) in *.
    destruct (copy_to_backups f b0 w) as [[[] | e] w1] eqn:C; [| discriminate H].
    injection H as Hb _ _. rewrite <- Hb. split; [reflexivity |]. now rewrite C. }
  split; [| split].
  - intros H. unfold create_backup. now rewrite H.
  - intros b w' out H. destruct (Q _ _ _ _ H) as [E C].
    split; [exact E |]. split; [apply basename_no_slash | exact C].
  - intros other b w' out Hb H b2 w2 out2 H2.
    destruct (Q _ _ _ _ H) as [-> _]. destruct (Q _ _ _ _ H2) as [-> _].
    now rewrite Hb.
Qed.

Lemma columns_out_shape (cfg : BotConfig) (tq : bool) (cols : list nat)
    (st : ColumnsState) :
  Forall (fun e => exists o, e = FColumn o) (cs_out st) ->
  Forall (fun e => exists o, e = FColumn o)
    (cs_out (fold_left (convert_columns_step get_column_letter cfg tq) cols st)).
Proof.
  revert st. induction cols as [|c cols IH]; intros st H; simpl; [exact H |].
  apply IH. unfold convert_columns_step. cbn [cs_out].
  apply Forall_app. split; [exact H |].
  constructor; [eexists; reflexivity | constructor].
Qed.

Lemma backup_out_shape (cfg : BotConfig) (file_path : str) (w : World) :
  Forall (fun e => exists m a, (e = FLogInfo m a \/ e = FLogError (py "Backup failed") a))
    (snd (backup cfg file_path w)).
Proof.
  unfold create_backup. destruct (negb (backup_files cfg)); [constructor |].
  cbv zeta. destruct (copy_to_backups _ _ w) as [[[] | e] w1]; cbn [snd].
  - constructor; [| constructor]. eexists. eexists. left. reflexivity.
  - constructor; [| constructor]. exists [], e. right. reflexivity.
Qed.

(** X18.  What a file's processing reports agrees with the flag it
    returns: it returns [True] exactly when it prints the "Saved as" line
    with the output path, and [False] exactly when it logs "Error
    processing" for the file.  A backup that fails is logged under another
    message and decides neither. *)
Theorem process_single_file_report (cfg : BotConfig) (tq : bool)
    (file_path : str) (w : World) :
  (fr_ok (run_file cfg tq file_path w) = true <->
   In (FPrint (py "Saved as") (output_path file_path))
      (fr_out (run_file cfg tq file_path w)))
  /\ (fr_ok (run_file cfg tq file_path w) = false <->
      In (FLogError (py "Error processing") file_path)
         (fr_out (run_file cfg tq file_path w))).
Proof.
  pose proof (backup_out_shape cfg file_path w) as B.
  unfold process_single_file.
  destruct (backup cfg file_path w) as [[bp w1] bout]. cbn [snd] in B.
  rewrite List.Forall_forall in B.
  assert (NB1 : ~ In (FPrint (py "Saved as") (output_path file_path)) bout).
  { intros H. destruct (B _ H) as [m [a [E | E]]]; discriminate E. }
  assert (NB2 : ~ In (FLogError (py "Error processing") file_path) bout).
  { intros H. destruct (B _ H) as [m [a [E | E]]]; discriminate E. }
  assert (NC : forall sh x, (forall o, x <> FColumn o) ->
            ~ In x (cs_out (convert_columns get_column_letter cfg tq sh))).
  { intros sh x Hx H.
    pose proof (columns_out_shape cfg tq (seq 1 (max_column sh))
                  {| cs_ws := grid sh; total_converted := 0; cs_out := [] |}
                  (List.Forall_nil _)) as F.
    rewrite List.Forall_forall in F. destruct (F x H) as [o E]. now apply (Hx o). }
  assert (NC1 : forall sh,
            ~ In (FPrint (py "Saved as") (output_path file_path))
                 (cs_out (convert_columns get_column_letter cfg tq sh)))
    by (intros sh; apply NC; discriminate).
  assert (NC2 : forall sh,
            ~ In (FLogError (py "Error processing") file_path)
                 (cs_out (convert_columns get_column_letter cfg tq sh)))
    by (intros sh; apply NC; discriminate).
  destruct (load_workbook file_path w1) as [[wb | e] w2];
    [destruct (active wb) as [sh |];
       [destruct (wb_save _ (output_path file_path) w2) as [[u | e] w3] |] |];
    unfold file_failed; cbn [fr_ok fr_out]; (split; split);
    try discriminate; try (intros _; reflexivity);
    try (intros _; rewrite !in_app_iff; simpl; tauto);
    intros H; exfalso; rewrite !in_app_iff in H;
    repeat match goal with
           | H : _ \/ _ |- _ => destruct H as [H | H]
           | H : In _ [] |- _ => destruct H
           | H : In _ (_ :: _) |- _ => destruct H as [H | H]
           | H : @eq FileEvent _ _ |- _ => discriminate H
           | H : In _ bout |- _ => first [now apply NB1 | now apply NB2]
           | H : In _ (cs_out _) |- _ => first [now apply (NC1 _ H) | now apply (NC2 _ H)]
           | H : In _ (match ?o with Some _ => _ | None => _ end) |- _ => destruct o
           end.
Qed.
End SingleFileProperties.

Example failed_backup_does_not_block :
  fr_ok (process_single_file demo_timestamp demo_copy demo_load demo_save demo_letter
           defaults false (py "inbox/a.xlsx") 0%nat) = true
  /\ fr_world (process_single_file demo_timestamp demo_copy demo_load demo_save demo_letter
                 defaults false (py "inbox/a.xlsx") 0%nat) = 1%nat
  /\ In (FLogError (py "Backup failed") (py "PermissionError"))
        (fr_out (process_single_file demo_timestamp demo_copy demo_load demo_save
                   demo_letter defaults false (py "inbox/a.xlsx") 0%nat))
  /\ fr_ok (process_single_file demo_timestamp demo_copy demo_load demo_save demo_letter
              defaults false (py "inbox/bad.xlsx") 0%nat) = false.
Proof. vm_compute. repeat split. right. left. reflexivity. Qed.

(** ** A file inside a folder *)

Lemma endswith_slash (a : str) :
  endswith (py "/") a = true -> exists d', a = d' ++ ["/"%char].
Proof.
  unfold endswith. intros H. apply startswith_spec in H as [t H].
  exists (rev t). apply (f_equal (@rev ascii)) in H.
  rewrite rev_involutive in H. rewrite H. reflexivity.
Qed.

(** Joining a folder and a plain name puts a directory prefix before
    the name: nothing, or something that ends in a slash. *)
Lemma path_join_prefix (a : str) :
  exists d, (d = [] \/ exists d', d = d' ++ ["/"%char])
            /\ forall g, ~ In "/"%char g -> path_join a g = d ++ g.
Proof.
  destruct a as [|c a'] eqn:Ea.
  - exists []. split; [now left |]. intros g Hg. unfold path_join.
    now rewrite (no_slash_startswith g Hg).
  - rewrite <- Ea. destruct (endswith (py "/") a) eqn:E.
    + exists a. split; [right; now apply endswith_slash |].
      intros g Hg. unfold path_join.
      rewrite (no_slash_startswith g Hg), E. now rewrite orb_true_r.
    + exists (a ++ ["/"%char]). split; [right; now exists a |].
      intros g Hg. unfold path_join.
      rewrite (no_slash_startswith g Hg), E. subst a. simpl.
      now rewrite <- app_assoc.
Qed.

Lemma basename_in_dir (d f : str) :
  ~ In "/"%char f -> (d = [] \/ exists d', d = d' ++ ["/"%char]) ->
  basename (d ++ f) = f.
Proof.
  intros Hf [-> | [d' ->]]; unfold basename, rfind.
  - simpl. now rewrite rfind_from_absent.
  - rewrite <- app_assoc. simpl. rewrite rfind_from_last by exact Hf.
    replace (Z.to_nat (0 + Z.of_nat (length d') + 1)) with (length (d' ++ ["/"%char]))
      by (rewrite length_app; simpl; lia).
    change (d' ++ "/"%char :: f) with (d' ++ ["/"%char] ++ f).
    now rewrite app_assoc, drop_app_length.
Qed.

Lemma splitext_in_dir (d f : str) :
  ~ In "/"%char f -> (d = [] \/ exists d', d = d' ++ ["/"%char]) ->
  splitext (d ++ f) = (d ++ fst (splitext f), snd (splitext f)).
Proof.
  intros Hf [-> | [d' ->]]; [simpl; now destruct (splitext f) |].
  assert (Sep' : rfind "/" ((d' ++ ["/"%char]) ++ f) = Z.of_nat (length d')).
  { unfold rfind. rewrite <- app_assoc. simpl.
    rewrite rfind_from_last by exact Hf. lia. }
  assert (Sep : rfind "/" f = (-1)%Z) by (unfold rfind; now apply rfind_from_absent).
  destruct (in_dec ascii_dec "."%char f) as [Hin | Hout].
  - destruct (in_split_last _ _ Hin) as [x [y [-> Hy]]].
    assert (Dot : rfind "." (x ++ "."%char :: y) = Z.of_nat (length x))
      by (unfold rfind; rewrite rfind_from_last by exact Hy; lia).
    assert (Dot' : rfind "." ((d' ++ ["/"%char]) ++ x ++ "."%char :: y)
                   = Z.of_nat (length ((d' ++ ["/"%char]) ++ x)))
      by (unfold rfind; rewrite app_assoc, rfind_from_last by exact Hy; lia).
    unfold splitext. rewrite Sep, Sep', Dot, Dot'. unfold slice.
    rewrite !Nat2Z.id.
    rewrite (app_assoc (d' ++ ["/"%char]) x), !take_app_length, !drop_app_length.
    replace (Z.to_nat (Z.of_nat (length d') + 1)) with (length (d' ++ ["/"%char]))
      by (rewrite length_app; simpl; lia).
    rewrite drop_app_length. change (Z.to_nat (-1 + 1)) with 0%nat. rewrite drop_0.
    assert (L1 : (Z.of_nat (length d') <? Z.of_nat (length ((d' ++ ["/"%char]) ++ x)))%Z = true)
      by (apply Z.ltb_lt; rewrite !length_app; simpl; lia).
    assert (L2 : (-1 <? Z.of_nat (length x))%Z = true) by (apply Z.ltb_lt; lia).
    rewrite L1, L2. cbn [andb].
    destruct (existsb (fun a => negb (ascii_eqb a ".")) x); cbn [fst snd].
    + reflexivity.
    + now rewrite <- app_assoc.
  - assert (Dot : rfind "." f = (-1)%Z) by (unfold rfind; now apply rfind_from_absent).
    assert (Dot' : (rfind "." ((d' ++ ["/"%char]) ++ f) <= Z.of_nat (length d'))%Z).
    { unfold rfind. rewrite rfind_from_app_absent by exact Hout.
      pose proof (rfind_range "." (d' ++ ["/"%char])) as R.
      unfold rfind in R. rewrite length_app in R. simpl in R. lia. }
    unfold splitext. rewrite Sep, Sep', Dot.
    assert (L1 : (Z.of_nat (length d') <? rfind "." ((d' ++ ["/"%char]) ++ f))%Z = false)
      by (apply Z.ltb_ge; exact Dot').
    rewrite L1. reflexivity.
Qed.

Lemma splitext_no_slash (f : str) :
  ~ In "/"%char f ->
  ~ In "/"%char (fst (splitext f)) /\ ~ In "/"%char (snd (splitext f)).
Proof.
  intros Hf. pose proof (splitext_join f) as J. split; intros H; apply Hf;
    rewrite <- J; apply in_or_app; [now left | now right].
Qed.

(** X19.  A listed file stays where it is.  For a name without a
    slash, joined to a folder as the batch does, the base name of the
    joined path is the name again, and the output path is the output name
    joined to the same folder: the output is written next to the source,
    whatever dots the folder's own name has. *)
Theorem output_next_to_source (folder f : str) :
  ~ In "/"%char f ->
  basename (path_join folder f) = f
  /\ output_path (path_join folder f) = path_join folder (output_path f)
  /\ basename (output_path (path_join folder f)) = output_path f.
Proof.
  intros Hf. destruct (path_join_prefix folder) as [d [Hd J]].
  destruct (splitext_no_slash f Hf) as [S1 S2].
  assert (O : ~ In "/"%char (output_path f)).
  { unfold output_path. destruct (splitext f) as [b e]. simpl in S1, S2.
    intros H. apply in_app_or in H as [H | H]; [now apply S1 |].
    apply in_app_or in H as [H | H]; [| now apply S2].
    vm_compute in H. repeat (destruct H as [H | H]; [discriminate H |]). exact H. }
  assert (E : output_path (d ++ f) = d ++ output_path f).
  { unfold output_path. rewrite (splitext_in_dir d f Hf Hd).
    destruct (splitext f) as [b e]. cbn [fst snd]. now rewrite <- app_assoc. }
  rewrite (J f Hf), (J _ O), E.
  split; [now apply basename_in_dir |]. split; [reflexivity |].
  now apply basename_in_dir.
Qed.

Lemma output_next_to_source_witness :
  ~ In "/"%char (py "data.xlsx")
  /\ output_path (path_join (py "in.box") (py "data.xlsx"))
     = path_join (py "in.box") (output_path (py "data.xlsx"))
  /\ output_path (path_join (py "in.box") (py "data.xlsx"))
     = py "in.box/data_with_hyperlinks.xlsx".
Proof.
  assert (H : ~ In "/"%char (py "data.xlsx")).
  { intros H. vm_compute in H. repeat (destruct H as [H | H]; [discriminate H |]). exact H. }
  split; [exact H |].
  destruct (output_next_to_source (py "in.box") (py "data.xlsx") H) as [_ [E _]].
  split; [exact E |]. vm_compute. reflexivity.
Defined.

(** ** Which files a batch takes *)

Lemma lower_char_idempotent (c : ascii) : lower_char (lower_char c) = lower_char c.
Proof.
  destruct c as [b0 b1 b2 b3 b4 b5 b6 b7].
  destruct b0, b1, b2, b3, b4, b5, b6, b7; vm_compute; reflexivity.
Qed.

Lemma lower_idempotent (s : str) : lower (lower s) = lower s.
Proof.
  induction s as [|c s IH]; simpl; [reflexivity |].
  now rewrite lower_char_idempotent, IH.
Qed.

Lemma endswith_spec (e s : str) : endswith e s = true <-> exists a, s = a ++ e.
Proof.
  unfold endswith. rewrite startswith_spec. split.
  - intros [t H]. exists (rev t). apply (f_equal (@rev ascii)) in H.
    rewrite rev_involutive, rev_app_distr, rev_involutive in H. exact H.
  - intros [a ->]. exists (rev a). apply rev_app_distr.
Qed.

Lemma endswith_lower_fixed (ext f : str) :
  endswith ext (lower f) = true -> lower ext = ext.
Proof.
  intros H. apply endswith_spec in H as [a H].
  pose proof (lower_idempotent f) as I. rewrite H, lower_app in I.
  apply app_inj_2 in I as [_ I]; [exact I | apply lower_length].
Qed.

(** X20.  File names are matched against the configured extensions
    without regard to the letter case of the name, but an extension that is
    itself written with a capital letter matches no file at all: whenever a
    file is supported, it is through an extension in lower case. *)
Theorem is_supported_case (cfg : BotConfig) (f : str) :
  is_supported cfg (lower f) = is_supported cfg f
  /\ (forall ext, lower ext <> ext -> endswith ext (lower f) = false)
  /\ (is_supported cfg f = true ->
      exists ext, In ext (supported_extensions cfg)
                  /\ lower ext = ext /\ endswith ext (lower f) = true).
Proof.
  split; [| split].
  - unfold is_supported. now rewrite lower_idempotent.
  - intros ext Hne. destruct (endswith ext (lower f)) eqn:E; [| reflexivity].
    exfalso. apply Hne. now apply (endswith_lower_fixed ext f).
  - unfold is_supported. intros H. apply existsb_exists in H as [ext [Hin He]].
    exists ext. split; [exact Hin |]. split; [| exact He].
    now apply (endswith_lower_fixed ext f).
Qed.

Example capital_extension_config :
  is_supported {| hyperlink_color := py "0000FF"; backup_files := true;
                  max_rows_to_process := 100000;
                  supported_extensions := [py ".XLSX"] |} (py "data.XLSX") = false
  /\ is_supported defaults (py "data.XLSX") = true.
Proof. vm_compute. split; reflexivity. Qed.

(** ** Every file of a batch is accounted for *)

Lemma count_lines_app (msg : str) (o1 o2 : list Event) :
  count_lines msg (o1 ++ o2) = (count_lines msg o1 + count_lines msg o2)%nat.
Proof. unfold count_lines. now rewrite List.filter_app, length_app. Qed.

Lemma file_error_lines_app (msg : str) (o1 o2 : list FileEvent) :
  file_error_lines msg (o1 ++ o2)
  = (file_error_lines msg o1 + file_error_lines msg o2)%nat.
Proof.
  induction o1 as [|e o1 IH]; [reflexivity |].
  destruct e; cbn [app file_error_lines]; rewrite IH; lia.
Qed.

Lemma errors_logged_app (msg : str) (o1 o2 : list BatchEvent) :
  errors_logged msg (o1 ++ o2) = (errors_logged msg o1 + errors_logged msg o2)%nat.
Proof.
  induction o1 as [|e o1 IH]; [reflexivity |].
  destruct e; cbn [app errors_logged]; rewrite IH; lia.
Qed.

(** A column conversion prints and never logs. *)
Lemma convert_loop_no_error_lines (cfg : BotConfig) (tq : bool) (col : nat)
    (total_rows : Z) (msg : str) (rows : list nat) (st : ConvState) :
  count_lines msg (st_out st) = 0%nat ->
  count_lines msg (st_out (fold_left (convert_row cfg tq col total_rows) rows st)) = 0%nat.
Proof.
  revert st. induction rows as [|row rows IH]; intros st H; simpl; [exact H |].
  apply IH.
  pose proof (convert_row_out cfg tq col total_rows st row) as E.
  destruct tq;
    [| destruct (last_progress st + 10 <=? Z.of_nat row * 100 / total_rows)%Z];
    injection E as -> _; rewrite ?count_lines_app, ?H; reflexivity.
Qed.

Lemma convert_column_no_error_lines (cfg : BotConfig) (tq : bool) (ws : Worksheet)
    (col : nat) (name msg : str) :
  count_lines msg (st_out (convert_column_to_hyperlinks cfg tq ws col name)) = 0%nat.
Proof.
  unfold convert_column_to_hyperlinks.
  destruct (analyze_column ws col) as [label confidence]. cbv zeta.
  destruct tq; cbn [st_out]; rewrite ?count_lines_app;
    rewrite convert_loop_no_error_lines; reflexivity.
Qed.

Section BatchAccounting.
Variable World : Type.
Variable fs_lookup : World -> str -> FsEntry.
Variable timestamp : World -> str.
Variable copy_to_backups : str -> str -> World -> Outcome unit * World.
Variable load_workbook : str -> World -> Outcome Workbook * World.
Variable wb_save : Workbook -> str -> World -> Outcome unit * World.
Variable get_column_letter : nat -> str.
Variables (cfg : BotConfig) (tq : bool).

Local Abbreviation run_file :=
  (process_single_file timestamp copy_to_backups load_workbook wb_save
     get_column_letter cfg tq).
Local Abbreviation call :=
  (call_process_single_file timestamp copy_to_backups load_workbook wb_save
     get_column_letter cfg tq).
Local Abbreviation bstep total := (batch_step World call tq total).
Local Abbreviation batch := (batch_process_folder World fs_lookup call cfg tq).

Lemma columns_no_error_lines (msg : str) (cols : list nat) (st : ColumnsState) :
  file_error_lines msg (cs_out st) = 0%nat ->
  file_error_lines msg
    (cs_out (fold_left (convert_columns_step get_column_letter cfg tq) cols st)) = 0%nat.
Proof.
  revert st. induction cols as [|c cols IH]; intros st H; simpl; [exact H |].
  apply IH. unfold convert_columns_step. cbn [cs_out].
  rewrite file_error_lines_app, H. cbn [file_error_lines].
  rewrite convert_column_no_error_lines. reflexivity.
Qed.

Lemma backup_no_error_lines (msg : str) (file_path : str) (w : World) :
  msg <> py "Backup failed" ->
  file_error_lines msg
    (snd (create_backup timestamp copy_to_backups cfg file_path w)) = 0%nat.
Proof.
  intros Hm. unfold create_backup. destruct (negb (backup_files cfg)); [reflexivity |].
  cbv zeta. destruct (copy_to_backups _ _ w) as [[[] | e] w1]; cbn [snd file_error_lines].
  - reflexivity.
  - rewrite bool_decide_false by congruence. reflexivity.
Qed.

(** A file that fails is logged once by its own handler, a file that
    succeeds not at all; the batch's message is never written by a file. *)
Lemma file_error_lines_flag (file_path : str) (w : World) :
  file_error_lines (py "Error processing") (fr_out (run_file file_path w))
  = (if fr_ok (run_file file_path w) then 0 else 1)%nat
  /\ file_error_lines (py "Failed to process") (fr_out (run_file file_path w)) = 0%nat.
Proof.
  assert (B1 := backup_no_error_lines (py "Error processing") file_path w).
  assert (B2 := backup_no_error_lines (py "Failed to process") file_path w).
  assert (C : forall msg sh,
            file_error_lines msg (cs_out (convert_columns get_column_letter cfg tq sh))
            = 0%nat)
    by (intros msg sh; now apply columns_no_error_lines).
  unfold process_single_file.
  destruct (create_backup timestamp copy_to_backups cfg file_path w) as [[bp w1] bout].
  cbn [snd] in B1, B2.
  specialize (B1 ltac:(vm_compute; discriminate)).
  specialize (B2 ltac:(vm_compute; discriminate)).
  destruct (load_workbook file_path w1) as [[wb | e] w2];
    [destruct (active wb) as [sh |];
       [destruct (wb_save _ (output_path file_path) w2) as [[u | e] w3] |] |];
    unfold file_failed; cbn [fr_ok fr_out];
    rewrite ?file_error_lines_app, ?B1, ?B2, ?C;
    cbn [file_error_lines]; rewrite ?file_error_lines_app, ?B1, ?B2, ?C;
    try (destruct bp; cbn [file_error_lines]);
    rewrite ?bool_decide_true by reflexivity;
    rewrite ?bool_decide_false by (vm_compute; discriminate);
    split; reflexivity.
Qed.

Lemma batch_step_account (total : nat) (st : BatchState World) (i : nat) (f : str) :
  (success_count (bstep total st (i, f))
   + errors_logged (py "Failed to process") (bs_out (bstep total st (i, f))))%nat
  = S (success_count st + errors_logged (py "Failed to process") (bs_out st))
  /\ (errors_logged (py "Error processing") (bs_out (bstep total st (i, f)))
      + errors_logged (py "Failed to process") (bs_out st))%nat
     = (errors_logged (py "Error processing") (bs_out st)
        + errors_logged (py "Failed to process") (bs_out (bstep total st (i, f))))%nat.
Proof.
  destruct (file_error_lines_flag f (bs_world st)) as [E F].
  unfold batch_step, call_process_single_file. cbv zeta.
  destruct (fr_ok (run_file f (bs_world st))); destruct tq;
    cbn [negb success_count bs_out];
    rewrite ?errors_logged_app; cbn [errors_logged is_error_line];
    rewrite E, F;
    rewrite ?bool_decide_true by reflexivity;
    rewrite ?bool_decide_false by (vm_compute; discriminate);
    split; lia.
Qed.

Lemma batch_loop_account (total : nat) (items : list (nat * str))
    (st : BatchState World) :
  (success_count (fold_left (bstep total) items st)
   + errors_logged (py "Failed to process") (bs_out (fold_left (bstep total) items st)))%nat
  = (length items
     + (success_count st + errors_logged (py "Failed to process") (bs_out st)))%nat
  /\ (errors_logged (py "Error processing") (bs_out (fold_left (bstep total) items st))
      + errors_logged (py "Failed to process") (bs_out st))%nat
     = (errors_logged (py "Error processing") (bs_out st)
        + errors_logged (py "Failed to process")
            (bs_out (fold_left (bstep total) items st)))%nat.
Proof.
  revert st. induction items as [|[i f] items IH]; intros st;
    cbn [fold_left length]; [split; lia |].
  destruct (IH (bstep total st (i, f))) as [IH1 IH2].
  destruct (batch_step_account total st i f) as [S1 S2].
  split; lia.
Qed.

Lemma errors_logged_own (msg : str) (out : list Event) :
  count_lines msg out = 0%nat -> errors_logged msg (map ByBatch out) = 0%nat.
Proof.
  induction out as [|e out IH]; [reflexivity |].
  unfold count_lines. cbn [List.filter map errors_logged].
  destruct (is_error_line msg e); cbn [length]; [discriminate |].
  intros H. now rewrite IH.
Qed.

(** X21.  A batch accounts for every file it found, and a file that
    fails is logged twice.  The successes and the "Failed to process"
    lines add up to the number of supported files in the folder.
    [process_single_file] catches what goes wrong and logs "Error
    processing" itself before it returns [False], so the log of the
    program holds one "Error processing" line for each "Failed to process"
    line, all of them written by the files: successes, "Failed to process"
    lines and "Error processing" lines add up to the number of files plus
    the number of failures. *)
Theorem batch_accounts_for_every_file (folder_path : str) (w : World)
    (entries : list str) :
  fs_lookup w folder_path = Directory entries ->
  (success_count (snd (batch folder_path w))
   + errors_logged (py "Failed to process") (bs_out (snd (batch folder_path w))))%nat
  = length (List.filter (is_supported cfg) entries)
  /\ errors_logged (py "Error processing") (bs_out (snd (batch folder_path w)))
     = errors_logged (py "Failed to process") (bs_out (snd (batch folder_path w)))
  /\ (success_count (snd (batch folder_path w))
      + errors_logged (py "Error processing") (bs_out (snd (batch folder_path w))))%nat
     = length (List.filter (is_supported cfg) entries).
Proof.
  intros L.
  enough (H : (success_count (snd (batch folder_path w))
               + errors_logged (py "Failed to process")
                   (bs_out (snd (batch folder_path w))))%nat
              = length (List.filter (is_supported cfg) entries)
              /\ errors_logged (py "Error processing") (bs_out (snd (batch folder_path w)))
                 = errors_logged (py "Failed to process")
                     (bs_out (snd (batch folder_path w)))).
  { destruct H as [H1 H2]. split; [exact H1 |]. split; [exact H2 |].
    rewrite H2. exact H1. }
  unfold batch_process_folder. rewrite L.
  set (files := map (path_join folder_path)
                  (filter (fun f => is_supported cfg f = true) entries)).
  assert (Len : length files = length (List.filter (is_supported cfg) entries)).
  { unfold files. rewrite length_map. f_equal.
    clear. induction entries as [|e entries IH]; [reflexivity |].
    rewrite filter_cons. simpl.
    destruct (is_supported cfg e) eqn:E.
    - rewrite decide_True by reflexivity. now rewrite IH.
    - rewrite decide_False by discriminate. exact IH. }
  destruct (decide (files = [])) as [E | E].
  - rewrite <- Len, E. split; reflexivity.
  - cbv zeta. cbn [snd success_count bs_out].
    rewrite !errors_logged_app.
    set (st0 := {| bs_world := w; success_count := 0;
                   bs_out := map ByBatch
                               ([PrintFound (length files); LogFound (length files)]
                                ++ (if tq then [TqdmOpen (Z.of_nat (length files))]
                                    else [PrintMsg (py "Starting batch processing...")])) |}).
    destruct (batch_loop_account (length files) (enumerate files) st0) as [A1 A2].
    assert (Le : length (enumerate files) = length files).
    { unfold enumerate. rewrite length_combine, length_seq. lia. }
    rewrite Le in A1. rewrite <- Len.
    assert (Z1 : forall msg, errors_logged msg (bs_out st0) = 0%nat)
      by (intros msg; apply errors_logged_own; destruct tq; reflexivity).
    assert (Z2 : forall msg n,
               errors_logged msg
                 (map ByBatch ((if tq then [TqdmClose] else [])
                               ++ [PrintBatchDone n (length files);
                                   LogBatchDone n (length files)])) = 0%nat)
      by (intros msg n; apply errors_logged_own; destruct tq; reflexivity).
    rewrite (Z1 (py "Failed to process")) in A1, A2.
    rewrite (Z1 (py "Error processing")) in A2.
    change (success_count st0) with 0%nat in A1.
    rewrite !Z2. split; lia.
Qed.
End BatchAccounting.

Lemma batch_accounts_for_every_file_witness :
  demo_folder 0 (py "inbox")
  = Directory (map py ["a.xlsx"; "bad.xlsx"; "notes.txt"; "c.XLSX"]%string)
  /\ success_count
       (snd (batch_process_folder nat demo_folder
               (call_process_single_file demo_timestamp demo_copy demo_load demo_save
                  demo_letter defaults false)
               defaults false (py "inbox") 0%nat))
     = 2%nat
  /\ errors_logged (py "Error processing")
       (bs_out (snd (batch_process_folder nat demo_folder
                       (call_process_single_file demo_timestamp demo_copy demo_load
                          demo_save demo_letter defaults false)
                       defaults false (py "inbox") 0%nat)))
     = 1%nat.
Proof.
  assert (H : demo_folder 0 (py "inbox")
              = Directory (map py ["a.xlsx"; "bad.xlsx"; "notes.txt"; "c.XLSX"]%string))
    by (vm_compute; reflexivity).
  split; [exact H |].
  destruct (batch_accounts_for_every_file nat demo_folder demo_timestamp demo_copy
              demo_load demo_save demo_letter defaults false (py "inbox") 0%nat _ H)
    as [_ [_ A]].
  assert (S2 : success_count
                 (snd (batch_process_folder nat demo_folder
                         (call_process_single_file demo_timestamp demo_copy demo_load
                            demo_save demo_letter defaults false)
                         defaults false (py "inbox") 0%nat)) = 2%nat)
    by (vm_compute; reflexivity).
  split; [exact S2 |].
  rewrite S2 in A.
  change (length (List.filter (is_supported defaults)
            (map py ["a.xlsx"; "bad.xlsx"; "notes.txt"; "c.XLSX"]%string))) with 3%nat in A.
  lia.
Defined.

(** ** The configuration store *)

(** What [update] leaves in the store when it is given an array. *)
Lemma dict_update_items_lookup (items : list ArrayItem) (d : gmap str JValue) (k : str) :
  fst (dict_update_items items d) !! k
  = match last_value k (leading_pairs items) with
    | Some v => Some v
    | None => d !! k
    end.
Proof.
  revert d. induction items as [|[k' v |] items IH]; intros d;
    cbn [dict_update_items leading_pairs last_value fst]; try reflexivity.
  rewrite IH. destruct (last_value k (leading_pairs items)); [reflexivity |].
  destruct (decide (k' = k)) as [-> | N].
  - now rewrite lookup_insert_eq.
  - now rewrite lookup_insert_ne.
Qed.

Lemma dict_update_items_returned (items : list ArrayItem) (d : gmap str JValue) :
  snd (dict_update_items items d) = true <-> ~ In BadItem items.
Proof.
  revert d. induction items as [|[k' v |] items IH]; intros d;
    cbn [dict_update_items snd].
  - split; [intros _ [] | reflexivity].
  - rewrite IH. split.
    + intros H [F | F]; [discriminate F | now apply H].
    + intros H F. apply H. now right.
  - split; [discriminate | intros H; exfalso; apply H; now left].
Qed.

Lemma dict_update_items_keeps_keys (items : list ArrayItem) (d : gmap str JValue) :
  has_default_keys d -> has_default_keys (fst (dict_update_items items d)).
Proof.
  intros H k Hk. rewrite dict_update_items_lookup.
  destruct (last_value k (leading_pairs items)); [now eexists | now apply H].
Qed.

Lemma init_has_default_keys (w : ConfigWorld) :
  has_default_keys (fst (fst (BotConfigStore.init w))).
Proof.
  unfold BotConfigStore.init, BotConfigStore.load_config.
  destruct (cf_file w) as [| |saved |items].
  - intros k Hk. destruct (BotConfigStore.save_config _ w). exact Hk.
  - intros k Hk. exact Hk.
  - intros k Hk. cbn [fst]. apply lookup_union_is_Some. now right.
  - pose proof (dict_update_items_keeps_keys items BotConfigStore.defaults) as K.
    destruct (dict_update_items items BotConfigStore.defaults) as [d' ok].
    cbn [fst] in *. apply K. intros k Hk. exact Hk.
Qed.

Lemma set_store (k : str) (v : JValue) (d : gmap str JValue) (w : ConfigWorld) :
  fst (fst (BotConfigStore.set k v d w)) = <[k := v]> d.
Proof.
  unfold BotConfigStore.set. now destruct (BotConfigStore.save_config _ w).
Qed.

Lemma set_world (k : str) (v : JValue) (d : gmap str JValue) (w : ConfigWorld) :
  snd (fst (BotConfigStore.set k v d w))
  = fst (BotConfigStore.save_config (<[k := v]> d) w).
Proof.
  unfold BotConfigStore.set. now destruct (BotConfigStore.save_config _ w).
Qed.

Lemma config_step_keeps_keys (st : gmap str JValue * ConfigWorld) (op : str * JValue) :
  has_default_keys (fst st) -> has_default_keys (fst (config_step st op)).
Proof.
  intros H k Hk. unfold config_step. rewrite set_store.
  apply lookup_insert_is_Some.
  destruct (decide (fst op = k)); [now left | right; split; [assumption | now apply H]].
Qed.

Lemma config_session_keeps_keys (ops : list (str * JValue))
    (st : gmap str JValue * ConfigWorld) :
  has_default_keys (fst st) -> has_default_keys (fst (fold_left config_step ops st)).
Proof.
  revert st. induction ops as [|op ops IH]; intros st H; simpl; [exact H |].
  apply IH. now apply config_step_keeps_keys.
Qed.

(** X22.  No built-in setting ever goes missing.  Whatever the
    configuration file held at the start, whichever settings are changed
    afterwards and whether or not the writes work, every key of the
    built-in defaults is set in the store, so [get] on such a key returns
    a stored value and not the [None] of a missing key. *)
Theorem default_keys_always_set (w : ConfigWorld) (ops : list (str * JValue)) (k : str) :
  is_Some (BotConfigStore.defaults !! k) ->
  exists v, fst (config_session w ops) !! k = Some v
            /\ BotConfigStore.get (fst (config_session w ops)) k = v.
Proof.
  intros Hk. unfold config_session.
  pose proof (config_session_keeps_keys ops (fst (BotConfigStore.init w))
                (init_has_default_keys w) k Hk) as [v Hv].
  exists v. split; [exact Hv |]. unfold BotConfigStore.get. now rewrite Hv.
Qed.

Lemma default_keys_always_set_witness :
  is_Some (BotConfigStore.defaults !! py "max_rows_to_process")
  /\ exists v,
       fst (config_session {| cf_file := Saved {[ py "log_level" := JStr (py "DEBUG") ]};
                              cf_writes := [OpenFails] |}
              [(py "hyperlink_color", JStr (py "FF0000"))]) !! py "max_rows_to_process"
       = Some v.
Proof.
  assert (H : is_Some (BotConfigStore.defaults !! py "max_rows_to_process"))
    by (vm_compute; eexists; reflexivity).
  split; [exact H |].
  destruct (default_keys_always_set
              {| cf_file := Saved {[ py "log_level" := JStr (py "DEBUG") ]};
                 cf_writes := [OpenFails] |}
              [(py "hyperlink_color", JStr (py "FF0000"))]
              (py "max_rows_to_process") H) as [v [Hv _]].
  now exists v.
Defined.

(** X23.  Loading merges the file over the store: a key the file holds
    takes the file's value, any other key keeps the value it had, and
    keys unknown to the program are taken in as well.  A file that
    cannot be opened or parsed leaves the store as it was.  A file that
    holds an array is taken pair by pair, a later pair overriding an
    earlier one, up to the first element that is no pair: there loading
    fails with a warning, and the pairs before it stay in the store, so a
    file that fails to load can still change settings.  Loading never
    changes a file that exists. *)
Theorem load_config_merges (d : gmap str JValue) (w : ConfigWorld) :
  (forall saved, cf_file w = Saved saved ->
     snd (fst (BotConfigStore.load_config d w)) = w
     /\ forall k,
          fst (fst (BotConfigStore.load_config d w)) !! k
          = match saved !! k with
            | Some v => Some v
            | None => d !! k
            end)
  /\ (cf_file w = Unreadable ->
      fst (BotConfigStore.load_config d w) = (d, w))
  /\ (forall items, cf_file w = SavedArray items ->
      snd (fst (BotConfigStore.load_config d w)) = w
      /\ (forall k,
            fst (fst (BotConfigStore.load_config d w)) !! k
            = match last_value k (leading_pairs items) with
              | Some v => Some v
              | None => d !! k
              end)
      /\ (In BadItem items ->
          snd (BotConfigStore.load_config d w)
          = [CfgWarning (py "Could not load config")])
      /\ (~ In BadItem items ->
          snd (BotConfigStore.load_config d w)
          = [CfgInfo (py "Configuration loaded from file")]))
  /\ (cf_file w = NoFile ->
      fst (fst (BotConfigStore.load_config d w)) = d
      /\ (hd WriteOk (cf_writes w) = WriteOk ->
          cf_file (snd (fst (BotConfigStore.load_config d w))) = Saved d)).
Proof.
  unfold BotConfigStore.load_config. split; [| split; [| split]].
  - intros saved ->. cbn [fst snd]. split; [reflexivity |].
    intros k. rewrite lookup_union. destruct (saved !! k), (d !! k); reflexivity.
  - now intros ->.
  - intros items ->.
    pose proof (dict_update_items_lookup items d) as Hl.
    pose proof (dict_update_items_returned items d) as Hr.
    destruct (dict_update_items items d) as [d' ok]. cbn [fst snd] in *.
    split; [reflexivity |]. split; [exact Hl |]. split.
    + intros Hb. destruct ok; [| reflexivity].
      exfalso. now apply (proj1 Hr eq_refl).
    + intros Hn. now rewrite (proj2 Hr Hn).
  - intros ->. unfold BotConfigStore.save_config.
    destruct (cf_writes w) as [|[| |] rest]; cbn [fst snd hd]; split;
      try reflexivity; try discriminate; intros _; reflexivity.
Qed.

(** An array whose first element sets the colour and whose second is no
    pair: loading fails, and the colour has changed. *)
Lemma load_config_merges_witness :
  BotConfigStore.get
    (fst (fst (BotConfigStore.init
       {| cf_file := SavedArray [Pair (py "hyperlink_color") (JStr (py "FF0000")); BadItem];
          cf_writes := [] |})))
    (py "hyperlink_color") = JStr (py "FF0000")
  /\ snd (BotConfigStore.init
       {| cf_file := SavedArray [Pair (py "hyperlink_color") (JStr (py "FF0000")); BadItem];
          cf_writes := [] |})
     = [CfgWarning (py "Could not load config")].
Proof.
  destruct (load_config_merges BotConfigStore.defaults
              {| cf_file := SavedArray [Pair (py "hyperlink_color") (JStr (py "FF0000"));
                                        BadItem];
                 cf_writes := [] |}) as [_ [_ [A _]]].
  destruct (A _ eq_refl) as [_ [Hk [Hw _]]].
  split.
  - unfold BotConfigStore.get, BotConfigStore.init. rewrite Hk. reflexivity.
  - apply Hw. right. now left.
Defined.

(** X24.  [set] then [get] gives the value back and touches no other
    key.  The store changes even when the file cannot be written: the
    failure is logged, not raised, and then the file no longer agrees with
    the store.  When the write works the file holds exactly the store. *)
Theorem set_then_get (k : str) (v : JValue) (d : gmap str JValue) (w : ConfigWorld) :
  BotConfigStore.get (fst (fst (BotConfigStore.set k v d w))) k = v
  /\ (forall j, j <> k ->
        BotConfigStore.get (fst (fst (BotConfigStore.set k v d w))) j
        = BotConfigStore.get d j)
  /\ (hd WriteOk (cf_writes w) = WriteOk ->
      cf_file (snd (fst (BotConfigStore.set k v d w)))
      = Saved (fst (fst (BotConfigStore.set k v d w))))
  /\ (hd WriteOk (cf_writes w) = OpenFails ->
      cf_file (snd (fst (BotConfigStore.set k v d w))) = cf_file w
      /\ snd (BotConfigStore.set k v d w) = [CfgError (py "Could not save config")])
  /\ (hd WriteOk (cf_writes w) = DumpFails ->
      cf_file (snd (fst (BotConfigStore.set k v d w))) = Unreadable).
Proof.
  rewrite set_store, set_world. unfold BotConfigStore.get.
  split; [now rewrite lookup_insert_eq |].
  split; [intros j Hj; now rewrite lookup_insert_ne |].
  unfold BotConfigStore.set, BotConfigStore.save_config.
  destruct (cf_writes w) as [|[| |] rest]; cbn [fst snd hd cf_file];
    repeat split; try reflexivity; discriminate.
Qed.

(** X25.  Settings survive a restart.  Whenever, at some point of a
    run, the file holds the settings as they are in the store, creating
    the store anew from that file gives exactly those settings back and
    leaves the file as it is. *)
Theorem settings_survive_restart (w : ConfigWorld) (ops : list (str * JValue)) :
  cf_file (snd (config_session w ops)) = Saved (fst (config_session w ops)) ->
  fst (BotConfigStore.init (snd (config_session w ops)))
  = (fst (config_session w ops), snd (config_session w ops)).
Proof.
  intros H.
  pose proof (config_session_keeps_keys ops (fst (BotConfigStore.init w))
                (init_has_default_keys w)) as K.
  fold (config_session w ops) in K.
  unfold BotConfigStore.init, BotConfigStore.load_config. rewrite H. cbn [fst].
  f_equal. apply map_eq. intros k. rewrite lookup_union.
  destruct (fst (config_session w ops) !! k) as [v |] eqn:E.
  - now destruct (BotConfigStore.defaults !! k).
  - destruct (BotConfigStore.defaults !! k) as [v |] eqn:D; [| reflexivity].
    destruct (K k) as [v' Hv']; [now exists v | congruence].
Qed.

Lemma settings_survive_restart_witness :
  cf_file (snd (config_session {| cf_file := Unreadable; cf_writes := [DumpFails; WriteOk] |}
                  [(py "log_level", JStr (py "DEBUG"));
                   (py "hyperlink_color", JStr (py "FF0000"))]))
  = Saved (fst (config_session {| cf_file := Unreadable; cf_writes := [DumpFails; WriteOk] |}
                  [(py "log_level", JStr (py "DEBUG"));
                   (py "hyperlink_color", JStr (py "FF0000"))]))
  /\ BotConfigStore.get
       (fst (fst (BotConfigStore.init
          (snd (config_session {| cf_file := Unreadable; cf_writes := [DumpFails; WriteOk] |}
                  [(py "log_level", JStr (py "DEBUG"));
                   (py "hyperlink_color", JStr (py "FF0000"))])))))
       (py "log_level") = JStr (py "DEBUG").
Proof.
  assert (H : cf_file (snd (config_session
                              {| cf_file := Unreadable; cf_writes := [DumpFails; WriteOk] |}
                              [(py "log_level", JStr (py "DEBUG"));
                               (py "hyperlink_color", JStr (py "FF0000"))]))
              = Saved (fst (config_session
                              {| cf_file := Unreadable; cf_writes := [DumpFails; WriteOk] |}
                              [(py "log_level", JStr (py "DEBUG"));
                               (py "hyperlink_color", JStr (py "FF0000"))])))
    by reflexivity.
  split; [exact H |].
  rewrite (settings_survive_restart _ _ H). cbn [fst].
  vm_compute. reflexivity.
Defined.

(** ** The settings menu *)

Lemma color_pattern_shape (s : str) :
  Matches color_pattern s -> length s = 6%nat /\ forallb is_hex s = true.
Proof.
  unfold color_pattern. intros H.
  repeat (apply Matches_cat_iff in H as [? [? [-> [?H H]]]]).
  repeat match goal with
         | H : Matches (ReClass _) _ |- _ =>
             apply Matches_class_iff in H as [? [-> ?]]
         end.
  simpl. split; [reflexivity |].
  repeat match goal with
         | H : is_hex _ = true |- _ => rewrite H; clear H
         end.
  reflexivity.
Qed.

Ltac key_ne := let H := fresh in intros H; vm_compute in H; discriminate H.

Lemma menu_valid_color (d : gmap str JValue) (s : str) :
  length s = 6%nat -> forallb is_upper_hex s = true ->
  menu_valid d -> menu_valid (<[py "hyperlink_color" := JStr s]> d).
Proof.
  intros L F [_ [[n [Hn Pn]] [[b Hb] [l [Hl Pl]]]]]. unfold menu_valid.
  rewrite lookup_insert_eq, !lookup_insert_ne by key_ne.
  split; [now exists s |]. split; [now exists n |]. split; [now exists b | now exists l].
Qed.

Lemma menu_valid_rows (d : gmap str JValue) (n : Z) :
  (0 < n)%Z -> menu_valid d -> menu_valid (<[py "max_rows_to_process" := JInt n]> d).
Proof.
  intros P [[s [Hs Ps]] [_ [[b Hb] [l [Hl Pl]]]]]. unfold menu_valid.
  rewrite lookup_insert_eq, !lookup_insert_ne by key_ne.
  split; [now exists s |]. split; [now exists n |]. split; [now exists b | now exists l].
Qed.

Lemma menu_valid_backup (d : gmap str JValue) (b : bool) :
  menu_valid d -> menu_valid (<[py "backup_files" := JBool b]> d).
Proof.
  intros [[s [Hs Ps]] [[n [Hn Pn]] [_ [l [Hl Pl]]]]]. unfold menu_valid.
  rewrite lookup_insert_eq, !lookup_insert_ne by key_ne.
  split; [now exists s |]. split; [now exists n |]. split; [now exists b | now exists l].
Qed.

Lemma menu_valid_level (d : gmap str JValue) (l : str) :
  In l log_levels -> menu_valid d -> menu_valid (<[py "log_level" := JStr l]> d).
Proof.
  intros P [[s [Hs Ps]] [[n [Hn Pn]] [[b Hb] _]]]. unfold menu_valid.
  rewrite lookup_insert_eq, !lookup_insert_ne by key_ne.
  split; [now exists s |]. split; [now exists n |]. split; [now exists b | now exists l].
Qed.

Lemma defaults_menu_valid : menu_valid BotConfigStore.defaults.
Proof.
  unfold menu_valid. split; [| split; [| split]].
  - exists (py "0000FF"). repeat split.
  - exists 100000%Z. split; [reflexivity | lia].
  - exists true. reflexivity.
  - exists (py "INFO"). split; [reflexivity | right; now left].
Qed.

Section MenuProperties.
Variable parse_int : str -> option Z.
Variable upper : str -> str.
Hypothesis upper_hex :
  forall s, length s = 6%nat -> forallb is_hex s = true ->
            length (upper s) = 6%nat /\ forallb is_upper_hex (upper s) = true.

Local Abbreviation menu := (update_configuration parse_int upper).

Lemma menu_keeps_valid (n : nat) :
  forall inputs d w, (length inputs <= n)%nat -> menu_valid d ->
                     menu_valid (fst (snd (menu inputs d w))).
Proof using upper_hex.
  induction n as [|n IH]; intros inputs d w Hlen Hv.
  - destruct inputs; [exact Hv | simpl in Hlen; lia].
  - destruct inputs as [|line rest]; [exact Hv |].
    simpl in Hlen. cbn [update_configuration].
    destruct (decide (strip line = py "1")).
    { destruct rest as [|line2 rest']; [exact Hv |]. simpl in Hlen.
      destruct (re_match_anchored color_pattern (strip line2)) eqn:M;
        [| apply IH; [lia | exact Hv]].
      rewrite re_match_anchored_trimmed in M by apply strip_trimmed.
      apply full_match_spec, color_pattern_shape in M as [L F].
      destruct (upper_hex _ L F) as [L' F'].
      apply IH; [lia |]. rewrite set_store. now apply menu_valid_color. }
    destruct (decide (strip line = py "2")).
    { apply IH; [lia |]. rewrite set_store. now apply menu_valid_backup. }
    destruct (decide (strip line = py "3")).
    { destruct rest as [|line2 rest']; [exact Hv |]. simpl in Hlen.
      destruct (parse_int (strip line2)) as [m |]; [| apply IH; [lia | exact Hv]].
      destruct (0 <? m)%Z eqn:P; [| apply IH; [lia | exact Hv]].
      apply Z.ltb_lt in P.
      apply IH; [lia |]. rewrite set_store. now apply menu_valid_rows. }
    destruct (decide (strip line = py "4")).
    { destruct rest as [|line2 rest']; [exact Hv |]. simpl in Hlen.
      destruct (existsb _ log_levels) eqn:X; [| apply IH; [lia | exact Hv]].
      apply existsb_exists in X as [l [Hl E]]. apply bool_decide_eq_true in E.
      apply IH; [lia |]. rewrite set_store, E. now apply menu_valid_level. }
    destruct (decide (strip line = py "5")); [exact Hv |].
    apply IH; [lia | exact Hv].
Qed.

(** X26.  The settings menu keeps the settings well formed.  Started
    on settings with a colour of six capital hex digits, a positive row
    cap, a boolean backup switch and a known log level, it leaves such
    settings whatever is typed and however it ends: a colour is stored only
    after the six-hex-digit check and in capitals, a row cap only when it
    is a positive number, a log level only when it is one of the four. *)
Theorem update_configuration_keeps_valid (inputs : list str)
    (d : gmap str JValue) (w : ConfigWorld) :
  menu_valid d -> menu_valid (fst (snd (menu inputs d w))).
Proof using upper_hex.
  apply (menu_keeps_valid (length inputs)). lia.
Qed.
End MenuProperties.

Lemma ascii_upper_hex (s : str) :
  length s = 6%nat -> forallb is_hex s = true ->
  length (ascii_upper s) = 6%nat /\ forallb is_upper_hex (ascii_upper s) = true.
Proof.
  intros L F. unfold ascii_upper. rewrite length_map. split; [exact L |].
  clear L. induction s as [|c s IH]; [reflexivity |].
  simpl in F. apply andb_true_iff in F as [Fc Fs]. simpl.
  rewrite (IH Fs), andb_true_r. clear IH Fs. revert Fc.
  destruct c as [b0 b1 b2 b3 b4 b5 b6 b7].
  destruct b0, b1, b2, b3, b4, b5, b6, b7; vm_compute; intros H;
    first [reflexivity | discriminate H].
Qed.

Lemma update_configuration_keeps_valid_witness :
  menu_valid BotConfigStore.defaults
  /\ menu_valid
       (fst (snd (update_configuration digits_int ascii_upper
                    (map py ["1"; "ff00aa"; "3"; "0"; "3"; "250"; "4"; "debug"; "9"]%string)
                    BotConfigStore.defaults
                    {| cf_file := NoFile; cf_writes := [] |})))
  /\ BotConfigStore.get
       (fst (snd (update_configuration digits_int ascii_upper
                    (map py ["1"; "ff00aa"; "3"; "0"; "3"; "250"; "4"; "debug"; "9"]%string)
                    BotConfigStore.defaults
                    {| cf_file := NoFile; cf_writes := [] |})))
       (py "hyperlink_color") = JStr (py "FF00AA").
Proof.
  split; [exact defaults_menu_valid |].
  split; [| vm_compute; reflexivity].
  apply (update_configuration_keeps_valid digits_int ascii_upper ascii_upper_hex).
  exact defaults_menu_valid.
Defined.
